(** * ZetaNet / NetKeeper front end: network allocation and live telemetry

    A shallow embedding of the parts of the React administration console
    that decide the behaviour of the traffic monitor, the IP-pool views,
    the router connection, the fibre provisioning cascade and the cell
    creation wizard:

    - [src/frontend/src/pages/network/NodosRedPage.jsx]
      ([calcPct], [ConnectForm], [TrafficMonitor.fetchTraffic],
       [InterfaceIpBlock], [InterfacesPanel], [OltConnectForm], [OltTab],
       [NodosRedPage.handleConnect], [NodosRedPage.handleDisconnect]);
    - [src/frontend/src/pages/cells/CellDetailPage.jsx]
      ([InterfacePoolBlock]);
    - [src/frontend/src/pages/dashboard/DashboardPage.jsx]
      ([CreateConnectionModal]: its effects, its handlers and both
       branches of [handleSubmit]);
    - [src/frontend/src/pages/cells/CellsPage.jsx]
      ([getStoredInterfaces], [getSuggestedAssignment],
       [getAssignmentOptions], [CellCreateModal]: its form, its steps,
       [validateStep] and [handleSubmit]).

    JavaScript numbers are IEEE 754 binary64 values and are modelled by
    Rocq's primitive floats, which are the same format with the same
    round-to-nearest-even arithmetic.  A string is the UTF-8 text of the
    JavaScript string.  The snapshot objects of the traffic monitor,
    which are indexed by interface names the router chooses, are plain
    objects with their prototype: own properties in a [gmap], and what
    [Object.prototype] adds to a read.  The other objects used as
    dictionaries are [gmap]s keyed by strings; arrays are lists; React
    state is an explicit record threaded through the handlers. *)

From Stdlib Require Import ZArith Floats Uint63 Ascii String Permutation.
From stdpp Require Import gmap strings list pretty.

Set Default Proof Using "Type".

(* ===================================================================== *)
(** * Part I.  Definitions                                               *)
(* ===================================================================== *)

(** ** JavaScript primitives used by the pages *)

Module JS.

Definition is_pos_zero (x : float) : bool :=
  (x =? 0)%float && negb (get_sign x).

Definition is_neg_zero (x : float) : bool :=
  (x =? 0)%float && get_sign x.

(** [ToBoolean] on a Number: [+0], [-0] and [NaN] are falsy. *)
Definition truthy_number (x : float) : bool :=
  negb ((x =? 0)%float || is_nan x).

(** [x > 0] on Numbers. *)
Definition gt0 (x : float) : bool := (0 <? x)%float.

(** [Math.max(a, b)] (ECMA-262, 21.3.2.24): the running maximum starts
    at [-Infinity]; a [NaN] argument gives [NaN]; [+0] is larger than
    [-0]. *)
Definition Math_max (a b : float) : float :=
  if is_nan a then nan
  else if is_nan b then nan
  else if is_pos_zero b && is_neg_zero a then b
  else if (a <? b)%float then b
  else a.



(** [ToBoolean] on a String: only the empty string is falsy. *)
Definition truthy_string (s : string) : bool :=
  match s with EmptyString => false | _ => true end.

(** *** White space

    A string holds the UTF-8 text of the JavaScript string.  The white
    space that [parseInt] and [trim] skip is WhiteSpace and
    LineTerminator of ECMA-262 (12.2 and 12.3): U+0009 to U+000D and
    U+0020, of one byte each; U+00A0, of two bytes; U+1680, U+2000 to
    U+200A, U+2028, U+2029, U+202F, U+205F, U+3000 and U+FEFF, of three
    bytes each. *)

Definition is_space (c : ascii) : bool :=
  let n := nat_of_ascii c in
  (n =? 32)%nat || ((9 <=? n)%nat && (n <=? 13)%nat).

Definition is_space2 (c1 c2 : ascii) : bool :=
  (nat_of_ascii c1 =? 194)%nat && (nat_of_ascii c2 =? 160)%nat.

Definition is_space3 (c1 c2 c3 : ascii) : bool :=
  let n1 := nat_of_ascii c1 in
  let n2 := nat_of_ascii c2 in
  let n3 := nat_of_ascii c3 in
  ((n1 =? 225) && (n2 =? 154) && (n3 =? 128)
   || (n1 =? 226) && (n2 =? 128)
      && ((128 <=? n3) && (n3 <=? 138) || (n3 =? 168) || (n3 =? 169) || (n3 =? 175))
   || (n1 =? 226) && (n2 =? 129) && (n3 =? 159)
   || (n1 =? 227) && (n2 =? 128) && (n3 =? 128)
   || (n1 =? 239) && (n2 =? 187) && (n3 =? 191))%nat.

(** The string without the white space it starts with. *)
Fixpoint skip_spaces (s : string) : string :=
  match s with
  | String c1 s1 =>
      if is_space c1 then skip_spaces s1
      else
        match s1 with
        | String c2 s2 =>
            if is_space2 c1 c2 then skip_spaces s2
            else
              match s2 with
              | String c3 s3 => if is_space3 c1 c2 c3 then skip_spaces s3 else s
              | EmptyString => s
              end
        | EmptyString => s
        end
  | EmptyString => s
  end.

(** A string made of white space only. *)
Fixpoint all_spaces (s : string) : bool :=
  match s with
  | String c1 s1 =>
      if is_space c1 then all_spaces s1
      else
        match s1 with
        | String c2 s2 =>
            if is_space2 c1 c2 then all_spaces s2
            else
              match s2 with
              | String c3 s3 => is_space3 c1 c2 c3 && all_spaces s3
              | EmptyString => false
              end
        | EmptyString => false
        end
  | EmptyString => true
  end.

(** *** [parseInt(s)] without a radix

    Leading white space is skipped, an optional sign is read, a [0x] or
    [0X] prefix selects base 16, and the longest prefix of digits is
    converted; [None] stands for [NaN].  The result is the integer the
    digits denote; the Number [parseInt] returns is that integer as long
    as it is below [2^53] in magnitude. *)

Definition digit_value (radix : Z) (c : ascii) : option Z :=
  let n := Z.of_nat (nat_of_ascii c) in
  let v :=
    if (48 <=? n)%Z && (n <=? 57)%Z then Some (n - 48)%Z
    else if (97 <=? n)%Z && (n <=? 122)%Z then Some (n - 87)%Z
    else if (65 <=? n)%Z && (n <=? 90)%Z then Some (n - 55)%Z
    else None in
  match v with
  | Some d => if (d <? radix)%Z then Some d else None
  | None => None
  end.

Fixpoint read_digits (radix : Z) (s : string) (acc : option Z) : option Z :=
  match s with
  | String c s' =>
      match digit_value radix c with
      | Some d => read_digits radix s' (Some (default 0%Z acc * radix + d)%Z)
      | None => acc
      end
  | EmptyString => acc
  end.

Definition strip_hex_prefix (s : string) : option string :=
  match s with
  | String "0" (String "x" s') => Some s'
  | String "0" (String "X" s') => Some s'
  | _ => None
  end.

Definition parse_magnitude (s : string) : option Z :=
  match strip_hex_prefix s with
  | Some s' => read_digits 16 s' None
  | None => read_digits 10 s None
  end.

Definition parseInt (s : string) : option Z :=
  match skip_spaces s with
  | String "-" s' => Z.opp <$> parse_magnitude s'
  | String "+" s' => parse_magnitude s'
  | s' => parse_magnitude s'
  end.

(** *** Values held by form objects

    Strings for the text and select controls, booleans for the check
    boxes. *)
Inductive value :=
  | VStr (s : string)
  | VBool (b : bool).

#[global] Instance value_eq_dec : EqDecision value.
Proof. solve_decision. Defined.

(** [ToBoolean] of [form.key] ([undefined] when the key is absent). *)
Definition truthy (v : option value) : bool :=
  match v with
  | Some (VStr s) => truthy_string s
  | Some (VBool b) => b
  | None => false
  end.

(** [ToString] of [form.key], as template literals and [parseInt] apply it. *)
Definition to_string (v : option value) : string :=
  match v with
  | Some (VStr s) => s
  | Some (VBool true) => "true"
  | Some (VBool false) => "false"
  | None => "undefined"
  end.

(** *** [s.trim()] and the fallbacks written with [||]

    White space is removed from both ends: what is left of the end is
    dropped from the first position after which only white space
    follows. *)

Fixpoint trim_end (s : string) : string :=
  match s with
  | EmptyString => EmptyString
  | String c s' => if all_spaces s then EmptyString else String c (trim_end s')
  end.

Definition trim (s : string) : string := trim_end (skip_spaces s).

(** [!s.trim()]. *)
Definition blank (s : string) : bool := negb (truthy_string (trim s)).

(** [parseInt(s) || d]: [NaN] and zero are falsy. *)
Definition parseInt_or (s : string) (d : Z) : Z :=
  match parseInt s with
  | Some z => if (z =? 0)%Z then d else z
  | None => d
  end.

(** A string that starts with a decimal digit, as the text of a
    positive integer does. *)
Definition digit_led (s : string) : Prop :=
  exists (y : N) (t : string), (y < 10)%N /\ s = String (pretty_N_char y) t.

(** [s || null] on a string. *)
Definition string_or_null (s : string) : option string :=
  if truthy_string s then Some s else None.

(** *** Plain objects used as dictionaries

    An object created by [{}] inherits from [Object.prototype].  A
    property read [o[k]] finds the own property [k] when there is one and
    otherwise what the prototype chain provides; [Object.prototype]
    carries the accessor [__proto__] and eleven methods (ECMA-262,
    20.1.3 and B.2.2.1).  An assignment [o[k] = v] adds or replaces the
    own property [k], except for [k = "__proto__"]: the setter of the
    accessor then makes [v], when it is an object, the prototype of [o]
    and adds no property. *)
Definition object_prototype_methods : list string :=
  [ "constructor"; "hasOwnProperty"; "isPrototypeOf"; "propertyIsEnumerable";
    "toLocaleString"; "toString"; "valueOf";
    "__defineGetter__"; "__defineSetter__"; "__lookupGetter__"; "__lookupSetter__" ].

Definition is_object_prototype_method (k : string) : bool :=
  bool_decide (k ∈ object_prototype_methods).

(** [ToNumber] of a property read that may have found nothing:
    [undefined] becomes [NaN]. *)
Definition to_number (x : option float) : float := default nan x.

End JS.

(** ** Rounding in binary64 *)

Module Binary64.


End Binary64.

(** ** The traffic monitor ([TrafficMonitor] in NodosRedPage.jsx) *)

Module Traffic.

(** One element of [res.data.interfaces] as sent by
    [POST /mikrotik/traffic-snapshot]. *)
Record iface := {
  name : string;
  tx_byte : float;
  rx_byte : float;
  running : bool;
}.

(** A value of [newData]: [{ tx, rx, running }]. *)
Record sample := {
  tx : float;
  rx : float;
  s_running : bool;
}.

(** A value of [newRates]: [{ txBps, rxBps, running }]. *)
Record rate := {
  txBps : float;
  rxBps : float;
  r_running : bool;
}.

(** The object [newData], later held by [traffic] and [prevRef.current]:
    its own properties, and its prototype, which is [Object.prototype]
    ([None]) until an assignment to [__proto__] replaces it by a sample
    object. *)
Record snapshot := {
  own : gmap string sample;
  proto : option sample;
}.

(** [{}]. *)
Definition empty_object : snapshot := {| own := ∅; proto := None |}.

(** [o[nm] = v] for a sample object [v]. *)
Definition assign (o : snapshot) (nm : string) (v : sample) : snapshot :=
  if String.eqb nm "__proto__" then {| own := own o; proto := Some v |}
  else {| own := <[ nm := v ]> (own o); proto := proto o |}.

(** What a property read on a snapshot object can find. *)
Inductive found :=
  | FSample (s : sample)
  | FNumber (x : float)
  | FBoolean (b : bool)
  | FFunction
  | FObjectPrototype.

(** What [Object.prototype] provides to an object whose prototype is
    [p]: the value of [__proto__] is that prototype. *)
Definition inherited_from_Object (p : option sample) (nm : string) : option found :=
  if String.eqb nm "__proto__" then
    Some (match p with Some s => FSample s | None => FObjectPrototype end)
  else if JS.is_object_prototype_method nm then Some FFunction
  else None.

(** [o[nm]]; [None] is [undefined].  A sample object installed as
    prototype is searched before [Object.prototype]. *)
Definition get (o : snapshot) (nm : string) : option found :=
  match own o !! nm with
  | Some s => Some (FSample s)
  | None =>
      match proto o with
      | Some s =>
          if String.eqb nm "tx" then Some (FNumber (tx s))
          else if String.eqb nm "rx" then Some (FNumber (rx s))
          else if String.eqb nm "running" then Some (FBoolean (s_running s))
          else inherited_from_Object (proto o) nm
      | None => inherited_from_Object (proto o) nm
      end
  end.

(** [ToBoolean] of what a read found. *)
Definition truthy_found (p : option found) : bool :=
  match p with
  | Some (FNumber x) => JS.truthy_number x
  | Some (FBoolean b) => b
  | Some _ => true
  | None => false
  end.

(** [p.tx] and [p.rx]: only a sample object has them. *)
Definition tx_of (p : found) : option float :=
  match p with FSample s => Some (tx s) | _ => None end.

Definition rx_of (p : found) : option float :=
  match p with FSample s => Some (rx s) | _ => None end.

(** The component's state: the two [useState] cells and the two refs
    that survive between polls ([intervalRef] only holds the timer).
    The own properties of [rates] are kept; its prototype is always
    [Object.prototype], since its keys come from [Object.keys]. *)
Record monitor := {
  traffic : snapshot;
  rates : gmap string rate;
  prevRef : snapshot;
  prevTimeRef : option float;
}.

(** [useState({})], [useState({})], [useRef({})], [useRef(null)]. *)
Definition initial : monitor :=
  {| traffic := empty_object; rates := ∅; prevRef := empty_object;
     prevTimeRef := None |}.

(** [{ tx: iface.tx_byte, rx: iface.rx_byte, running: iface.running }]. *)
Definition sample_of (i : iface) : sample :=
  {| tx := tx_byte i; rx := rx_byte i; s_running := running i |}.

(** [res.data.interfaces.forEach(iface => { newData[iface.name] = ... })]:
    a later entry with the same name overwrites an earlier one. *)
Definition newData_of (interfaces : list iface) : snapshot :=
  fold_left (fun acc i => assign acc (name i) (sample_of i)) interfaces empty_object.

(** The object built in the inner [forEach] for one name:
    [n.tx - p.tx] converts an [undefined] field of [p] to [NaN]. *)
Definition rate_of (dt : float) (p : found) (n : sample) : rate :=
  {| txBps := JS.Math_max 0 ((tx n - JS.to_number (tx_of p)) / dt);
     rxBps := JS.Math_max 0 ((rx n - JS.to_number (rx_of p)) / dt);
     r_running := s_running n |}.

(** [newRates]: empty unless
    [prevTimeRef.current && now - prevTimeRef.current > 0]; then one
    entry for every name of [Object.keys(newData)], the own properties,
    under which the read [prevRef.current[name]] finds something truthy.
    No key is [__proto__], so every assignment to [newRates] adds an own
    property. *)
Definition newRates_of (prev : snapshot) (prevTime : option float)
    (now : float) (newData : snapshot) : gmap string rate :=
  match prevTime with
  | Some t =>
      if JS.truthy_number t && JS.gt0 (now - t) then
        let dt := ((now - t) / 1000)%float in
        map_imap (fun nm n =>
                    match get prev nm with
                    | Some p => if truthy_found (Some p)
                                then Some (rate_of dt p n) else None
                    | None => None
                    end) (own newData)
      else ∅
  | None => ∅
  end.

(** One run of [fetchTraffic].  [res] is the outcome of the request
    ([None] when it throws: the [catch] is silent and nothing is
    updated) and [now] the value of [Date.now()] read after it. *)
Definition fetchTraffic (res : option (list iface)) (now : float)
    (st : monitor) : monitor :=
  match res with
  | None => st
  | Some interfaces =>
      let newData := newData_of interfaces in
      let newRates := newRates_of (prevRef st) (prevTimeRef st) now newData in
      {| traffic := newData;
         rates := newRates;
         prevRef := newData;
         prevTimeRef := Some now |}
  end.

(** [rates[name]]: an own rate object, or a member inherited from
    [Object.prototype]; [None] is [undefined]. *)
Inductive rate_found :=
  | RRate (r : rate)
  | RInherited (m : found).

Definition get_rate (rs : gmap string rate) (nm : string) : option rate_found :=
  match rs !! nm with
  | Some r => Some (RRate r)
  | None => RInherited <$> inherited_from_Object None nm
  end.

(** What a row of the monitor shows on its right-hand side:
    [r ? <rates/> : <span>Calculando...</span>], the rates being
    [formatMbps(r.txBps)] and [formatMbps(r.rxBps)]; an inherited member
    is truthy and has neither field ([None] is [undefined]). *)
Inductive row_view :=
  | ShowRate (tx_shown rx_shown : option float)
  | Calculando.

Definition view_of (st : monitor) (nm : string) : row_view :=
  match get_rate (rates st) nm with
  | Some (RRate r) => ShowRate (Some (txBps r)) (Some (rxBps r))
  | Some (RInherited _) => ShowRate None None
  | None => Calculando
  end.

(** [ifaceNames.map(name => ...)] with [ifaceNames = Object.keys(traffic)],
    the own properties; the order of the rows is not modelled. *)
Definition rows (st : monitor) : list (string * row_view) :=
  (fun kv => (kv.1, view_of st kv.1)) <$> map_to_list (own (traffic st)).

End Traffic.

(** ** Pool percentages and the pool list filters *)

Module Pool.




(** *** The percentage as the specification words it

    [round(100 * used / total)] over exact rationals, a tie going up as
    [Math.round] does, and [0] for an empty pool. *)





(** *** The live pool of one interface ([InterfaceIpBlock]) *)

(** One element of [firstPool.ips]. *)
Record address_slot := {
  ip : string;
  occupied : bool;
  client_name : string;
  status : string;
  pppoe_username : string;
  connection_type : string;
}.

(** One element of [poolIface.cidrs]. *)
Record cidr_pool := {
  cp_cidr : string;
  cp_total : float;
  cp_occupied : float;
  cp_free : float;
  cp_pct_used : float;
  cp_ips : list address_slot;
}.

(** One element of [poolData.interfaces]. *)
Record pool_entry := {
  pe_name : string;
  has_pool : bool;
  cidrs : list cidr_pool;
}.

(** [poolIface?.has_pool && poolIface?.cidrs?.length > 0]; [poolIface]
    is [undefined] when [poolMap] has no entry for the interface. *)
Definition hasPool (poolIface : option pool_entry) : bool :=
  match poolIface with
  | Some p => has_pool p && (0 <? length (cidrs p))%nat
  | None => false
  end.

(** [hasPool ? poolIface.cidrs[0] : null]. *)
Definition firstPool (poolIface : option pool_entry) : option cidr_pool :=
  match poolIface with
  | Some p => if hasPool poolIface then head (cidrs p) else None
  | None => None
  end.

(** [firstPool?.ips || []]. *)
Definition allIps (poolIface : option pool_entry) : list address_slot :=
  match firstPool poolIface with
  | Some fp => cp_ips fp
  | None => []
  end.

(** The callback of [allIps.filter(...)]; [filterOccupied] is the state
    cell holding ["all"], ["occupied"] or ["free"]. *)
Definition keep (filterOccupied : string) (slot : address_slot) : bool :=
  if String.eqb filterOccupied "occupied" then occupied slot
  else if String.eqb filterOccupied "free" then negb (occupied slot)
  else true.

Definition filteredIps (filterOccupied : string) (all : list address_slot)
    : list address_slot :=
  List.filter (keep filterOccupied) all.

(** [showAll ? filteredIps : filteredIps.slice(0, 20)]. *)
Definition visibleIps (showAll : bool) (filterOccupied : string)
    (all : list address_slot) : list address_slot :=
  if showAll then filteredIps filterOccupied all
  else take 20 (filteredIps filterOccupied all).

(** The button under the rows of [InterfaceIpBlock], rendered when
    [!showAll && filteredIps.length > 20]; it reads "Ver N IPs más..."
    with [N = filteredIps.length - 20]. *)
Definition more_button (showAll : bool) (filtered : list address_slot)
    : option nat :=
  if negb showAll && (20 <? length filtered)%nat
  then Some (length filtered - 20)%nat
  else None.

(** [displayIps] of [InterfacePoolBlock] (CellDetailPage.jsx):
    [showAll ? iface.ips : iface.ips.slice(0, 20)]. *)
Definition displayIps {A : Type} (showAll : bool) (ips : list A) : list A :=
  if showAll then ips else take 20 ips.

(** The toggle under the table of [InterfacePoolBlock], rendered when
    [iface.ips.length > 20]: "Mostrar menos" or "Ver N IPs más" with
    [N = iface.ips.length - 20]. *)
Inductive toggle :=
  | MostrarMenos
  | VerMas (n : nat).

Definition toggle_of {A : Type} (showAll : bool) (ips : list A) : option toggle :=
  if (20 <? length ips)%nat
  then Some (if showAll then MostrarMenos else VerMas (length ips - 20))
  else None.

(** The number of rows the toggle announces as hidden. *)
Definition announced (t : option toggle) : nat :=
  match t with
  | Some (VerMas n) => n
  | _ => 0%nat
  end.

End Pool.

(** ** Connecting to a router ([NodosRedPage] in NodosRedPage.jsx) *)

Module Connect.

(** What [ConnectForm] hands to [onConnect].  [port] is the integer that
    [parseInt] read in the port field, or the default; the Number handed
    on is the double nearest to it, which is that integer itself when it
    is below [2^53] in magnitude. *)
Record credentials := {
  host : string;
  username : string;
  password : string;
  port : Z;
  use_ssl : bool;
}.

(** One element of [sysInfo.interfaces]. *)
Record router_iface := {
  ri_name : string;
  ri_ips : list string;
  ri_running : bool;
}.

(** The body of the [/mikrotik/system-info] response. *)
Record system_info := {
  identity : string;
  board_name : string;
  version : string;
  uptime : string;
  interfaces : list router_iface;
}.

(** The body of the [/mikrotik/ip-pool-live] response. *)
Record pool_data := {
  pool_interfaces : list Pool.pool_entry;
}.

Inductive toast :=
  | Toast_success (msg : string)
  | Toast_error (msg : string).

(** The state cells of [NodosRedPage], the toasts raised so far and the
    [netkeeper_mk_interfaces] entry of [localStorage]. *)
Record page := {
  creds : option credentials;
  connecting : bool;
  sysInfo : option system_info;
  poolData : option pool_data;
  loadingPool : bool;
  toasts : list toast;
  stored : option (string * list router_iface);
}.

Definition initial : page :=
  {| creds := None; connecting := false; sysInfo := None; poolData := None;
     loadingPool := false; toasts := []; stored := None |}.

(** [handleConnect] up to its first [await]: [setConnecting(true)]. *)
Definition handleConnect_begin (st : page) : page :=
  {| creds := creds st; connecting := true; sysInfo := sysInfo st;
     poolData := poolData st; loadingPool := loadingPool st;
     toasts := toasts st; stored := stored st |}.

(** [handleConnect] from the moment [/mikrotik/system-info] settles to
    the end of its [finally].  [inr info] is a response, [inl detail] a
    rejection carrying [err.response?.data?.detail].  On success the
    pool request is started but not awaited. *)
Definition system_info_settled (formCreds : credentials)
    (res : option string + system_info) (st : page) : page :=
  match res with
  | inr info =>
      let who := if JS.truthy_string (identity info) then identity info
                 else host formCreds in
      {| creds := Some formCreds;
         connecting := false;
         sysInfo := Some info;
         poolData := poolData st;
         loadingPool := true;
         toasts := toasts st ++ [Toast_success ("Conectado a " +:+ who)];
         stored := Some (host formCreds, interfaces info) |}
  | inl detail =>
      let msg := match detail with
                 | Some d => if JS.truthy_string d then d
                             else "No se pudo conectar al MikroTik"
                 | None => "No se pudo conectar al MikroTik"
                 end in
      {| creds := creds st; connecting := false; sysInfo := sysInfo st;
         poolData := poolData st; loadingPool := loadingPool st;
         toasts := toasts st ++ [Toast_error msg]; stored := stored st |}
  end.

(** The promise chain on [/mikrotik/ip-pool-live]:
    [.then(r => setPoolData(r.data)).catch(() => {}).finally(() => setLoadingPool(false))].
    [None] is a rejected request. *)
Definition ip_pool_settled (res : option pool_data) (st : page) : page :=
  {| creds := creds st; connecting := connecting st; sysInfo := sysInfo st;
     poolData := match res with Some d => Some d | None => poolData st end;
     loadingPool := false;
     toasts := toasts st; stored := stored st |}.

Definition handleDisconnect (st : page) : page :=
  {| creds := None; connecting := connecting st; sysInfo := None;
     poolData := None; loadingPool := loadingPool st;
     toasts := toasts st; stored := None |}.

(** [poolMap] of [InterfacesPanel]:
    [(poolData?.interfaces || []).forEach(p => { poolMap[p.name] = p; })]. *)
Definition poolMap (pd : option pool_data) : gmap string Pool.pool_entry :=
  fold_left (fun acc p => <[ Pool.pe_name p := p ]> acc)
    (match pd with Some d => pool_interfaces d | None => [] end) ∅.

(** What the MikroTik tab renders: the connection form while [sysInfo]
    is [null], otherwise the system card, the traffic monitor (which
    polls with [creds]) and the interfaces panel. *)
Inductive tab_view :=
  | ShowConnectForm (busy : bool)
  | ShowDevice (card : system_info) (monitor : option credentials)
      (panel : list router_iface) (pool : option pool_data) (spinner : bool).

Definition render (st : page) : tab_view :=
  match sysInfo st with
  | None => ShowConnectForm (connecting st)
  | Some info =>
      ShowDevice info (creds st) (interfaces info) (poolData st) (loadingPool st)
  end.

(** Whether the block of interface [i] has a pool to show. *)
Definition block_has_pool (st : page) (i : router_iface) : bool :=
  Pool.hasPool (poolMap (poolData st) !! ri_name i).

(** *** The connection form ([ConnectForm]) *)

Module ConnectForm.

(** The [form] state cell; every control hands back a string, the check
    box a boolean. *)
Record form := {
  f_host : string;
  f_username : string;
  f_password : string;
  f_port : string;
  f_use_ssl : bool;
}.

(** [useState({ host: "", username: "admin", password: "", port: "8728",
    use_ssl: false })]. *)
Definition initial : form :=
  {| f_host := ""; f_username := "admin"; f_password := ""; f_port := "8728";
     f_use_ssl := false |}.

(** [handleSubmit]: [inl msg] is [toast.error(msg)] with nothing handed
    on, [inr c] is [onConnect(c)] with
    [c = { ...form, port: parseInt(form.port) || 8728 }]. *)
Definition handleSubmit (f : form) : string + credentials :=
  if JS.blank (f_host f) then inl "Ingresa la IP del MikroTik"
  else if JS.blank (f_username f) then inl "Ingresa el usuario"
  else if JS.blank (f_password f) then inl "Ingresa la contraseña"
  else inr {| host := f_host f; username := f_username f;
              password := f_password f;
              port := JS.parseInt_or (f_port f) 8728;
              use_ssl := f_use_ssl f |}.

End ConnectForm.

(** *** The two groups of [InterfacesPanel] *)

(** [interfaces.filter(i => i.ips?.length > 0)]. *)
Definition withIp (l : list router_iface) : list router_iface :=
  List.filter (fun i => (0 <? length (ri_ips i))%nat) l.

(** [interfaces.filter(i => !i.ips?.length)]. *)
Definition withoutIp (l : list router_iface) : list router_iface :=
  List.filter (fun i => (length (ri_ips i) =? 0)%nat) l.

(** The expandable blocks of the panel:
    [withIp.map(iface => <InterfaceIpBlock iface={iface}
                            poolIface={poolMap[iface.name]} />)]. *)
Definition blocks (st : page) (l : list router_iface)
    : list (router_iface * option Pool.pool_entry) :=
  (fun i => (i, poolMap (poolData st) !! ri_name i)) <$> withIp l.

(** *** A session with two routers *)

(** Two routers whose first interface carries the same name, and the
    pool the first one reports on it. *)
Definition credsA : credentials :=
  {| host := "10.0.0.1"; username := "admin"; password := "a"; port := 8728%Z;
     use_ssl := false |}.

Definition credsB : credentials :=
  {| host := "10.0.0.2"; username := "admin"; password := "b"; port := 8728%Z;
     use_ssl := false |}.

Definition infoA : system_info :=
  {| identity := "Nodo A"; board_name := "RB4011"; version := "7.11"; uptime := "1d";
     interfaces := [ {| ri_name := "ether1"; ri_ips := ["192.168.10.1/24"];
                        ri_running := true |} ] |}.

Definition infoB : system_info :=
  {| identity := "Nodo B"; board_name := "RB5009"; version := "7.12"; uptime := "2d";
     interfaces := [ {| ri_name := "ether1"; ri_ips := ["172.16.0.1/24"];
                        ri_running := true |} ] |}.

Definition slotA : Pool.address_slot :=
  {| Pool.ip := "192.168.10.7"; Pool.occupied := true; Pool.client_name := "Ana Paz";
     Pool.status := "active"; Pool.pppoe_username := "ana";
     Pool.connection_type := "pppoe" |}.

Definition poolA : pool_data :=
  {| pool_interfaces :=
       [ {| Pool.pe_name := "ether1"; Pool.has_pool := true;
            Pool.cidrs := [ {| Pool.cp_cidr := "192.168.10.0/24"; Pool.cp_total := 254;
                               Pool.cp_occupied := 1; Pool.cp_free := 253;
                               Pool.cp_pct_used := 0; Pool.cp_ips := [slotA] |} ] |} ] |}.

(** The operator connects to router A and disconnects before its pool
    request is answered; the answer arrives; the operator connects to
    router B, whose pool request fails. *)
Definition late_pool_session : page :=
  let st1 := system_info_settled credsA (inr infoA) (handleConnect_begin initial) in
  let st2 := handleDisconnect st1 in
  let st3 := ip_pool_settled (Some poolA) st2 in
  let st4 := system_info_settled credsB (inr infoB) (handleConnect_begin st3) in
  ip_pool_settled None st4.

End Connect.

(** ** The OLT tab ([OltConnectForm] and [OltTab] in NodosRedPage.jsx) *)

Module Olt.

(** What [OltConnectForm] hands to [onConnect]. *)
Record olt_creds := {
  host : string;
  ssh_username : string;
  ssh_password : string;
  ssh_port : Z;
  brand : string;
}.

#[global] Instance olt_creds_eq_dec : EqDecision olt_creds.
Proof. solve_decision. Defined.

Module OltConnectForm.

Record form := {
  f_host : string;
  f_ssh_username : string;
  f_ssh_password : string;
  f_ssh_port : string;
  f_brand : string;
}.

(** [useState({ host: "", ssh_username: "admin", ssh_password: "",
    ssh_port: "22", brand: "zte" })]. *)
Definition initial : form :=
  {| f_host := ""; f_ssh_username := "admin"; f_ssh_password := "";
     f_ssh_port := "22"; f_brand := "zte" |}.

(** [handleSubmit]: [inl msg] is [toast.error(msg)], [inr c] is
    [onConnect(c)] with
    [c = { ...form, ssh_port: parseInt(form.ssh_port) || 22 }]. *)
Definition handleSubmit (f : form) : string + olt_creds :=
  if JS.blank (f_host f) then inl "Ingresa la IP de la OLT"
  else if JS.blank (f_ssh_username f) then inl "Ingresa el usuario SSH"
  else if JS.blank (f_ssh_password f) then inl "Ingresa la contraseña SSH"
  else if negb (JS.truthy_string (f_brand f)) then inl "Selecciona la marca"
  else inr {| host := f_host f; ssh_username := f_ssh_username f;
              ssh_password := f_ssh_password f;
              ssh_port := JS.parseInt_or (f_ssh_port f) 22;
              brand := f_brand f |}.

End OltConnectForm.

(** One element of [unauthorized_onus], as the table shows it. *)
Record onu := {
  serial_number : string;
  slot : string;
  pon_port : string;
  model : string;
}.

(** The body of an answer of [POST /olt/connect-direct], as far as the
    tab reads it; an absent [error] is the empty string. *)
Record answer := {
  connected : bool;
  error : string;
  unauthorized_onus : option (list onu);
  total_unauthorized : option Z;
}.

Inductive request :=
  | ReqConnect (c : olt_creds)
  | ReqRefresh (c : olt_creds).

#[global] Instance request_eq_dec : EqDecision request.
Proof. solve_decision. Defined.

Inductive toast :=
  | Toast_success (msg : string)
  | Toast_error (msg : string).

(** The state cells of [OltTab], the requests in flight and the
    messages raised so far. *)
Record tab := {
  oltInfo : option answer;
  creds : option olt_creds;
  connecting : bool;
  unauthOnus : list onu;
  loadingOnus : bool;
  authMode : string;
  pending : list request;
  toasts : list toast;
}.

Definition initial : tab :=
  {| oltInfo := None; creds := None; connecting := false; unauthOnus := [];
     loadingOnus := false; authMode := "manual"; pending := []; toasts := [] |}.

(** [a || b] on strings. *)
Definition or_else (a b : string) : string :=
  if JS.truthy_string a then a else b.

(** [handleConnect] up to its [await]. *)
Definition handleConnect_begin (formCreds : olt_creds) (st : tab) : tab :=
  {| oltInfo := oltInfo st; creds := creds st; connecting := true;
     unauthOnus := unauthOnus st; loadingOnus := loadingOnus st;
     authMode := authMode st; pending := pending st ++ [ReqConnect formCreds];
     toasts := toasts st |}.

(** [handleConnect] from the moment the request settles: [inr a] is an
    answer, [inl detail] a rejection carrying
    [err.response?.data?.detail]. *)
Definition connect_settled (formCreds : olt_creds) (res : option string + answer)
    (st : tab) : tab :=
  match res with
  | inr a =>
      if connected a then
        {| oltInfo := Some a; creds := Some formCreds; connecting := false;
           unauthOnus := default [] (unauthorized_onus a);
           loadingOnus := loadingOnus st; authMode := authMode st;
           pending := pending st;
           toasts := toasts st ++
             [ Toast_success
                 ("OLT conectada — "
                  +:+ match total_unauthorized a with
                      | Some n => pretty n
                      | None => "undefined"
                      end
                  +:+ " ONUs pendientes") ] |}
      else
        {| oltInfo := oltInfo st; creds := creds st; connecting := false;
           unauthOnus := unauthOnus st; loadingOnus := loadingOnus st;
           authMode := authMode st; pending := pending st;
           toasts := toasts st ++
             [ Toast_error (or_else (error a) "No se pudo conectar a la OLT") ] |}
  | inl detail =>
      {| oltInfo := oltInfo st; creds := creds st; connecting := false;
         unauthOnus := unauthOnus st; loadingOnus := loadingOnus st;
         authMode := authMode st; pending := pending st;
         toasts := toasts st ++
           [ Toast_error (or_else (default "" detail) "Error al conectar OLT") ] |}
  end.

Definition handleDisconnect (st : tab) : tab :=
  {| oltInfo := None; creds := None; connecting := connecting st;
     unauthOnus := []; loadingOnus := loadingOnus st; authMode := authMode st;
     pending := pending st; toasts := toasts st |}.

(** [handleRefreshOnus] up to its [await]: [if (!creds) return]. *)
Definition handleRefreshOnus_begin (st : tab) : tab :=
  match creds st with
  | None => st
  | Some c =>
      {| oltInfo := oltInfo st; creds := creds st; connecting := connecting st;
         unauthOnus := unauthOnus st; loadingOnus := true; authMode := authMode st;
         pending := pending st ++ [ReqRefresh c]; toasts := toasts st |}
  end.

(** [handleRefreshOnus] from the moment the request settles; [None] is
    a rejection. *)
Definition refresh_settled (res : option answer) (st : tab) : tab :=
  match res with
  | Some a =>
      {| oltInfo := oltInfo st; creds := creds st; connecting := connecting st;
         unauthOnus := default [] (unauthorized_onus a); loadingOnus := false;
         authMode := authMode st; pending := pending st;
         toasts := toasts st ++ [ Toast_success "ONUs actualizadas" ] |}
  | None =>
      {| oltInfo := oltInfo st; creds := creds st; connecting := connecting st;
         unauthOnus := unauthOnus st; loadingOnus := false;
         authMode := authMode st; pending := pending st;
         toasts := toasts st ++ [ Toast_error "Error al actualizar ONUs" ] |}
  end.

Definition set_pending (l : list request) (st : tab) : tab :=
  {| oltInfo := oltInfo st; creds := creds st; connecting := connecting st;
     unauthOnus := unauthOnus st; loadingOnus := loadingOnus st;
     authMode := authMode st; pending := l; toasts := toasts st |}.

Definition set_authMode (m : string) (st : tab) : tab :=
  {| oltInfo := oltInfo st; creds := creds st; connecting := connecting st;
     unauthOnus := unauthOnus st; loadingOnus := loadingOnus st;
     authMode := m; pending := pending st; toasts := toasts st |}.

Definition toast_error (msg : string) (st : tab) : tab :=
  {| oltInfo := oltInfo st; creds := creds st; connecting := connecting st;
     unauthOnus := unauthOnus st; loadingOnus := loadingOnus st;
     authMode := authMode st; pending := pending st;
     toasts := toasts st ++ [ Toast_error msg ] |}.

(** What the tab renders: the connection form while [oltInfo] is
    [null], otherwise the card of the OLT and the list of ONUs. *)
Inductive view :=
  | ShowConnectForm (busy : bool)
  | ShowOlt (card : answer) (onus : list onu) (searching : bool) (mode : string).

Definition render (st : tab) : view :=
  match oltInfo st with
  | None => ShowConnectForm (connecting st)
  | Some a => ShowOlt a (unauthOnus st) (loadingOnus st) (authMode st)
  end.

Inductive event :=
  | Submit (f : OltConnectForm.form)
  | ConnectSettled (c : olt_creds) (res : option string + answer)
  | Disconnect
  | Refresh
  | RefreshSettled (c : olt_creds) (res : option answer)
  | SetAuthMode (m : string).

(** Removes the first occurrence of an answered request. *)
Fixpoint answer_of (r : request) (l : list request) : option (list request) :=
  match l with
  | [] => None
  | r' :: l' =>
      if decide (r = r') then Some l'
      else cons r' <$> answer_of r l'
  end.

(** The state update of one event; [None] when the render on display
    cannot produce the event or nobody waits for the response. *)
Definition step (ev : event) (st : tab) : option tab :=
  match ev with
  | Submit f =>
      match oltInfo st with
      | None =>
          if connecting st then None
          else Some match OltConnectForm.handleSubmit f with
                    | inl msg => toast_error msg st
                    | inr c => handleConnect_begin c st
                    end
      | Some _ => None
      end
  | ConnectSettled c res =>
      (fun l => connect_settled c res (set_pending l st))
        <$> answer_of (ReqConnect c) (pending st)
  | Disconnect =>
      match oltInfo st with
      | Some _ => Some (handleDisconnect st)
      | None => None
      end
  | Refresh =>
      match oltInfo st with
      | Some _ => if loadingOnus st then None else Some (handleRefreshOnus_begin st)
      | None => None
      end
  | RefreshSettled c res =>
      (fun l => refresh_settled res (set_pending l st))
        <$> answer_of (ReqRefresh c) (pending st)
  | SetAuthMode m =>
      match oltInfo st with
      | Some _ => if bool_decide (m ∈ ["manual"; "auto"])
                  then Some (set_authMode m st) else None
      | None => None
      end
  end.

Fixpoint run (evs : list event) (st : tab) : option tab :=
  match evs with
  | [] => Some st
  | ev :: evs' =>
      match step ev st with
      | Some st' => run evs' st'
      | None => None
      end
  end.

(** Credentials that passed the checks of the form. *)
Definition checked (c : olt_creds) : Prop :=
  JS.all_spaces (host c) = false
  /\ JS.all_spaces (ssh_username c) = false
  /\ JS.all_spaces (ssh_password c) = false
  /\ JS.truthy_string (brand c) = true
  /\ ssh_port c <> 0%Z.

Definition creds_of (r : request) : olt_creds :=
  match r with
  | ReqConnect c => c
  | ReqRefresh c => c
  end.

(** The connection attempts among the requests in flight. *)
Fixpoint connects (l : list request) : nat :=
  match l with
  | [] => 0
  | ReqConnect _ :: l' => S (connects l')
  | ReqRefresh _ :: l' => connects l'
  end.

(** What a session of the tab keeps true. *)
Record tab_inv (st : tab) : Prop := {
  inv_pair : is_Some (oltInfo st) <-> is_Some (creds st);
  inv_connected : forall a, oltInfo st = Some a -> connected a = true;
  inv_creds : forall c, creds st = Some c -> checked c;
  inv_pending : forall r, r ∈ pending st -> checked (creds_of r);
  inv_busy : connects (pending st) = if connecting st then 1 else 0;
}.

(** A session: a connection that the OLT refuses, then one it accepts,
    and a refresh. *)
Definition sample_creds : olt_creds :=
  {| host := "38.124.210.94"; ssh_username := "admin"; ssh_password := "x";
     ssh_port := 22; brand := "zte" |}.

Definition sample_form : OltConnectForm.form :=
  {| OltConnectForm.f_host := "38.124.210.94";
     OltConnectForm.f_ssh_username := "admin";
     OltConnectForm.f_ssh_password := "x";
     OltConnectForm.f_ssh_port := "";
     OltConnectForm.f_brand := "zte" |}.

Definition refused : answer :=
  {| connected := false; error := "Authentication failed";
     unauthorized_onus := None; total_unauthorized := None |}.

Definition accepted : answer :=
  {| connected := true; error := "";
     unauthorized_onus :=
       Some [ {| serial_number := "ZTEG0001"; slot := "1"; pon_port := "3";
                 model := "F660" |} ];
     total_unauthorized := Some 1%Z |}.

Definition sample_session : list event :=
  [ Submit OltConnectForm.initial;
    Submit sample_form;
    ConnectSettled sample_creds (inr refused);
    Submit sample_form;
    ConnectSettled sample_creds (inr accepted);
    Refresh;
    RefreshSettled sample_creds None ].

Definition outcome (evs : list event) : tab := default initial (run evs initial).

End Olt.

(** ** The provisioning form ([CreateConnectionModal] in DashboardPage.jsx) *)

Module Cascade.

Export JS (value, VStr, VBool, truthy, to_string).

(** [parseInt(form.key)]. *)
Definition parse_field (f : gmap string value) (key : string) : option Z :=
  JS.parseInt (to_string (f !! key)).

(** [form.key || null]. *)
Definition or_null (f : gmap string value) (key : string) : option value :=
  if truthy (f !! key) then f !! key else None.

(** *** Rows served by the Directory *)

Record client := { cl_id : Z; first_name : string; last_name : string }.
Record cell := { c_id : Z; c_name : string; cell_type : string }.
Record plan := { pl_id : Z; pl_name : string }.
Record zone := { z_id : Z; z_name : string }.
Record nap := { n_id : Z; n_name : string; free_ports : Z }.
Record port := { p_id : Z; port_number : Z; is_occupied : bool }.
Record device := { d_id : Z; serial_number : string; mac_address : string }.

#[global] Instance cell_eq_dec : EqDecision cell.
Proof. solve_decision. Defined.

(** The read side of the Directory as the form sees it: what each GET
    answers when it succeeds.  Path segments and query parameters are
    the strings the form interpolates. *)
Record backend := {
  get_clients : list client;
  get_cells : list cell;
  get_plans : string -> list plan;
  get_free_ips : string -> list string;
  get_zones : string -> list zone;
  get_onus : list device;
  get_cpes : list device;
  cascade_naps : string -> list nap;
  cascade_ports : string -> list port;
}.

(** *** Requests, writes and messages *)

Inductive request :=
  | ReqInitial
  | ReqCellData (cell_id : string) (found : option cell)
  | ReqNaps (zone_id : string)
  | ReqPorts (nap_id : string).

#[global] Instance request_eq_dec : EqDecision request.
Proof. solve_decision. Defined.

(** The body of [POST /connections/fiber]. *)
Record fiber_payload := {
  fp_client_id : option Z;
  fp_cell_id : option Z;
  fp_plan_id : option Z;
  fp_locality : option value;
  fp_address : option value;
  fp_street_between_1 : option value;
  fp_street_between_2 : option value;
  fp_contract_date : option value;
  fp_is_free : option value;
  fp_olt_zone_id : option Z;
  fp_nap_id : option Z;
  fp_nap_port_id : option Z;
  fp_ip_address : option value;
  fp_pppoe_profile : option value;
  fp_pppoe_username : option value;
  fp_pppoe_password_encrypted : option value;
  fp_onu_id : option Z;
  fp_mode : option value;
}.

(** The body of [POST /connections/antenna]. *)
Record antenna_payload := {
  ap_client_id : option Z;
  ap_cell_id : option Z;
  ap_plan_id : option Z;
  ap_locality : option value;
  ap_address : option value;
  ap_street_between_1 : option value;
  ap_street_between_2 : option value;
  ap_contract_date : option value;
  ap_is_free : option value;
  ap_generate_month_charge : option value;
  ap_ip_address : option value;
  ap_ip_additional : option value;
  ap_cpe_id : option Z;
  ap_router_id : option Z;
}.

Inductive write :=
  | PostFiber (body : fiber_payload)
  | PostAntenna (body : antenna_payload).

Inductive toast :=
  | Toast_success (msg : string)
  | Toast_error (msg : string).

(** *** The component state *)

Record modal := {
  form : gmap string value;
  clients : list client;
  cells : list cell;
  plans : list plan;
  onus : list device;
  cpes : list device;
  ipPool : list string;
  zones : list zone;
  naps : list nap;
  ports : list port;
  selectedCell : option cell;
  saving : bool;
  pending : list request;
  sent : list write;
  toasts : list toast;
  saved : bool;
}.

(** The initial [form] object; [preClientId || ""] and today's date are
    supplied by the caller. *)
Definition initial_form (preClientId : string) (today : string) : gmap string value :=
  list_to_map [
    ("client_id", VStr preClientId);
    ("cell_id", VStr "");
    ("plan_id", VStr "");
    ("locality", VStr "");
    ("address", VStr "");
    ("street_between_1", VStr "");
    ("street_between_2", VStr "");
    ("contract_date", VStr today);
    ("is_free", VBool false);
    ("olt_zone_id", VStr "");
    ("nap_id", VStr "");
    ("nap_port_id", VStr "");
    ("ip_address", VStr "");
    ("pppoe_profile", VStr "default-encryption");
    ("pppoe_username", VStr "");
    ("pppoe_password_encrypted", VStr "");
    ("onu_id", VStr "");
    ("mode", VStr "router");
    ("cpe_id", VStr "");
    ("router_id", VStr "");
    ("ip_additional", VStr "");
    ("generate_month_charge", VBool true)
  ].

(** The state after mounting: every list empty, the initial load in
    flight. *)
Definition initial (preClientId today : string) : modal :=
  {| form := initial_form preClientId today;
     clients := []; cells := []; plans := []; onus := []; cpes := [];
     ipPool := []; zones := []; naps := []; ports := [];
     selectedCell := None; saving := false;
     pending := [ReqInitial]; sent := []; toasts := []; saved := false |}.

(** Setters, one per [useState] cell the handlers write. *)

Definition set_form (f : gmap string value) (st : modal) : modal :=
  {| form := f; clients := clients st; cells := cells st; plans := plans st;
     onus := onus st; cpes := cpes st; ipPool := ipPool st; zones := zones st;
     naps := naps st; ports := ports st; selectedCell := selectedCell st;
     saving := saving st; pending := pending st; sent := sent st;
     toasts := toasts st; saved := saved st |}.

Definition set_directory (cl : list client) (cs : list cell) (st : modal) : modal :=
  {| form := form st; clients := cl; cells := cs; plans := plans st;
     onus := onus st; cpes := cpes st; ipPool := ipPool st; zones := zones st;
     naps := naps st; ports := ports st; selectedCell := selectedCell st;
     saving := saving st; pending := pending st; sent := sent st;
     toasts := toasts st; saved := saved st |}.

Definition set_plans (l : list plan) (st : modal) : modal :=
  {| form := form st; clients := clients st; cells := cells st; plans := l;
     onus := onus st; cpes := cpes st; ipPool := ipPool st; zones := zones st;
     naps := naps st; ports := ports st; selectedCell := selectedCell st;
     saving := saving st; pending := pending st; sent := sent st;
     toasts := toasts st; saved := saved st |}.

Definition set_onus (l : list device) (st : modal) : modal :=
  {| form := form st; clients := clients st; cells := cells st; plans := plans st;
     onus := l; cpes := cpes st; ipPool := ipPool st; zones := zones st;
     naps := naps st; ports := ports st; selectedCell := selectedCell st;
     saving := saving st; pending := pending st; sent := sent st;
     toasts := toasts st; saved := saved st |}.

Definition set_cpes (l : list device) (st : modal) : modal :=
  {| form := form st; clients := clients st; cells := cells st; plans := plans st;
     onus := onus st; cpes := l; ipPool := ipPool st; zones := zones st;
     naps := naps st; ports := ports st; selectedCell := selectedCell st;
     saving := saving st; pending := pending st; sent := sent st;
     toasts := toasts st; saved := saved st |}.

Definition set_ipPool (l : list string) (st : modal) : modal :=
  {| form := form st; clients := clients st; cells := cells st; plans := plans st;
     onus := onus st; cpes := cpes st; ipPool := l; zones := zones st;
     naps := naps st; ports := ports st; selectedCell := selectedCell st;
     saving := saving st; pending := pending st; sent := sent st;
     toasts := toasts st; saved := saved st |}.

Definition set_zones (l : list zone) (st : modal) : modal :=
  {| form := form st; clients := clients st; cells := cells st; plans := plans st;
     onus := onus st; cpes := cpes st; ipPool := ipPool st; zones := l;
     naps := naps st; ports := ports st; selectedCell := selectedCell st;
     saving := saving st; pending := pending st; sent := sent st;
     toasts := toasts st; saved := saved st |}.

Definition set_naps (l : list nap) (st : modal) : modal :=
  {| form := form st; clients := clients st; cells := cells st; plans := plans st;
     onus := onus st; cpes := cpes st; ipPool := ipPool st; zones := zones st;
     naps := l; ports := ports st; selectedCell := selectedCell st;
     saving := saving st; pending := pending st; sent := sent st;
     toasts := toasts st; saved := saved st |}.

Definition set_ports (l : list port) (st : modal) : modal :=
  {| form := form st; clients := clients st; cells := cells st; plans := plans st;
     onus := onus st; cpes := cpes st; ipPool := ipPool st; zones := zones st;
     naps := naps st; ports := l; selectedCell := selectedCell st;
     saving := saving st; pending := pending st; sent := sent st;
     toasts := toasts st; saved := saved st |}.

Definition set_selectedCell (c : option cell) (st : modal) : modal :=
  {| form := form st; clients := clients st; cells := cells st; plans := plans st;
     onus := onus st; cpes := cpes st; ipPool := ipPool st; zones := zones st;
     naps := naps st; ports := ports st; selectedCell := c;
     saving := saving st; pending := pending st; sent := sent st;
     toasts := toasts st; saved := saved st |}.

Definition set_saving (b : bool) (st : modal) : modal :=
  {| form := form st; clients := clients st; cells := cells st; plans := plans st;
     onus := onus st; cpes := cpes st; ipPool := ipPool st; zones := zones st;
     naps := naps st; ports := ports st; selectedCell := selectedCell st;
     saving := b; pending := pending st; sent := sent st;
     toasts := toasts st; saved := saved st |}.

Definition set_pending (l : list request) (st : modal) : modal :=
  {| form := form st; clients := clients st; cells := cells st; plans := plans st;
     onus := onus st; cpes := cpes st; ipPool := ipPool st; zones := zones st;
     naps := naps st; ports := ports st; selectedCell := selectedCell st;
     saving := saving st; pending := l; sent := sent st;
     toasts := toasts st; saved := saved st |}.

Definition set_sent (l : list write) (st : modal) : modal :=
  {| form := form st; clients := clients st; cells := cells st; plans := plans st;
     onus := onus st; cpes := cpes st; ipPool := ipPool st; zones := zones st;
     naps := naps st; ports := ports st; selectedCell := selectedCell st;
     saving := saving st; pending := pending st; sent := l;
     toasts := toasts st; saved := saved st |}.

Definition set_toasts (l : list toast) (st : modal) : modal :=
  {| form := form st; clients := clients st; cells := cells st; plans := plans st;
     onus := onus st; cpes := cpes st; ipPool := ipPool st; zones := zones st;
     naps := naps st; ports := ports st; selectedCell := selectedCell st;
     saving := saving st; pending := pending st; sent := sent st;
     toasts := l; saved := saved st |}.

Definition set_saved (b : bool) (st : modal) : modal :=
  {| form := form st; clients := clients st; cells := cells st; plans := plans st;
     onus := onus st; cpes := cpes st; ipPool := ipPool st; zones := zones st;
     naps := naps st; ports := ports st; selectedCell := selectedCell st;
     saving := saving st; pending := pending st; sent := sent st;
     toasts := toasts st; saved := b |}.

(** [toast.error(msg)], a request leaving, a write leaving. *)
Definition toast_error (msg : string) (st : modal) : modal :=
  set_toasts (toasts st ++ [Toast_error msg]) st.

Definition toast_success (msg : string) (st : modal) : modal :=
  set_toasts (toasts st ++ [Toast_success msg]) st.

Definition issue (r : request) (st : modal) : modal :=
  set_pending (pending st ++ [r]) st.

Definition post (w : write) (st : modal) : modal :=
  set_sent (sent st ++ [w]) st.

(** [setForm(prev => ({ ...prev, [key]: v }))]. *)
Definition update_form (key : string) (v : value) (st : modal) : modal :=
  set_form (<[ key := v ]> (form st)) st.

(** *** Derived values of a render *)

(** [selectedCell?.cell_type === "fibra" || ... === "hifiber_ipoe"]. *)
Definition isFibra (st : modal) : bool :=
  match selectedCell st with
  | Some c => String.eqb (cell_type c) "fibra" || String.eqb (cell_type c) "hifiber_ipoe"
  | None => false
  end.

(** [selectedCell?.cell_type === "antenas"]. *)
Definition isAntena (st : modal) : bool :=
  match selectedCell st with
  | Some c => String.eqb (cell_type c) "antenas"
  | None => false
  end.

(** The [value]s of the [<option>]s of a select built as
    [[{ value: "", ... }, ...rows.map(r => ({ value: r.id, ... }))]];
    the DOM hands them back as strings. *)
Definition option_values {A : Type} (id : A -> Z) (rows : list A) : list string :=
  "" :: ((fun r => pretty (id r)) <$> rows).

(** The control a key of the form is bound to in the current render. *)
Inductive control :=
  | Select (values : list string)
  | Text
  | Absent.

Section Controls.

(** The [preClientId] prop: when given, the client is shown as a fixed
    label and there is no select for it. *)
Variable preClientId : string.

Definition control_of (st : modal) (key : string) : control :=
  let f := form st in
  let fibra := isFibra st in
  let antena := isAntena st in
  if String.eqb key "client_id" then
    if JS.truthy_string preClientId then Absent
    else Select (option_values cl_id (clients st))
  else if String.eqb key "cell_id" then Select (option_values c_id (cells st))
  else if String.eqb key "plan_id" then
    if truthy (f !! "cell_id") then Select (option_values pl_id (plans st)) else Absent
  else if String.eqb key "contract_date" then Text
  else if String.eqb key "olt_zone_id" then
    if fibra then Select (option_values z_id (zones st)) else Absent
  else if String.eqb key "nap_id" then
    if fibra && truthy (f !! "olt_zone_id")
    then Select (option_values n_id (naps st)) else Absent
  else if String.eqb key "nap_port_id" then
    if fibra && truthy (f !! "nap_id")
    then Select (option_values p_id (ports st)) else Absent
  else if String.eqb key "ip_address" then
    if fibra || antena then
      match ipPool st with
      | [] => Text
      | _ => Select ("" :: ipPool st)
      end
    else Absent
  else if String.eqb key "pppoe_profile" || String.eqb key "pppoe_username"
          || String.eqb key "pppoe_password_encrypted" then
    if fibra then Text else Absent
  else if String.eqb key "onu_id" then
    if fibra then Select (option_values d_id (onus st)) else Absent
  else if String.eqb key "mode" then
    if fibra then Select ["router"; "bridge"] else Absent
  else if String.eqb key "ip_additional" then
    if antena then Text else Absent
  else if String.eqb key "cpe_id" then
    if antena then Select (option_values d_id (cpes st)) else Absent
  else if String.eqb key "locality" || String.eqb key "address"
          || String.eqb key "street_between_1" || String.eqb key "street_between_2" then
    if fibra || antena then Text else Absent
  else Absent.

(** A [change] event the operator can produce in the current render. *)
Definition can_change (st : modal) (key : string) (v : value) : bool :=
  match v, control_of st key with
  | VStr s, Select values => bool_decide (s ∈ values)
  | VStr _, Text => true
  | _, _ => false
  end.

End Controls.

(** *** The three cascade effects *)

(** The dependency arrays: [[form.cell_id, cells]], [[form.olt_zone_id]],
    [[form.nap_id]]. *)
Record deps := {
  dep_cell : option value;
  dep_cells : list cell;
  dep_zone : option value;
  dep_nap : option value;
}.

Definition deps_of (st : modal) : deps :=
  {| dep_cell := form st !! "cell_id";
     dep_cells := cells st;
     dep_zone := form st !! "olt_zone_id";
     dep_nap := form st !! "nap_id" |}.

(** [setForm(prev => ({ ...prev, plan_id: "", olt_zone_id: "", nap_id: "",
     nap_port_id: "", onu_id: "", cpe_id: "" }))]. *)
Definition reset_cascade (f : gmap string value) : gmap string value :=
  <[ "cpe_id" := VStr "" ]>
    (<[ "onu_id" := VStr "" ]>
       (<[ "nap_port_id" := VStr "" ]>
          (<[ "nap_id" := VStr "" ]>
             (<[ "olt_zone_id" := VStr "" ]>
                (<[ "plan_id" := VStr "" ]> f))))).

(** [cells.find(c => c.id === parseInt(form.cell_id))]. *)
Definition find_cell (cell_id : option value) (cs : list cell) : option cell :=
  List.find (fun c => bool_decide (JS.parseInt (to_string cell_id) = Some (c_id c))) cs.

(** "Al cambiar célula": the values read are those of the render [d]
    that scheduled the effect. *)
Definition cell_effect (d : deps) (st : modal) : modal :=
  if negb (truthy (dep_cell d)) then set_plans [] (set_selectedCell None st)
  else
    let cell := find_cell (dep_cell d) (dep_cells d) in
    issue (ReqCellData (to_string (dep_cell d)) cell)
      (set_ipPool []
         (set_ports []
            (set_naps []
               (set_zones []
                  (set_form (reset_cascade (form st))
                     (set_selectedCell cell st)))))).

(** "Al cambiar zona". *)
Definition zone_effect (d : deps) (st : modal) : modal :=
  if negb (truthy (dep_zone d)) then set_ports [] (set_naps [] st)
  else
    issue (ReqNaps (to_string (dep_zone d)))
      (set_form (<[ "nap_port_id" := VStr "" ]> (<[ "nap_id" := VStr "" ]> (form st))) st).

(** "Al cambiar NAP". *)
Definition nap_effect (d : deps) (st : modal) : modal :=
  if negb (truthy (dep_nap d)) then set_ports [] st
  else
    issue (ReqPorts (to_string (dep_nap d)))
      (set_form (<[ "nap_port_id" := VStr "" ]> (form st)) st).

(** The effects of one commit: each runs when one of its dependencies
    differs from the previous render [old], in declaration order. *)
Definition run_effects (old : deps) (st : modal) : modal :=
  let cur := deps_of st in
  let st1 :=
    if decide (dep_cell old = dep_cell cur /\ dep_cells old = dep_cells cur)
    then st else cell_effect cur st in
  let st2 :=
    if decide (dep_zone old = dep_zone cur) then st1 else zone_effect cur st1 in
  if decide (dep_nap old = dep_nap cur) then st2 else nap_effect cur st2.

(** A state update followed by the renders it causes: the effects of
    the first commit may change the form, which schedules the effects of
    a second commit; [settle_stable] below shows that a third commit
    finds nothing changed. *)
Definition settle (old : deps) (st : modal) : modal :=
  run_effects (deps_of st) (run_effects old st).

(** *** Responses *)

(** How far [loadCellData] got before a request failed. *)
Inductive cell_data_outcome :=
  | AllOk
  | PlansFailed
  | PoolFailed
  | TopologyFailed.

Definition cell_is (found : option cell) (t : string) : bool :=
  match found with
  | Some c => String.eqb (cell_type c) t
  | None => false
  end.

Section Handlers.

Variable B : backend.
Variable preClientId : string.

(** [loadCellData], run to its end in one piece; [cell_id] and [found]
    are the values its closure captured. *)
Definition cell_data_arrived (cell_id : string) (found : option cell)
    (o : cell_data_outcome) (st : modal) : modal :=
  let failed := toast_error "Error al cargar datos de célula" in
  match o with
  | PlansFailed => failed st
  | PoolFailed => failed (set_plans (get_plans B cell_id) st)
  | _ =>
      let st1 := set_ipPool (get_free_ips B cell_id) (set_plans (get_plans B cell_id) st) in
      if cell_is found "fibra" || cell_is found "hifiber_ipoe" then
        match o with
        | TopologyFailed => failed st1
        | _ => set_onus (get_onus B) (set_zones (get_zones B cell_id) st1)
        end
      else if cell_is found "antenas" then
        match o with
        | TopologyFailed => failed st1
        | _ => set_cpes (get_cpes B) st1
        end
      else st1
  end.

(** [.then(res => setNaps(res.data)).catch(() => toast.error(...))]. *)
Definition naps_arrived (zone_id : string) (ok : bool) (st : modal) : modal :=
  if ok then set_naps (cascade_naps B zone_id) st
  else toast_error "Error al cargar NAPs" st.

(** [.then(res => setPorts(res.data.filter(p => !p.is_occupied)))
     .catch(() => toast.error(...))]. *)
Definition ports_arrived (nap_id : string) (ok : bool) (st : modal) : modal :=
  if ok then set_ports (List.filter (fun p => negb (is_occupied p)) (cascade_ports B nap_id)) st
  else toast_error "Error al cargar puertos" st.

(** The initial [Promise.all] on clients and cells. *)
Definition initial_arrived (ok : bool) (st : modal) : modal :=
  if ok then set_directory (get_clients B) (get_cells B) st
  else toast_error "Error al cargar datos" st.

(** *** Submitting *)

Definition fiber_body (f : gmap string value) : fiber_payload :=
  {| fp_client_id := parse_field f "client_id";
     fp_cell_id := parse_field f "cell_id";
     fp_plan_id := parse_field f "plan_id";
     fp_locality := or_null f "locality";
     fp_address := or_null f "address";
     fp_street_between_1 := or_null f "street_between_1";
     fp_street_between_2 := or_null f "street_between_2";
     fp_contract_date := or_null f "contract_date";
     fp_is_free := f !! "is_free";
     fp_olt_zone_id := parse_field f "olt_zone_id";
     fp_nap_id := parse_field f "nap_id";
     fp_nap_port_id := parse_field f "nap_port_id";
     fp_ip_address := f !! "ip_address";
     fp_pppoe_profile :=
       if truthy (f !! "pppoe_profile") then f !! "pppoe_profile"
       else Some (VStr "default-encryption");
     fp_pppoe_username := f !! "pppoe_username";
     fp_pppoe_password_encrypted := f !! "pppoe_password_encrypted";
     fp_onu_id := parse_field f "onu_id";
     fp_mode := f !! "mode" |}.

Definition antenna_body (f : gmap string value) : antenna_payload :=
  {| ap_client_id := parse_field f "client_id";
     ap_cell_id := parse_field f "cell_id";
     ap_plan_id := parse_field f "plan_id";
     ap_locality := or_null f "locality";
     ap_address := or_null f "address";
     ap_street_between_1 := or_null f "street_between_1";
     ap_street_between_2 := or_null f "street_between_2";
     ap_contract_date := or_null f "contract_date";
     ap_is_free := f !! "is_free";
     ap_generate_month_charge := f !! "generate_month_charge";
     ap_ip_address := f !! "ip_address";
     ap_ip_additional := or_null f "ip_additional";
     ap_cpe_id := parse_field f "cpe_id";
     ap_router_id :=
       if truthy (f !! "router_id") then parse_field f "router_id" else None |}.

(** [handleSubmit] up to the [await] on the POST, or to the end of its
    [finally] when a check returns early.  The first three checks come
    before [setSaving(true)]; the others sit inside the [try], so their
    early [return] still runs [setSaving(false)]. *)
Definition handleSubmit (st : modal) : modal :=
  let f := form st in
  let missing k := negb (truthy (f !! k)) in
  if missing "client_id" then toast_error "Selecciona un cliente" st
  else if missing "cell_id" then toast_error "Selecciona una célula" st
  else if missing "plan_id" then toast_error "Selecciona un plan" st
  else
    let rejected msg := set_saving false (toast_error msg st) in
    if isFibra st then
      if missing "olt_zone_id" || missing "nap_id" || missing "nap_port_id"
      then rejected "Selecciona zona, NAP y puerto"
      else if missing "ip_address" || missing "pppoe_username"
              || missing "pppoe_password_encrypted"
      then rejected "Completa los datos PPPoE"
      else if missing "onu_id" then rejected "Selecciona una ONU"
      else post (PostFiber (fiber_body f)) (set_saving true st)
    else
      if missing "ip_address" then rejected "Ingresa la IP"
      else if missing "cpe_id" then rejected "Selecciona un CPE"
      else post (PostAntenna (antenna_body f)) (set_saving true st).

(** The POST settles: [None] is a success, [Some detail] a rejection
    carrying [err.response?.data?.detail]. *)
Definition write_settled (err : option (option string)) (st : modal) : modal :=
  match err with
  | None =>
      let msg := match last (sent st) with
                 | Some (PostAntenna _) => "Conexión ANTENA creada ✅"
                 | _ => "Conexión FIBRA creada ✅"
                 end in
      set_saving false (set_saved true (toast_success msg st))
  | Some detail =>
      let msg := match detail with
                 | Some d => if JS.truthy_string d then d else "Error al crear conexión"
                 | None => "Error al crear conexión"
                 end in
      set_saving false (toast_error msg st)
  end.

(** *** Events and steps *)

Inductive event :=
  | InitialArrived (ok : bool)
  | Change (key : string) (v : value)
  | CellDataArrived (cell_id : string) (found : option cell) (o : cell_data_outcome)
  | NapsArrived (zone_id : string) (ok : bool)
  | PortsArrived (nap_id : string) (ok : bool)
  | Submit
  | WriteSettled (err : option (option string)).

(** Removes the first occurrence of an answered request. *)
Fixpoint answer (r : request) (l : list request) : option (list request) :=
  match l with
  | [] => None
  | r' :: l' =>
      if decide (r = r') then Some l'
      else cons r' <$> answer r l'
  end.

Definition answered (r : request) (st : modal) : option modal :=
  (fun l => set_pending l st) <$> answer r (pending st).

(** The state update of one event; [None] when the event cannot occur
    in [st] (a response nobody waits for, a value the control does not
    offer). *)
Definition handle (ev : event) (st : modal) : option modal :=
  match ev with
  | InitialArrived ok => initial_arrived ok <$> answered ReqInitial st
  | Change key v =>
      if can_change preClientId st key v then Some (update_form key v st) else None
  | CellDataArrived cid found o =>
      cell_data_arrived cid found o <$> answered (ReqCellData cid found) st
  | NapsArrived z ok => naps_arrived z ok <$> answered (ReqNaps z) st
  | PortsArrived n ok => ports_arrived n ok <$> answered (ReqPorts n) st
  | Submit => Some (handleSubmit st)
  | WriteSettled err => if saving st then Some (write_settled err st) else None
  end.

(** One event, then the effects of the renders that follow. *)
Definition step (ev : event) (st : modal) : option modal :=
  settle (deps_of st) <$> handle ev st.

(** A whole session, oldest event first. *)
Fixpoint run (evs : list event) (st : modal) : option modal :=
  match evs with
  | [] => Some st
  | ev :: evs' =>
      match step ev st with
      | Some st' => run evs' st'
      | None => None
      end
  end.

End Handlers.

(** The fields a fibre draft must carry. *)
Definition fiber_required : list string :=
  [ "client_id"; "cell_id"; "plan_id"; "olt_zone_id"; "nap_id"; "nap_port_id";
    "ip_address"; "pppoe_username"; "pppoe_password_encrypted"; "onu_id" ].

(** *** The NAP listing of the Directory *)

(** A NAP as the Directory stores it. *)
Record nap_row := {
  nr_id : Z;
  nr_name : string;
  nr_zone : Z;
  total_ports : Z;
  occupied_count : Z;
}.

(** Modelled from the spec: the answer of
    [GET /cells/zones/{id}/cascade/naps], which the back end computes
    and which is not among the sources.  Section 4.3: "Selecting a Zone
    yields only NAPs belonging to it with
    [free_ports = total_ports - occupied_count > 0]." *)
Definition free_ports_of (r : nap_row) : Z := (total_ports r - occupied_count r)%Z.

Definition nap_of_row (r : nap_row) : nap :=
  {| n_id := nr_id r; n_name := nr_name r; free_ports := free_ports_of r |}.

Definition spec_cascade_naps (rows : list nap_row) (zone_id : string) : list nap :=
  match JS.parseInt zone_id with
  | Some z =>
      nap_of_row <$>
        List.filter (fun r => (nr_zone r =? z)%Z && (0 <? free_ports_of r)%Z) rows
  | None => []
  end.

(** The fields an antenna draft must carry. *)
Definition antenna_required : list string :=
  [ "client_id"; "cell_id"; "plan_id"; "ip_address"; "cpe_id" ].

(** The state after the cell effect, when it runs. *)
Definition after_cell (old : deps) (st : modal) : modal :=
  if decide (dep_cell old = dep_cell (deps_of st)
             /\ dep_cells old = dep_cells (deps_of st))
  then st else cell_effect (deps_of st) st.

(** *** What a session keeps true *)

Section Sessions.

Variable B : backend.

(** A value of a select of ports: the placeholder, or the option of a
    port that some listing returned as not occupied. *)
Definition free_port_option (s : string) : Prop :=
  s = "" \/ exists p n, s = pretty (p_id p) /\ p ∈ cascade_ports B n
                         /\ is_occupied p = false.

(** A value of a select of NAPs: the placeholder, or the option of a
    NAP that some listing returned. *)
Definition nap_option (s : string) : Prop :=
  s = "" \/ exists np z, s = pretty (n_id np) /\ np ∈ cascade_naps B z.

(** The cell a write names is a cell of the Directory, of the type the
    write is for. *)
Definition names_cell (cell_id : option Z) (types : list string) : Prop :=
  exists c, c ∈ get_cells B /\ cell_id = Some (c_id c) /\ cell_type c ∈ types.

Definition good_write (w : write) : Prop :=
  match w with
  | PostFiber b =>
      names_cell (fp_cell_id b) ["fibra"; "hifiber_ipoe"]
      /\ (exists p n, fp_nap_port_id b = Some (p_id p) /\ p ∈ cascade_ports B n
                      /\ is_occupied p = false)
      /\ (exists np z, fp_nap_id b = Some (n_id np) /\ np ∈ cascade_naps B z)
  | PostAntenna b => names_cell (ap_cell_id b) ["antenas"]
  end.

(** [selectedCell] is what the cell effect last computed from the
    current [form.cell_id] and [cells]. *)
Definition cell_in_step (st : modal) : Prop :=
  selectedCell st
  = if truthy (form st !! "cell_id")
    then find_cell (form st !! "cell_id") (cells st)
    else None.

Record session_inv (st : modal) : Prop := {
  inv_cell : cell_in_step st;
  inv_cells : cells st = [] \/ cells st = get_cells B;
  inv_cpe : truthy (form st !! "cpe_id") = true ->
            truthy (form st !! "cell_id") = true -> isAntena st = true;
  inv_ports : forall p, p ∈ ports st ->
              is_occupied p = false /\ exists n, p ∈ cascade_ports B n;
  inv_naps : forall n, n ∈ naps st -> exists z, n ∈ cascade_naps B z;
  inv_port_key : exists s, form st !! "nap_port_id" = Some (VStr s)
                           /\ free_port_option s;
  inv_nap_key : exists s, form st !! "nap_id" = Some (VStr s) /\ nap_option s;
  inv_sent : forall w, w ∈ sent st -> good_write w;
}.

End Sessions.

(** What is left of the form once its initial load has failed. *)
Record load_failed (st : modal) : Prop := {
  lf_cells : cells st = [];
  lf_cell_id : form st !! "cell_id" = Some (VStr "");
  lf_pending : ReqInitial ∉ pending st;
  lf_sent : sent st = [];
  lf_toast : Toast_error "Error al cargar datos" ∈ toasts st;
}.

End Cascade.

(** ** The cell creation wizard ([CellCreateModal] in CellsPage.jsx) *)

Module CellWizard.

Export JS (value, VStr, VBool, truthy, to_string).

(** An entry of a select: [{ value, label }]. *)
Record choice := {
  value_of : string;
  label : string;
}.

Definition getSuggestedAssignment (t : string) : string :=
  if String.eqb t "fibra" then "pppoe_distributed"
  else if String.eqb t "hifiber_ipoe" then "dhcp_pool"
  else "static_addressing".

Definition getAssignmentOptions (t : string) : list choice :=
  if String.eqb t "fibra" then
    [ {| value_of := "pppoe_distributed"; label := "PPPoE Distribuido" |};
      {| value_of := "dhcp_pool"; label := "DHCP Pool (IPoE)" |} ]
  else if String.eqb t "antenas" then
    [ {| value_of := "static_addressing"; label := "Estático" |};
      {| value_of := "dhcp_pool"; label := "DHCP Pool" |} ]
  else if String.eqb t "hifiber_ipoe" then
    [ {| value_of := "dhcp_pool"; label := "DHCP Pool" |} ]
  else [].

(** The options of the "Tipo de célula" select. *)
Definition cell_type_options : list choice :=
  [ {| value_of := "fibra"; label := "Fibra PPPoE" |};
    {| value_of := "antenas"; label := "Antenas" |};
    {| value_of := "hifiber_ipoe"; label := "Fibra IPoE" |} ].

(** A row of [OLT_MODELS]. *)
Record olt_model := {
  om_value : string;
  om_label : string;
  om_brand : string;
  om_ports : Z;
}.

Definition OLT_MODELS : list olt_model :=
  [ {| om_value := "ZXA10 C300"; om_label := "ZXA10 C300 (ZTE)"; om_brand := "zte"; om_ports := 16 |};
    {| om_value := "ZXA10 C320"; om_label := "ZXA10 C320 (ZTE)"; om_brand := "zte"; om_ports := 32 |};
    {| om_value := "ZXA10 C600"; om_label := "ZXA10 C600 (ZTE)"; om_brand := "zte"; om_ports := 64 |};
    {| om_value := "VSOL V1600"; om_label := "VSOL V1600 (VSOL)"; om_brand := "vsol"; om_ports := 16 |};
    {| om_value := "VSOL V2800"; om_label := "VSOL V2800 (VSOL)"; om_brand := "vsol"; om_ports := 32 |} ].

Definition EMPTY : gmap string value :=
  list_to_map [
    ("name", VStr ""); ("cell_type", VStr "fibra");
    ("assignment", VStr "pppoe_distributed");
    ("address", VStr ""); ("range_meters", VStr ""); ("use_pcq", VBool false);
    ("mikrotik_host", VStr ""); ("mikrotik_username_encrypted", VStr "");
    ("mikrotik_password_encrypted", VStr ""); ("mikrotik_api_port", VStr "8728");
    ("mikrotik_use_ssl", VBool false); ("mikrotik_interface", VStr "");
    ("pppoe_service_ip", VStr "");
    ("dhcp_pool_start", VStr ""); ("dhcp_pool_end", VStr ""); ("dhcp_gateway", VStr "");
    ("dhcp_dns1", VStr "8.8.8.8"); ("dhcp_dns2", VStr "8.8.4.4");
    ("dhcp_lease_time", VStr "1d"); ("dhcp_interface", VStr "");
    ("ipv4_range", VStr ""); ("ipv4_mask", VStr "");
    ("ipv4_host_min", VStr ""); ("ipv4_host_max", VStr "");
    ("olt_model", VStr "ZXA10 C300"); ("olt_brand", VStr "zte");
    ("olt_total_ports", VStr "16");
    ("olt_ip", VStr ""); ("olt_ssh_port", VStr "8022");
    ("olt_ssh_username", VStr ""); ("olt_ssh_password", VStr "")
  ].

(** [handleChange]: the OLT model select also fills the brand and the
    port count; every other control writes its own key. *)
Definition handleChange (name : string) (v : value) (f : gmap string value)
    : gmap string value :=
  if String.eqb name "olt_model" then
    let model := List.find (fun m => String.eqb (om_value m) (to_string (Some v))) OLT_MODELS in
    let brand := match model with
                 | Some m => if JS.truthy_string (om_brand m) then om_brand m else "zte"
                 | None => "zte"
                 end in
    let n := match model with
             | Some m => if (om_ports m =? 0)%Z then 16%Z else om_ports m
             | None => 16%Z
             end in
    <[ "olt_total_ports" := VStr (pretty n) ]>
      (<[ "olt_brand" := VStr brand ]> (<[ "olt_model" := v ]> f))
  else <[ name := v ]> f.

(** What [parseCidr(getCidrFromIface(iface))] found for the chosen
    interface: [{ red, mascara, hostMin, hostMax }]. *)
Record parsed_cidr := {
  red : string;
  mascara : string;
  hostMin : string;
  hostMax : string;
}.

(** [handleInterfaceChange]; the parsed range is [None] when nothing is
    stored for the router or the interface has no usable CIDR. *)
Definition handleInterfaceChange (ifaceName : string) (parsed : option parsed_cidr)
    (f : gmap string value) : gmap string value :=
  match parsed with
  | Some p =>
      <[ "ipv4_host_max" := VStr (hostMax p) ]>
        (<[ "ipv4_host_min" := VStr (hostMin p) ]>
           (<[ "ipv4_mask" := VStr (mascara p) ]>
              (<[ "ipv4_range" := VStr (red p) ]>
                 (<[ "mikrotik_interface" := VStr ifaceName ]> f))))
  | None => <[ "mikrotik_interface" := VStr ifaceName ]> f
  end.

(** The effect on [[form.cell_type]]:
    [setForm(prev => ({ ...prev, assignment: getSuggestedAssignment(prev.cell_type) }))]. *)
Definition type_effect (f : gmap string value) : gmap string value :=
  <[ "assignment" := VStr (getSuggestedAssignment (to_string (f !! "cell_type"))) ]> f.

(** The effect on [[open]] when the modal opens: [setForm(EMPTY)], then
    the stored router host if there is one. *)
Definition open_effect (stored_host : option string) : gmap string value :=
  match stored_host with
  | Some h => if JS.truthy_string h then <[ "mikrotik_host" := VStr h ]> EMPTY else EMPTY
  | None => EMPTY
  end.

(** The controls of the wizard other than the two selects of interest. *)
Definition text_controls : list string :=
  [ "name"; "address"; "range_meters"; "mikrotik_host";
    "mikrotik_username_encrypted"; "mikrotik_password_encrypted";
    "mikrotik_api_port"; "ipv4_range"; "ipv4_host_min"; "ipv4_host_max";
    "olt_ssh_port"; "olt_ip"; "olt_ssh_username"; "olt_ssh_password";
    "dhcp_pool_start"; "dhcp_pool_end"; "dhcp_gateway"; "dhcp_interface";
    "dhcp_dns1"; "dhcp_dns2" ].

Definition checkbox_controls : list string := [ "use_pcq"; "mikrotik_use_ssl" ].

Definition select_controls : list (string * list string) :=
  [ ("ipv4_mask", [""; "/8"; "/16"; "/24"; "/25"; "/26"; "/27"; "/28"]);
    ("olt_model", om_value <$> OLT_MODELS);
    ("olt_total_ports", ["8"; "16"; "32"; "64"]);
    ("dhcp_lease_time", ["1h"; "6h"; "12h"; "1d"; "7d"]) ].

(** A [change] event some control of the wizard can produce.  The step
    of the wizard that shows the control is not tracked: every control
    is taken to be reachable at any time. *)
Definition offers (f : gmap string value) (name : string) (v : value) : bool :=
  match v with
  | VStr s =>
      if String.eqb name "cell_type" then bool_decide (s ∈ value_of <$> cell_type_options)
      else if String.eqb name "assignment" then
        bool_decide (s ∈ value_of <$> getAssignmentOptions (to_string (f !! "cell_type")))
      else
        bool_decide (name ∈ text_controls)
        || existsb (fun c => String.eqb name c.1 && bool_decide (s ∈ c.2)) select_controls
  | VBool _ => bool_decide (name ∈ checkbox_controls)
  end.

Inductive event :=
  | Open (stored_host : option string)
  | Change (name : string) (v : value)
  | InterfaceChange (ifaceName : string) (parsed : option parsed_cidr).

(** The state update of an event followed by the effect on the cell
    type, which runs when the type differs from the previous render. *)
Definition step (ev : event) (f : gmap string value) : option (gmap string value) :=
  let updated :=
    match ev with
    | Open h => Some (open_effect h)
    | Change name v => if offers f name v then Some (handleChange name v f) else None
    | InterfaceChange i p => Some (handleInterfaceChange i p f)
    end in
  (fun f' => if decide (f' !! "cell_type" = f !! "cell_type") then f' else type_effect f')
    <$> updated.

(** The forms the wizard can show, starting from its mount. *)
Inductive reachable : gmap string value -> Prop :=
  | reach_mount : reachable EMPTY
  | reach_step f ev f' : reachable f -> step ev f = Some f' -> reachable f'.

(** The two keys of the creation payload the invariant speaks of:
    [cell_type: form.cell_type, assignment: form.assignment]. *)
Definition payload_type (f : gmap string value) : option value := f !! "cell_type".
Definition payload_assignment (f : gmap string value) : option value := f !! "assignment".

(** The invariant of the wizard: the type is one of the three on offer
    and the assignment is on offer for it. *)
Definition well_typed (f : gmap string value) : Prop :=
  exists t a,
    payload_type f = Some (VStr t) /\ payload_assignment f = Some (VStr a)
    /\ t ∈ value_of <$> cell_type_options
    /\ a ∈ value_of <$> getAssignmentOptions t.

(** *** The compatibility rule as the specification words it

    PPPoE only for the fibre PPPoE type, static addressing only for the
    wireless type, DHCP allowed (the rule names the IPoE and wireless
    types for it and forbids it nowhere). *)
Definition compatible (cell_type assignment : string) : Prop :=
  (assignment = "pppoe_distributed" -> cell_type = "fibra")
  /\ (assignment = "static_addressing" -> cell_type = "antenas")
  /\ assignment ∈ ["pppoe_distributed"; "dhcp_pool"; "static_addressing"].

End CellWizard.

(** ** The steps of the wizard and its submission
       ([CellCreateModal] in CellsPage.jsx) *)

Module CellCreateModal.

Export JS (value, VStr, VBool, truthy, to_string).

(** [form.key === s]. *)
Definition is_str (f : gmap string value) (key s : string) : bool :=
  bool_decide (f !! key = Some (VStr s)).

(** [form.key] where the code reads a string ([form.key.trim()],
    [parseInt(form.key)]); every key read below is set by [EMPTY] and
    never removed. *)
Definition text (f : gmap string value) (key : string) : string :=
  to_string (f !! key).

(** [form.key || null]. *)
Definition or_null (f : gmap string value) (key : string) : option value :=
  if truthy (f !! key) then f !! key else None.

Definition isFibra (f : gmap string value) : bool :=
  is_str f "cell_type" "fibra" || is_str f "cell_type" "hifiber_ipoe".

Definition isDHCP (f : gmap string value) : bool :=
  is_str f "assignment" "dhcp_pool".

Definition isPPPoE (f : gmap string value) : bool :=
  is_str f "assignment" "pppoe_distributed".

Definition getSteps (f : gmap string value) : list string :=
  [ "General"; "MikroTik" ]
  ++ (if isFibra f then [ "OLT" ] else [])
  ++ (if isDHCP f then [ "DHCP" ] else [])
  ++ [ "Resumen" ].

(** [currentStepName === n]; [current] is [steps[step]]. *)
Definition at_step (current : option string) (n : string) : bool :=
  match current with
  | Some c => String.eqb c n
  | None => false
  end.

(** [validateStep]: the message of the [toast.error] when it returns
    [false], [None] when it returns [true]. *)
Definition validateStep (f : gmap string value) (current : option string)
    : option string :=
  if at_step current "General" && JS.blank (text f "name")
  then Some "El nombre es obligatorio"
  else if at_step current "MikroTik" && JS.blank (text f "mikrotik_host")
  then Some "La IP del MikroTik es obligatoria"
  else if at_step current "MikroTik" && JS.blank (text f "mikrotik_interface")
  then Some "La interfaz es obligatoria"
  else if at_step current "OLT" && JS.blank (text f "olt_ip")
  then Some "La IP de la OLT es obligatoria"
  else None.

(** The body of [POST /cells/]. *)
Record cell_payload := {
  cw_name : option value;
  cw_cell_type : option value;
  cw_assignment : option value;
  cw_address : option value;
  cw_range_meters : option Z;
  cw_use_pcq : option value;
  cw_mikrotik_host : option value;
  cw_mikrotik_username_encrypted : option value;
  cw_mikrotik_password_encrypted : option value;
  cw_mikrotik_api_port : Z;
  cw_mikrotik_use_ssl : option value;
  cw_mikrotik_interface : option value;
  cw_pppoe_service_ip : option value;
  cw_dhcp_pool_start : option value;
  cw_dhcp_pool_end : option value;
  cw_dhcp_gateway : option value;
  cw_dhcp_dns1 : option value;
  cw_dhcp_dns2 : option value;
  cw_dhcp_lease_time : option value;
  cw_dhcp_interface : option value;
  cw_ipv4_range : option value;
  cw_ipv4_mask : option value;
  cw_ipv4_host_min : option value;
  cw_ipv4_host_max : option value;
  cw_plan_ids : list Z;
}.

(** [c ? form.key || null : null]. *)
Definition when (c : bool) (f : gmap string value) (key : string) : option value :=
  if c then or_null f key else None.

(** The [payload] object of [handleSubmit]; a number field holds [None]
    for [null] and for [NaN], which are sent alike. *)
Definition payload_of (f : gmap string value) : cell_payload :=
  {| cw_name := f !! "name";
     cw_cell_type := f !! "cell_type";
     cw_assignment := f !! "assignment";
     cw_address := or_null f "address";
     cw_range_meters :=
       if truthy (f !! "range_meters") then JS.parseInt (text f "range_meters")
       else None;
     cw_use_pcq := f !! "use_pcq";
     cw_mikrotik_host := f !! "mikrotik_host";
     cw_mikrotik_username_encrypted := or_null f "mikrotik_username_encrypted";
     cw_mikrotik_password_encrypted := or_null f "mikrotik_password_encrypted";
     cw_mikrotik_api_port := JS.parseInt_or (text f "mikrotik_api_port") 8728;
     cw_mikrotik_use_ssl := f !! "mikrotik_use_ssl";
     cw_mikrotik_interface := or_null f "mikrotik_interface";
     cw_pppoe_service_ip := when (isPPPoE f) f "pppoe_service_ip";
     cw_dhcp_pool_start := when (isDHCP f) f "dhcp_pool_start";
     cw_dhcp_pool_end := when (isDHCP f) f "dhcp_pool_end";
     cw_dhcp_gateway := when (isDHCP f) f "dhcp_gateway";
     cw_dhcp_dns1 := when (isDHCP f) f "dhcp_dns1";
     cw_dhcp_dns2 := when (isDHCP f) f "dhcp_dns2";
     cw_dhcp_lease_time :=
       if isDHCP f
       then (if truthy (f !! "dhcp_lease_time") then f !! "dhcp_lease_time"
             else Some (VStr "1d"))
       else None;
     cw_dhcp_interface := when (isDHCP f) f "dhcp_interface";
     cw_ipv4_range := or_null f "ipv4_range";
     cw_ipv4_mask := or_null f "ipv4_mask";
     cw_ipv4_host_min := or_null f "ipv4_host_min";
     cw_ipv4_host_max := or_null f "ipv4_host_max";
     cw_plan_ids := [] |}.

(** The body of [POST /cells/{id}/olt]. *)
Record olt_payload := {
  olt_brand : option value;
  olt_model_name : option value;
  olt_total_ports : option Z;
  olt_ip : option value;
  olt_ssh_port : Z;
  olt_ssh_username_encrypted : option value;
  olt_ssh_password_encrypted : option value;
}.

Definition olt_payload_of (f : gmap string value) : olt_payload :=
  {| olt_brand := f !! "olt_brand";
     olt_model_name := f !! "olt_model";
     olt_total_ports := JS.parseInt (text f "olt_total_ports");
     olt_ip := f !! "olt_ip";
     olt_ssh_port := JS.parseInt_or (text f "olt_ssh_port") 22;
     olt_ssh_username_encrypted := or_null f "olt_ssh_username";
     olt_ssh_password_encrypted := or_null f "olt_ssh_password" |}.

Inductive write :=
  | PostCell (body : cell_payload)
  | PostOlt (cellId : Z) (body : olt_payload).

Inductive toast :=
  | Toast_success (msg : string)
  | Toast_error (msg : string).

(** What one run of [handleSubmit] does: the requests it sends, the
    message it ends with, and whether [onSaved] is called. *)
Record submission := {
  writes : list write;
  message : toast;
  onSaved : bool;
}.

(** [handleSubmit], run to its end on the form of the render it was
    bound in.  [cell_res] is the outcome of [POST /cells/]: [inr id] with
    [id = res.data.id], or [inl detail] for a rejection carrying
    [err.response?.data?.detail]; [olt_ok] is the outcome of the OLT
    request when one is sent. *)
Definition handleSubmit (f : gmap string value) (cell_res : option string + Z)
    (olt_ok : bool) : submission :=
  match cell_res with
  | inl detail =>
      let msg := match detail with
                 | Some d => if JS.truthy_string d then d else "Error al crear célula"
                 | None => "Error al crear célula"
                 end in
      {| writes := [ PostCell (payload_of f) ];
         message := Toast_error msg; onSaved := false |}
  | inr cellId =>
      if isFibra f && negb (JS.blank (text f "olt_ip")) then
        {| writes := [ PostCell (payload_of f); PostOlt cellId (olt_payload_of f) ];
           message :=
             if olt_ok then Toast_success "Célula creada correctamente ✅"
             else Toast_error
                    "Célula creada, pero error guardando OLT. Configúrala desde la ficha.";
           onSaved := true |}
      else
        {| writes := [ PostCell (payload_of f) ];
           message := Toast_success "Célula creada correctamente ✅";
           onSaved := true |}
  end.

(** The controls each step renders with [handleChange]. *)
Definition controls_in (stepName : string) : list string :=
  if String.eqb stepName "General" then
    [ "name"; "cell_type"; "assignment"; "address"; "range_meters"; "use_pcq" ]
  else if String.eqb stepName "MikroTik" then
    [ "mikrotik_host"; "mikrotik_username_encrypted"; "mikrotik_password_encrypted";
      "mikrotik_api_port"; "mikrotik_use_ssl";
      "ipv4_range"; "ipv4_mask"; "ipv4_host_min"; "ipv4_host_max" ]
  else if String.eqb stepName "OLT" then
    [ "olt_model"; "olt_total_ports"; "olt_ssh_port"; "olt_ip";
      "olt_ssh_username"; "olt_ssh_password" ]
  else if String.eqb stepName "DHCP" then
    [ "dhcp_pool_start"; "dhcp_pool_end"; "dhcp_gateway"; "dhcp_interface";
      "dhcp_dns1"; "dhcp_dns2"; "dhcp_lease_time" ]
  else [].

(** The state cells of the modal: [step], [form] and [storedMk], the
    latter as far as the modal reads it ([None] for [null], otherwise
    [storedMk.host], empty when it has none); then what the runs of
    [handleSubmit] sent and the error messages of [validateStep]. *)
Record wizard := {
  w_step : nat;
  w_form : gmap string value;
  w_storedMk : option string;
  w_sent : list write;
  w_rejections : list string;
}.

(** [useState(0)], [useState(EMPTY)], [useState(null)]. *)
Definition mount : wizard :=
  {| w_step := 0; w_form := CellWizard.EMPTY; w_storedMk := None;
     w_sent := []; w_rejections := [] |}.

Definition currentStepName (w : wizard) : option string :=
  getSteps (w_form w) !! w_step w.

(** [disabled={!!storedMk?.host}] on the host input. *)
Definition host_locked (w : wizard) : bool :=
  match w_storedMk w with
  | Some h => JS.truthy_string h
  | None => false
  end.

(** [step < totalSteps - 1]: the footer shows "Siguiente"; otherwise it
    shows "Crear Célula". *)
Definition shows_next (w : wizard) : bool :=
  (w_step w + 1 <? length (getSteps (w_form w)))%nat.

(** [nextStep]. *)
Definition nextStep (w : wizard) : wizard :=
  match validateStep (w_form w) (currentStepName w) with
  | Some msg =>
      {| w_step := w_step w; w_form := w_form w; w_storedMk := w_storedMk w;
         w_sent := w_sent w; w_rejections := w_rejections w ++ [msg] |}
  | None =>
      {| w_step := w_step w + 1; w_form := w_form w; w_storedMk := w_storedMk w;
         w_sent := w_sent w; w_rejections := w_rejections w |}
  end.

(** [prevStep], bound to the footer's left button when [step !== 0]. *)
Definition prevStep (w : wizard) : wizard :=
  {| w_step := w_step w - 1; w_form := w_form w; w_storedMk := w_storedMk w;
     w_sent := w_sent w; w_rejections := w_rejections w |}.

Definition set_form (f : gmap string value) (w : wizard) : wizard :=
  {| w_step := w_step w; w_form := f; w_storedMk := w_storedMk w;
     w_sent := w_sent w; w_rejections := w_rejections w |}.

Inductive event :=
  | Open (storedMk : option string)
  | ClearStorage
  | Change (name : string) (v : value)
  | InterfaceChange (ifaceName : string) (parsed : option CellWizard.parsed_cidr)
  | Next
  | Prev
  | Submit (cell_res : option string + Z) (olt_ok : bool).

(** A [change] event the step on display can produce. *)
Definition can_change (w : wizard) (name : string) (v : value) : bool :=
  match currentStepName w with
  | Some sn =>
      bool_decide (name ∈ controls_in sn)
      && CellWizard.offers (w_form w) name v
      && negb (String.eqb name "mikrotik_host" && host_locked w)
  | None => false
  end.

(** The state update of one event, followed by the effect on the cell
    type when the type changed; [None] when the render on display
    cannot produce the event. *)
Definition step (ev : event) (w : wizard) : option wizard :=
  let with_type_effect (f' : gmap string value) :=
    if decide (f' !! "cell_type" = w_form w !! "cell_type") then f'
    else CellWizard.type_effect f' in
  match ev with
  | Open mk =>
      Some {| w_step := 0;
              w_form := with_type_effect (CellWizard.open_effect mk);
              w_storedMk := mk;
              w_sent := w_sent w; w_rejections := w_rejections w |}
  | ClearStorage =>
      if at_step (currentStepName w) "MikroTik" && bool_decide (is_Some (w_storedMk w))
      then Some {| w_step := w_step w; w_form := w_form w; w_storedMk := None;
                   w_sent := w_sent w; w_rejections := w_rejections w |}
      else None
  | Change name v =>
      if can_change w name v
      then Some (set_form (with_type_effect (CellWizard.handleChange name v (w_form w))) w)
      else None
  | InterfaceChange i p =>
      if at_step (currentStepName w) "MikroTik"
      then Some (set_form (with_type_effect
                   (CellWizard.handleInterfaceChange i
                      (match w_storedMk w with Some _ => p | None => None end)
                      (w_form w))) w)
      else None
  | Next => if shows_next w then Some (nextStep w) else None
  | Prev => if (0 <? w_step w)%nat then Some (prevStep w) else None
  | Submit cell_res olt_ok =>
      if shows_next w then None
      else Some {| w_step := w_step w; w_form := w_form w;
                   w_storedMk := w_storedMk w;
                   w_sent := w_sent w ++ writes (handleSubmit (w_form w) cell_res olt_ok);
                   w_rejections := w_rejections w |}
  end.

Fixpoint run (evs : list event) (w : wizard) : option wizard :=
  match evs with
  | [] => Some w
  | ev :: evs' =>
      match step ev w with
      | Some w' => run evs' w'
      | None => None
      end
  end.

(** What the steps passed so far have checked. *)
Record validated (w : wizard) : Prop := {
  val_step : w_step w < length (getSteps (w_form w));
  val_name : 1 <= w_step w -> JS.blank (text (w_form w) "name") = false;
  val_host : 2 <= w_step w -> JS.blank (text (w_form w) "mikrotik_host") = false;
  val_iface : 2 <= w_step w -> JS.blank (text (w_form w) "mikrotik_interface") = false;
  val_olt : 3 <= w_step w -> isFibra (w_form w) = true ->
            JS.blank (text (w_form w) "olt_ip") = false;
  val_service : w_form w !! "pppoe_service_ip" = Some (VStr "");
  val_iface_text : exists s, w_form w !! "mikrotik_interface" = Some (VStr s);
}.

(** [getStoredInterfaces]: the [netkeeper_mk_interfaces] entry of
    [localStorage] as the network page left it, [null] when there is
    none; [JSON.parse] gives back the object [JSON.stringify] was
    handed. *)
Definition getStoredInterfaces (entry : option (string * list Connect.router_iface))
    : option (string * list Connect.router_iface) :=
  entry.

(** What the modal keeps of [storedMk]. *)
Definition storedMk_of (entry : option (string * list Connect.router_iface))
    : option string :=
  fst <$> getStoredInterfaces entry.

(** What a cell the wizard posts carries. *)
Definition checked_cell (body : cell_payload) : Prop :=
  JS.all_spaces (to_string (cw_name body)) = false
  /\ JS.all_spaces (to_string (cw_mikrotik_host body)) = false
  /\ (exists v, cw_mikrotik_interface body = Some v
                /\ JS.all_spaces (to_string (Some v)) = false)
  /\ cw_pppoe_service_ip body = None
  /\ cw_mikrotik_api_port body <> 0%Z.

(** A wizard session with a router stored by the network page: a fibre
    cell is named, gets its interface and its OLT, and is created. *)
Definition fibre_session : list event :=
  [ Open (Some "172.168.10.1");
    Change "name" (VStr "Nodo Centro");
    Next;
    InterfaceChange "ether2"
      (Some {| CellWizard.red := "192.168.10.0"; CellWizard.mascara := "/24";
               CellWizard.hostMin := "192.168.10.1";
               CellWizard.hostMax := "192.168.10.254" |});
    Next;
    Change "olt_model" (VStr "VSOL V2800");
    Change "olt_ip" (VStr "38.124.210.94");
    Next;
    Submit (inr 7%Z) true ].

(** The state a wizard session leads to. *)
Definition outcome (evs : list event) : wizard :=
  default mount (run evs mount).

(** What a wizard session keeps true. *)
Definition wizard_inv (w : wizard) : Prop :=
  validated w
  /\ forall body, PostCell body ∈ w_sent w -> checked_cell body.

End CellCreateModal.

(** ** A provisioning session used below *)

Module Scenario.

Import Cascade.
Local Open Scope Z_scope.

Definition cellA : cell := {| c_id := 10; c_name := "Nodo Centro"; cell_type := "fibra" |}.

(** Two zones under cell 10: zone 1 owns NAP 11, zone 2 owns NAP 21. *)
Definition rows : list nap_row :=
  [ {| nr_id := 11; nr_name := "N1"; nr_zone := 1; total_ports := 2; occupied_count := 1 |};
    {| nr_id := 21; nr_name := "N2"; nr_zone := 2; total_ports := 8; occupied_count := 0 |} ].

Definition directory : backend :=
  {| get_clients := [ {| cl_id := 1; first_name := "Ana"; last_name := "Paz" |} ];
     get_cells := [ cellA ];
     get_plans := fun _ => [ {| pl_id := 7; pl_name := "100M" |} ];
     get_free_ips := fun _ => [ "10.0.0.5" ];
     get_zones := fun _ => [ {| z_id := 1; z_name := "Z1" |}; {| z_id := 2; z_name := "Z2" |} ];
     get_onus := [ {| d_id := 3; serial_number := "ZTEG0001"; mac_address := "aa:bb" |} ];
     get_cpes := [];
     cascade_naps := spec_cascade_naps rows;
     cascade_ports := fun n =>
       if String.eqb n "11" then
         [ {| p_id := 111; port_number := 1; is_occupied := false |};
           {| p_id := 112; port_number := 2; is_occupied := true |} ]
       else [] |}.

(** The operator picks zone 1 and sees its NAPs, then picks zone 2; the
    request for the NAPs of zone 2 fails, and NAP 11 of zone 1 is still
    on offer. *)
Definition stale_after_failure : list event :=
  [ InitialArrived true;
    Change "client_id" (VStr "1");
    Change "cell_id" (VStr "10");
    CellDataArrived "10" (Some cellA) AllOk;
    Change "plan_id" (VStr "7");
    Change "olt_zone_id" (VStr "1");
    NapsArrived "1" true;
    Change "olt_zone_id" (VStr "2");
    NapsArrived "2" false;
    Change "nap_id" (VStr "11");
    PortsArrived "11" true;
    Change "nap_port_id" (VStr "111");
    Change "ip_address" (VStr "10.0.0.5");
    Change "pppoe_username" (VStr "ana.fibra");
    Change "pppoe_password_encrypted" (VStr "secret");
    Change "onu_id" (VStr "3");
    Submit ].

(** The same session with no failure: the operator picks NAP 11 while
    the request for the NAPs of zone 2 is still in flight. *)
Definition stale_while_loading : list event :=
  [ InitialArrived true;
    Change "client_id" (VStr "1");
    Change "cell_id" (VStr "10");
    CellDataArrived "10" (Some cellA) AllOk;
    Change "plan_id" (VStr "7");
    Change "olt_zone_id" (VStr "1");
    NapsArrived "1" true;
    Change "olt_zone_id" (VStr "2");
    Change "nap_id" (VStr "11");
    NapsArrived "2" true;
    PortsArrived "11" true;
    Change "nap_port_id" (VStr "111");
    Change "ip_address" (VStr "10.0.0.5");
    Change "pppoe_username" (VStr "ana.fibra");
    Change "pppoe_password_encrypted" (VStr "secret");
    Change "onu_id" (VStr "3");
    Submit ].

(** The session up to the moment the NAPs of zone 1 are on offer, and
    the state it leads to. *)
Definition zone1_events : list event :=
  [ InitialArrived true;
    Change "client_id" (VStr "1");
    Change "cell_id" (VStr "10");
    CellDataArrived "10" (Some cellA) AllOk;
    Change "plan_id" (VStr "7");
    Change "olt_zone_id" (VStr "1");
    NapsArrived "1" true ].

Definition today : string := "2026-01-01".

Definition cell_chosen : modal :=
  default (initial "" today) (run directory "" (take 5 zone1_events) (initial "" today)).

Definition zone1_requested : modal :=
  default cell_chosen (step directory "" (Change "olt_zone_id" (VStr "1")) cell_chosen).

Definition zone1_open : modal :=
  default (initial "" today) (run directory "" zone1_events (initial "" today)).


(** A complete fibre draft on [zone1_open], and the same with the ONU
    left out. *)
Definition complete_draft : modal :=
  default zone1_open
    (run directory ""
       [ Change "nap_id" (VStr "11"); PortsArrived "11" true;
         Change "nap_port_id" (VStr "111");
         Change "ip_address" (VStr "10.0.0.5");
         Change "pppoe_username" (VStr "ana.fibra");
         Change "pppoe_password_encrypted" (VStr "secret");
         Change "onu_id" (VStr "3") ] zone1_open).

Definition draft_without_onu : modal :=
  update_form "onu_id" (VStr "") complete_draft.

(** An antenna cell beside the fibre cell, with one free CPE, and a
    complete antenna draft on it. *)
Definition cellB : cell := {| c_id := 20; c_name := "Torre Norte"; cell_type := "antenas" |}.

Definition directory_antenna : backend :=
  {| get_clients := [ {| cl_id := 1; first_name := "Ana"; last_name := "Paz" |} ];
     get_cells := [ cellA; cellB ];
     get_plans := fun _ => [ {| pl_id := 7; pl_name := "100M" |} ];
     get_free_ips := fun _ => [ "10.0.0.5" ];
     get_zones := fun _ => [];
     get_onus := [];
     get_cpes := [ {| d_id := 5; serial_number := "CPE0001"; mac_address := "cc:dd" |} ];
     cascade_naps := fun _ => [];
     cascade_ports := fun _ => [] |}.

Definition antenna_draft : modal :=
  default (initial "" today)
    (run directory_antenna ""
       [ InitialArrived true;
         Change "client_id" (VStr "1");
         Change "cell_id" (VStr "20");
         CellDataArrived "20" (Some cellB) AllOk;
         Change "plan_id" (VStr "7");
         Change "ip_address" (VStr "10.0.0.5");
         Change "cpe_id" (VStr "5") ] (initial "" today)).

(** The state a whole session leads to. *)
Definition outcome (D : backend) (evs : list event) : modal :=
  default (initial "" today) (run D "" evs (initial "" today)).

(** A whole antenna session, submission included. *)
Definition antenna_session : list event :=
  [ InitialArrived true;
    Change "client_id" (VStr "1");
    Change "cell_id" (VStr "20");
    CellDataArrived "20" (Some cellB) AllOk;
    Change "plan_id" (VStr "7");
    Change "ip_address" (VStr "10.0.0.5");
    Change "cpe_id" (VStr "5");
    Submit ].

(** *** Sessions that stop while a request is in flight *)

(** Zone 1 of cell 10 with two NAPs: NAP 11 as before, and NAP 12 with
    eight ports of which three are occupied. *)
Definition rows12 : list nap_row :=
  [ {| nr_id := 11; nr_name := "N1"; nr_zone := 1; total_ports := 2; occupied_count := 1 |};
    {| nr_id := 12; nr_name := "N2"; nr_zone := 1; total_ports := 8; occupied_count := 3 |} ].

Definition ports12 : list port :=
  [ {| p_id := 121; port_number := 1; is_occupied := true |};
    {| p_id := 122; port_number := 2; is_occupied := false |};
    {| p_id := 123; port_number := 3; is_occupied := true |};
    {| p_id := 124; port_number := 4; is_occupied := false |};
    {| p_id := 125; port_number := 5; is_occupied := false |};
    {| p_id := 126; port_number := 6; is_occupied := true |};
    {| p_id := 127; port_number := 7; is_occupied := false |};
    {| p_id := 128; port_number := 8; is_occupied := false |} ].

Definition directory12 : backend :=
  {| get_clients := get_clients directory;
     get_cells := get_cells directory;
     get_plans := get_plans directory;
     get_free_ips := get_free_ips directory;
     get_zones := get_zones directory;
     get_onus := get_onus directory;
     get_cpes := get_cpes directory;
     cascade_naps := spec_cascade_naps rows12;
     cascade_ports := fun n =>
       if String.eqb n "12" then ports12 else cascade_ports directory n |}.

(** The operator picks NAP 11, sees its free port, then picks NAP 12:
    the session stops while the request for the ports of NAP 12 is in
    flight. *)
Definition nap12_while_loading : list event :=
  zone1_events ++
  [ Change "nap_id" (VStr "11");
    PortsArrived "11" true;
    Change "nap_id" (VStr "12") ].

(** The operator picks zone 1, sees its NAPs, then picks zone 2: the
    session stops while the request for the NAPs of zone 2 is in
    flight. *)
Definition zone2_while_loading : list event :=
  zone1_events ++ [ Change "olt_zone_id" (VStr "2") ].

End Scenario.

(* ===================================================================== *)
(** * Part II.  Properties                                               *)
(* ===================================================================== *)

(** ** Numbers *)

Section NumberFacts.

Local Open Scope float_scope.

(** The double [+0] as [Prim2SF] sees it. *)
Lemma Prim2SF_zero : Prim2SF 0 = S754_zero false.
Proof. reflexivity. Qed.

(** A Number above zero is not below it. *)
Lemma gt0_not_negative (x : float) : JS.gt0 x = true -> (x <? 0) = false.
Proof.
  unfold JS.gt0. rewrite !FloatAxioms.ltb_spec, Prim2SF_zero.
  destruct (Prim2SF x) as [s | s | | s m e]; try destruct s; cbn; congruence.
Qed.

(** [Math.max(0, x)] is never below zero; for [x = NaN] it is [NaN],
    which compares below nothing. *)
Lemma Math_max_0_not_negative (x : float) : (JS.Math_max 0 x <? 0) = false.
Proof.
  unfold JS.Math_max.
  change (is_nan 0) with false. change (JS.is_neg_zero 0) with false.
  rewrite andb_false_r. cbn match.
  destruct (is_nan x); [reflexivity |].
  destruct (0 <? x) eqn:Hx; [| reflexivity].
  by apply gt0_not_negative.
Qed.

(** A quotient by the double [1000] is above zero only if the dividend
    is: this links [dt > 0] to the test [now - prev > 0] of the page. *)
Lemma gt0_div_1000 (x : float) : JS.gt0 (x / 1000) = true -> JS.gt0 x = true.
Proof.
  unfold JS.gt0. rewrite !FloatAxioms.ltb_spec, FloatAxioms.div_spec, Prim2SF_zero.
  change (Prim2SF 1000) with (S754_finite false 8796093022208000 (-43)).
  destruct (Prim2SF x) as [s | s | | s m e]; try destruct s; cbn; try congruence.
  all: unfold SF64div, SFdiv, SFdiv_core_binary, binary_round_aux.
  all: repeat match goal with
         | |- context [let '(_, _) := ?p in _] => destruct p
         end.
  all: cbn [xorb].
  all: repeat match goal with
         | |- context [match ?z with Z0 => _ | Zpos _ => _ | Zneg _ => _ end] => destruct z
         | |- context [if ?b then _ else _] => destruct b
         end; cbn; congruence.
Qed.

(** Arithmetic on [NaN]. *)
Lemma sub_nan (x : float) : x - nan = nan.
Proof.
  apply Prim2SF_inj. rewrite FloatAxioms.sub_spec.
  change (Prim2SF nan) with S754_nan.
  by destruct (Prim2SF x) as [[] | [] | | [] m e].
Qed.

Lemma nan_div (x : float) : nan / x = nan.
Proof.
  apply Prim2SF_inj. rewrite FloatAxioms.div_spec.
  change (Prim2SF nan) with S754_nan. reflexivity.
Qed.

Lemma Math_max_0_nan : JS.Math_max 0 nan = nan.
Proof. reflexivity. Qed.

End NumberFacts.

(** ** Division, product and rounding of counts in binary64 *)

Section Rounding.

Import Binary64.
Local Open Scope Z_scope.









End Rounding.

Section Counts.

Import Binary64.
Local Open Scope Z_scope.















End Counts.

(** ** The traffic monitor *)

Section TrafficFacts.

Import Traffic.
Local Open Scope float_scope.

(** The own properties of an object filled by the [forEach] of
    [fetchTraffic]: under a name, the sample of the last element that
    carries it; nothing is ever stored under [__proto__]. *)
Lemma fold_assign_own (l : list iface) (acc : snapshot) (nm : string) :
  own (fold_left (fun acc i => assign acc (name i) (sample_of i)) l acc) !! nm
  = if String.eqb nm "__proto__" then own acc !! nm
    else match last (List.filter (fun i => String.eqb (name i) nm) l) with
         | Some i => Some (sample_of i)
         | None => own acc !! nm
         end.
Proof.
  revert acc. induction l as [| i l IH]; intros acc.
  - cbn. by destruct (String.eqb nm "__proto__").
  - cbn [fold_left List.filter]. rewrite IH. unfold assign.
    destruct (String.eqb_spec nm "__proto__") as [Hnm | Hnm].
    + destruct (String.eqb_spec (name i) "__proto__") as [E | E]; cbn; [done |].
      rewrite lookup_insert_ne; congruence.
    + destruct (String.eqb_spec (name i) nm) as [Heq | Hne].
      * rewrite last_cons. destruct (last _); [done |].
        destruct (String.eqb_spec (name i) "__proto__") as [E | _]; [congruence |].
        cbn. by rewrite Heq, lookup_insert_eq.
      * destruct (last _); [done |].
        destruct (String.eqb (name i) "__proto__"); cbn; [done |].
        by rewrite lookup_insert_ne.
Qed.

(** Its prototype: the sample of the last element named [__proto__]. *)
Lemma fold_assign_proto (l : list iface) (acc : snapshot) :
  proto (fold_left (fun acc i => assign acc (name i) (sample_of i)) l acc)
  = match last (List.filter (fun i => String.eqb (name i) "__proto__") l) with
    | Some i => Some (sample_of i)
    | None => proto acc
    end.
Proof.
  revert acc. induction l as [| i l IH]; intros acc; [done |].
  cbn [fold_left List.filter]. rewrite IH. unfold assign.
  destruct (String.eqb (name i) "__proto__").
  - rewrite last_cons. by destruct (last _).
  - by destruct (last _).
Qed.

Lemma own_newData_of (l : list iface) (nm : string) :
  own (newData_of l) !! nm
  = if String.eqb nm "__proto__" then None
    else sample_of <$> last (List.filter (fun i => String.eqb (name i) nm) l).
Proof.
  unfold newData_of. rewrite fold_assign_own. cbn. rewrite lookup_empty.
  destruct (String.eqb nm "__proto__"); [done |]. by destruct (last _).
Qed.

Lemma proto_newData_of (l : list iface) :
  proto (newData_of l)
  = sample_of <$> last (List.filter (fun i => String.eqb (name i) "__proto__") l).
Proof. unfold newData_of. rewrite fold_assign_proto. by destruct (last _). Qed.

(** The last element of a list that passes a test. *)
Lemma last_filter_Some {A : Type} (f : A -> bool) (l : list A) :
  is_Some (last (List.filter f l)) <-> exists a, a ∈ l /\ f a = true.
Proof.
  split.
  - intros [a Ha]. exists a. apply last_Some in Ha as [l' Hl'].
    assert (Hin : In a (List.filter f l)).
    { rewrite Hl'. apply in_or_app. right. by left. }
    apply filter_In in Hin as [Hin Hf]. split; [by apply list_elem_of_In | done].
  - intros (a & Hin & Hf).
    assert (Hin' : In a (List.filter f l)).
    { apply filter_In. split; [by apply list_elem_of_In | done]. }
    destruct (List.filter f l) as [| b l'] eqn:E; [done |].
    rewrite last_is_Some. done.
Qed.

(** The snapshot holds exactly the names the response lists, but for
    [__proto__]. *)
Lemma newData_of_present (l : list iface) (nm : string) :
  is_Some (own (newData_of l) !! nm)
  <-> nm <> "__proto__" /\ exists i, i ∈ l /\ name i = nm.
Proof.
  rewrite own_newData_of.
  destruct (String.eqb_spec nm "__proto__") as [-> | Hnm].
  - split; [by intros [? ?] | by intros [? _]].
  - rewrite fmap_is_Some, last_filter_Some. split.
    + intros (i & Hi & He). split; [done |]. exists i. split; [done |].
      by apply String.eqb_eq.
    + intros (_ & i & Hi & He). exists i. split; [done |]. by apply String.eqb_eq.
Qed.

(** A successful poll stores the fresh snapshot and the time of the poll. *)
Lemma fetchTraffic_stores (st : monitor) (l : list iface) (now : float) :
  traffic (fetchTraffic (Some l) now st) = newData_of l
  /\ prevRef (fetchTraffic (Some l) now st) = newData_of l
  /\ prevTimeRef (fetchTraffic (Some l) now st) = Some now.
Proof. done. Qed.

(** A failed poll changes nothing. *)
Lemma fetchTraffic_failed (st : monitor) (now : float) :
  fetchTraffic None now st = st.
Proof. done. Qed.

(** The rates of a poll whose guard passes, key by key. *)
Lemma newRates_lookup (prev : snapshot) (t now : float)
    (newData : snapshot) (nm : string) :
  JS.truthy_number t = true ->
  JS.gt0 (now - t) = true ->
  newRates_of prev (Some t) now newData !! nm =
    match own newData !! nm, get prev nm with
    | Some n, Some p =>
        if truthy_found (Some p) then Some (rate_of ((now - t) / 1000) p n) else None
    | _, _ => None
    end.
Proof.
  intros Ht Hd. unfold newRates_of. rewrite Ht, Hd. cbn [andb].
  rewrite map_lookup_imap.
  destruct (own newData !! nm) as [n |]; cbn; [| done].
  by destruct (get prev nm).
Qed.

(** No interface gets a rate when the previous snapshot object has
    nothing under its name. *)
Lemma newRates_absent (prev : snapshot) (pt : option float)
    (now : float) (newData : snapshot) (nm : string) :
  get prev nm = None -> newRates_of prev pt now newData !! nm = None.
Proof.
  intros Hp. unfold newRates_of.
  destruct pt as [t |]; [| done].
  destruct (JS.truthy_number t && JS.gt0 (now - t)); [| done].
  rewrite map_lookup_imap.
  destruct (own newData !! nm); cbn; [by rewrite Hp | done].
Qed.

(** Without a previous poll there are no rates at all. *)
Lemma newRates_first (prev : snapshot) (now : float) (newData : snapshot) :
  newRates_of prev None now newData = ∅.
Proof. done. Qed.

(** The keys of the rates are keys of the new snapshot. *)
Lemma newRates_keys (prev : snapshot) (pt : option float) (now : float)
    (newData : snapshot) (nm : string) :
  is_Some (newRates_of prev pt now newData !! nm) -> is_Some (own newData !! nm).
Proof.
  unfold newRates_of. destruct pt as [t |]; [| by intros [? ?]].
  destruct (JS.truthy_number t && JS.gt0 (now - t)); [| by intros [? ?]].
  rewrite map_lookup_imap. destruct (own newData !! nm); [by eexists | by intros [? ?]].
Qed.

(** The rows of the monitor are the own properties of the last snapshot. *)
Lemma rows_spec (st : monitor) (nm : string) (s : sample) :
  own (traffic st) !! nm = Some s -> (nm, view_of st nm) ∈ rows st.
Proof.
  intros H. unfold rows.
  apply list_elem_of_fmap. exists (nm, s). split; [done |].
  by apply elem_of_map_to_list.
Qed.

Lemma rows_elem (st : monitor) (nm : string) (v : row_view) :
  (nm, v) ∈ rows st -> is_Some (own (traffic st) !! nm) /\ v = view_of st nm.
Proof.
  unfold rows. intros ([k s] & [= -> ->] & Hin)%list_elem_of_fmap.
  apply elem_of_map_to_list in Hin. split; [by eexists | done].
Qed.

(** When a read finds nothing. *)
Lemma get_None (o : snapshot) (nm : string) :
  get o nm = None
  <-> own o !! nm = None
      /\ nm <> "__proto__"
      /\ (nm ∉ JS.object_prototype_methods)
      /\ (is_Some (proto o) -> nm ∉ ["tx"; "rx"; "running"]).
Proof.
  unfold get, inherited_from_Object, JS.is_object_prototype_method.
  destruct (own o !! nm) as [s |]; [split; [done | by intros [? _]] |].
  destruct (String.eqb_spec nm "__proto__") as [Hp | Hp].
  { destruct (proto o); subst nm; cbn; (split; [done | by intros (_ & ? & _)]). }
  case_bool_decide as Hm.
  { destruct (proto o); repeat case_match;
      (split; [done | by intros (_ & _ & ? & _)]). }
  destruct (proto o) as [s |].
  - destruct (String.eqb_spec nm "tx") as [Ht | Ht].
    { split; [done |]. intros (_ & _ & _ & H). exfalso. apply H; [by eexists |].
      subst nm. by left. }
    destruct (String.eqb_spec nm "rx") as [Hr | Hr].
    { split; [done |]. intros (_ & _ & _ & H). exfalso. apply H; [by eexists |].
      subst nm. right. by left. }
    destruct (String.eqb_spec nm "running") as [Hg | Hg].
    { split; [done |]. intros (_ & _ & _ & H). exfalso. apply H; [by eexists |].
      subst nm. right. right. by left. }
    split; [| done]. intros _.
    split; [done |]. split; [done |]. split; [done |].
    intros _ Hin. repeat (apply elem_of_cons in Hin as [? | Hin]; [done |]).
    by apply elem_of_nil in Hin.
  - split; [| done]. intros _.
    split; [done |]. split; [done |]. split; [done |]. by intros [? ?].
Qed.

(** A read that finds an own property finds a sample. *)
Lemma get_own (o : snapshot) (nm : string) (s : sample) :
  own o !! nm = Some s -> get o nm = Some (FSample s).
Proof. intros H. unfold get. by rewrite H. Qed.

(** A read under a name the object does not hold itself finds no
    sample, unless the name is [__proto__]; the rate computed from it has
    [NaN] in both directions. *)
Lemma rate_of_inherited (dt : float) (p : found) (n : sample) :
  tx_of p = None ->
  rate_of dt p n = {| txBps := nan; rxBps := nan; r_running := s_running n |}.
Proof.
  intros Hp. unfold rate_of.
  assert (Hr : rx_of p = None) by (by destruct p).
  rewrite Hp, Hr. cbn [JS.to_number default].
  by rewrite !sub_nan, !nan_div, Math_max_0_nan.
Qed.

Lemma get_inherited_no_sample (o : snapshot) (nm : string) (p : found) :
  own o !! nm = None -> nm <> "__proto__" -> get o nm = Some p -> tx_of p = None.
Proof.
  intros Ho Hnm. unfold get, inherited_from_Object. rewrite Ho.
  apply String.eqb_neq in Hnm. rewrite Hnm.
  destruct (proto o); repeat case_match; by intros [= <-].
Qed.

(** The rate formula for a name that both responses carry: the read on
    the previous snapshot finds the sample stored by the poll before. *)
Lemma rates_of_second_poll (st0 : monitor) (l0 l1 : list iface) (t0 now : float)
    (nm : string) (p n : sample) :
  own (newData_of l0) !! nm = Some p ->
  own (newData_of l1) !! nm = Some n ->
  JS.truthy_number t0 = true ->
  JS.gt0 (now - t0) = true ->
  rates (fetchTraffic (Some l1) now (fetchTraffic (Some l0) t0 st0)) !! nm
  = Some (rate_of ((now - t0) / 1000) (FSample p) n).
Proof.
  intros Hp Hn Ht Hd. cbn [fetchTraffic rates prevRef prevTimeRef].
  rewrite newRates_lookup by done. by rewrite Hn, (get_own _ _ _ Hp).
Qed.

(** A row that shows an own rate. *)
Lemma view_of_rate (st : monitor) (nm : string) (r : rate) :
  rates st !! nm = Some r ->
  view_of st nm = ShowRate (Some (txBps r)) (Some (rxBps r)).
Proof. intros H. unfold view_of, get_rate. by rewrite H. Qed.

(** C1, where the page departs from it.  The router reports an
    interface named [__proto__] beside [ether1] in two polls one second
    apart, its [tx] counter going from 1000 to 2000.  The assignment
    [newData["__proto__"] = ...] replaces the prototype of the snapshot
    object instead of adding a property, so [Object.keys] never lists
    the interface: it gets no rate and not even a row, while [ether1]
    with the same counters reports 1000. *)
Theorem proto_interface_reports_no_rate :
  let a0 := {| name := "__proto__"; tx_byte := 1000; rx_byte := 10; running := true |} in
  let a1 := {| name := "__proto__"; tx_byte := 2000; rx_byte := 10; running := true |} in
  let e0 := {| name := "ether1"; tx_byte := 1000; rx_byte := 10; running := true |} in
  let e1 := {| name := "ether1"; tx_byte := 2000; rx_byte := 10; running := true |} in
  let st1 := fetchTraffic (Some [a0; e0]) 1700000000000 initial in
  let st2 := fetchTraffic (Some [a1; e1]) 1700000001000 st1 in
  JS.gt0 ((1700000001000 - 1700000000000) / 1000) = true
  /\ own (prevRef st1) !! "__proto__" = None
  /\ own (traffic st2) !! "__proto__" = None
  /\ proto (traffic st2) = Some (sample_of a1)
  /\ rates st2 !! "__proto__" = None
  /\ rows st2 = [("ether1", ShowRate (Some 1000) (Some 0))]
  /\ rates st2 !! "ether1" = Some {| txBps := 1000; rxBps := 0; r_running := true |}.
Proof. vm_compute. repeat split; reflexivity. Qed.

(** C9, as the page behaves.  An interface of the current snapshot
    under whose name the previous snapshot object holds nothing, neither
    a sample of its own nor an inherited member (on the first poll:
    every interface whose name is not that of a member of
    [Object.prototype]), gets no rate entry and its row shows
    "Calculando..."; on the next successful poll that holds it again it
    gets a rate, provided that poll passes the guard of the page: the
    time of the poll before it is not the zero instant and the elapsed
    time is greater than zero. *)
Theorem new_interface_calculando (st : monitor) (l : list iface) (now : float)
    (nm : string) (n : sample) :
  own (newData_of l) !! nm = Some n ->
  get (prevRef st) nm = None ->
  let st' := fetchTraffic (Some l) now st in
  rates st' !! nm = None
  /\ view_of st' nm = Calculando
  /\ (nm, Calculando) ∈ rows st'
  /\ (prevTimeRef st = None -> rates st' = ∅)
  /\ (forall (l0 : list iface) (now0 : float) (n0 : sample),
        own (newData_of l0) !! nm = Some n0 ->
        rates (fetchTraffic (Some l0) now0 initial) = ∅
        /\ view_of (fetchTraffic (Some l0) now0 initial) nm = Calculando)
  /\ (forall (l2 : list iface) (now2 : float) (n2 : sample),
        own (newData_of l2) !! nm = Some n2 ->
        JS.truthy_number now = true ->
        JS.gt0 (now2 - now) = true ->
        let st'' := fetchTraffic (Some l2) now2 st' in
        let r := rate_of ((now2 - now) / 1000) (FSample n) n2 in
        rates st'' !! nm = Some r
        /\ txBps r = JS.Math_max 0 ((tx n2 - tx n) / ((now2 - now) / 1000))
        /\ rxBps r = JS.Math_max 0 ((rx n2 - rx n) / ((now2 - now) / 1000))
        /\ view_of st'' nm = ShowRate (Some (txBps r)) (Some (rxBps r))).
Proof.
  intros Hn Hp st'.
  assert (Hr : rates st' !! nm = None) by (by apply newRates_absent).
  apply get_None in Hp as (Hown & Hproto & Hmeth & Hfields).
  assert (Hinh : inherited_from_Object None nm = None).
  { unfold inherited_from_Object, JS.is_object_prototype_method.
    apply String.eqb_neq in Hproto. rewrite Hproto. by rewrite bool_decide_eq_false_2. }
  assert (Hv : view_of st' nm = Calculando).
  { unfold view_of, get_rate. by rewrite Hr, Hinh. }
  split; [done |]. split; [done |]. split; [| split; [| split]].
  - rewrite <- Hv. by apply (rows_spec st' nm n).
  - intros Hnone. cbn. by rewrite Hnone.
  - intros l0 now0 n0 Hn0. split; [done |].
    unfold view_of, get_rate. cbn [fetchTraffic rates prevTimeRef initial newRates_of].
    by rewrite lookup_empty, Hinh.
  - intros l2 now2 n2 Hn2 Ht Hd st'' r.
    assert (Hr2 : rates st'' !! nm = Some r).
    { subst st'' st'. by apply rates_of_second_poll. }
    split; [done |]. split; [reflexivity |]. split; [reflexivity |].
    by apply view_of_rate.
Qed.

(** An instance of C9: [ether2] appears on the second poll, shows
    "Calculando..." there and a rate on the third. *)
Lemma new_interface_calculando_witness :
  let e1 := {| name := "ether1"; tx_byte := 10; rx_byte := 10; running := true |} in
  let e2 := {| name := "ether2"; tx_byte := 500; rx_byte := 40; running := true |} in
  let e2' := {| name := "ether2"; tx_byte := 3500; rx_byte := 40; running := true |} in
  let st := fetchTraffic (Some [e1]) 1700000000000 initial in
  let st' := fetchTraffic (Some [e1; e2]) 1700000003000 st in
  view_of st' "ether2" = Calculando
  /\ rates (fetchTraffic (Some [e1; e2']) 1700000006000 st') !! "ether2"
     = Some {| txBps := 1000; rxBps := 0; r_running := true |}.
Proof.
  intros e1 e2 e2' st st'.
  destruct (new_interface_calculando st [e1; e2] 1700000003000 "ether2"
              {| tx := 500; rx := 40; s_running := true |} eq_refl eq_refl)
    as (_ & Hv & _ & _ & _ & Hnext).
  split; [exact Hv |].
  destruct (Hnext [e1; e2'] 1700000006000
              {| tx := 3500; rx := 40; s_running := true |} eq_refl eq_refl eq_refl)
    as [Hr _].
  exact Hr.
Defined.

(** C9 as first stated fails: two successful polls that read the same
    millisecond both hold [ether1], yet the second reports no rate for
    it and its row still shows "Calculando...". *)
Lemma same_instant_reports_no_rate :
  let e1 := {| name := "ether1"; tx_byte := 1000; rx_byte := 10; running := true |} in
  let e1' := {| name := "ether1"; tx_byte := 2000; rx_byte := 10; running := true |} in
  let st1 := fetchTraffic (Some [e1]) 1700000000000 initial in
  let st2 := fetchTraffic (Some [e1']) 1700000000000 st1 in
  is_Some (own (prevRef st1) !! "ether1")
  /\ is_Some (own (traffic st2) !! "ether1")
  /\ rates st2 !! "ether1" = None
  /\ view_of st2 "ether1" = Calculando.
Proof. vm_compute. repeat split; eauto. Qed.

End TrafficFacts.

(** ** Pool percentages and filters *)

Section PoolFacts.

Import Pool.
Local Open Scope Z_scope.






(** The three filters, unfolded. *)
Lemma filteredIps_occupied (all : list address_slot) :
  filteredIps "occupied" all = List.filter occupied all.
Proof. reflexivity. Qed.

Lemma filteredIps_free (all : list address_slot) :
  filteredIps "free" all = List.filter (fun s => negb (occupied s)) all.
Proof. reflexivity. Qed.

Lemma filteredIps_all (all : list address_slot) : filteredIps "all" all = all.
Proof.
  unfold filteredIps. induction all as [| a l IH]; cbn; [done |].
  cbn in IH. by rewrite IH.
Qed.

Lemma filter_split_perm {A : Type} (f : A -> bool) (l : list A) :
  Permutation (List.filter f l ++ List.filter (fun a => negb (f a)) l) l.
Proof.
  induction l as [| a l IH]; cbn; [constructor |].
  destruct (f a); cbn.
  - by constructor.
  - rewrite <- Permutation_middle. by constructor.
Qed.

(** C10.  The "occupied" and the "free" filter share no entry, every
    entry of the list is kept by one of them, together they are a
    rearrangement of the list (so their lengths add up to its length),
    and the "all" filter returns the list as it is. *)
Theorem filters_partition (all : list address_slot) :
  let occ := filteredIps "occupied" all in
  let free := filteredIps "free" all in
  (forall s, s ∈ occ -> s ∈ free -> False)
  /\ (forall s, s ∈ all <-> s ∈ occ \/ s ∈ free)
  /\ Permutation (occ ++ free) all
  /\ (length occ + length free = length all)%nat
  /\ filteredIps "all" all = all.
Proof.
  intros occ free. subst occ free.
  rewrite filteredIps_occupied, filteredIps_free.
  assert (Hperm := filter_split_perm occupied all).
  split; [| split; [| split; [| split]]].
  - intros s Ho Hf.
    apply list_elem_of_In, filter_In in Ho as [_ Ho].
    apply list_elem_of_In, filter_In in Hf as [_ Hf].
    rewrite Ho in Hf. discriminate.
  - intros s. rewrite !list_elem_of_In, !filter_In.
    destruct (occupied s); cbn; intuition congruence.
  - exact Hperm.
  - rewrite <- length_app. exact (Permutation_length Hperm).
  - apply filteredIps_all.
Qed.

End PoolFacts.

(** ** Connecting to a router *)

Section ConnectFacts.

Import Connect.

(** A rejected pool request touches nothing but the loading flag. *)
Lemma ip_pool_settled_failed (st : page) :
  let st' := ip_pool_settled None st in
  creds st' = creds st /\ connecting st' = connecting st
  /\ sysInfo st' = sysInfo st /\ poolData st' = poolData st
  /\ toasts st' = toasts st /\ stored st' = stored st
  /\ loadingPool st' = false.
Proof. done. Qed.



(** C7, where the page departs from it.  In [late_pool_session] the
    live pool query of router B fails, and the view of router B shows
    the pool of router A: [handleConnect] does not clear [poolData] as
    [handleDisconnect] does, and the answer that router A gave after the
    operator had disconnected is still stored.  The block of [ether1]
    has a pool and lists an address of router A's network. *)
Theorem stale_pool_survives_failed_query :
  let e := {| ri_name := "ether1"; ri_ips := ["172.16.0.1/24"]; ri_running := true |} in
  render late_pool_session = ShowDevice infoB (Some credsB) [e] (Some poolA) false
  /\ poolData late_pool_session = Some poolA
  /\ loadingPool late_pool_session = false
  /\ block_has_pool late_pool_session e = true
  /\ Pool.ip <$> Pool.allIps (poolMap (poolData late_pool_session) !! ri_name e)
     = ["192.168.10.7"]
  /\ toasts late_pool_session
     = [Toast_success "Conectado a Nodo A"; Toast_success "Conectado a Nodo B"].
Proof. vm_compute. repeat split; reflexivity. Qed.

End ConnectFacts.

(** ** The provisioning form *)

Section CascadeFacts.

Import Cascade.

Variable B : backend.
Variable preClientId : string.

(** Effects that find their dependencies unchanged do nothing. *)
Lemma run_effects_same (old : deps) (st : modal) :
  old = deps_of st -> run_effects old st = st.
Proof.
  intros ->. unfold run_effects.
  rewrite decide_True by done. rewrite decide_True by done.
  by rewrite decide_True.
Qed.

Lemma settle_same (old : deps) (st : modal) :
  old = deps_of st -> settle old st = st.
Proof.
  intros H. unfold settle. rewrite (run_effects_same old st H).
  by apply run_effects_same.
Qed.

(** What each effect does to the form, and that none touches [cells]. *)
Lemma cell_effect_form (d : deps) (st : modal) :
  cells (cell_effect d st) = cells st
  /\ (form (cell_effect d st) = form st
      \/ form (cell_effect d st) = reset_cascade (form st)).
Proof. unfold cell_effect. case_match; cbn; auto. Qed.

Lemma zone_effect_form (d : deps) (st : modal) :
  cells (zone_effect d st) = cells st
  /\ (form (zone_effect d st) = form st
      \/ form (zone_effect d st)
         = <[ "nap_port_id" := VStr "" ]> (<[ "nap_id" := VStr "" ]> (form st))).
Proof. unfold zone_effect. case_match; cbn; auto. Qed.

Lemma zone_effect_falsy (d : deps) (st : modal) :
  truthy (dep_zone d) = false ->
  form (zone_effect d st) = form st /\ cells (zone_effect d st) = cells st.
Proof. intros H. unfold zone_effect. by rewrite H. Qed.

Lemma nap_effect_form (d : deps) (st : modal) :
  cells (nap_effect d st) = cells st
  /\ (form (nap_effect d st) = form st
      \/ form (nap_effect d st) = <[ "nap_port_id" := VStr "" ]> (form st)).
Proof. unfold nap_effect. case_match; cbn; auto. Qed.

Lemma nap_effect_falsy (d : deps) (st : modal) :
  truthy (dep_nap d) = false ->
  form (nap_effect d st) = form st /\ cells (nap_effect d st) = cells st.
Proof. intros H. unfold nap_effect. by rewrite H. Qed.

(** The three stages of [run_effects], named. *)
Lemma run_effects_stages (old : deps) (st : modal) :
  exists st1 st2,
    (st1 = st \/ st1 = cell_effect (deps_of st) st)
    /\ (st2 = st1 \/ st2 = zone_effect (deps_of st) st1)
    /\ (run_effects old st = st2 \/ run_effects old st = nap_effect (deps_of st) st2).
Proof.
  unfold run_effects.
  set (st1 := if decide (dep_cell old = dep_cell (deps_of st)
                         /\ dep_cells old = dep_cells (deps_of st))
              then st else cell_effect (deps_of st) st).
  set (st2 := if decide (dep_zone old = dep_zone (deps_of st))
              then st1 else zone_effect (deps_of st) st1).
  exists st1, st2.
  split; [| split]; [subst st1 | subst st2 |]; case_decide; auto.
Qed.

(** The effects never write the cell key nor the list of cells, and
    they change the zone or the NAP key only by clearing it. *)
Lemma run_effects_keys (old : deps) (st : modal) :
  let st' := run_effects old st in
  form st' !! "cell_id" = form st !! "cell_id"
  /\ cells st' = cells st
  /\ (form st' !! "olt_zone_id" = form st !! "olt_zone_id"
      \/ form st' !! "olt_zone_id" = Some (VStr ""))
  /\ (form st' !! "nap_id" = form st !! "nap_id"
      \/ form st' !! "nap_id" = Some (VStr "")).
Proof.
  intros st'. subst st'.
  destruct (run_effects_stages old st) as (st1 & st2 & H1 & H2 & H3).
  destruct (cell_effect_form (deps_of st) st) as [Hc1 Hf1].
  destruct (zone_effect_form (deps_of st) st1) as [Hc2 Hf2].
  destruct (nap_effect_form (deps_of st) st2) as [Hc3 Hf3].
  assert (K1 : cells st1 = cells st
               /\ form st1 !! "cell_id" = form st !! "cell_id"
               /\ (form st1 !! "olt_zone_id" = form st !! "olt_zone_id"
                   \/ form st1 !! "olt_zone_id" = Some (VStr ""))
               /\ (form st1 !! "nap_id" = form st !! "nap_id"
                   \/ form st1 !! "nap_id" = Some (VStr ""))).
  { destruct H1 as [-> | ->]; [auto |].
    split; [done |].
    destruct Hf1 as [-> | ->]; [auto |]. unfold reset_cascade.
    split; [by simplify_map_eq |]. split; right; by simplify_map_eq. }
  destruct K1 as (Kc1 & Kk1 & Kz1 & Kn1).
  assert (K2 : cells st2 = cells st
               /\ form st2 !! "cell_id" = form st !! "cell_id"
               /\ form st2 !! "olt_zone_id" = form st1 !! "olt_zone_id"
               /\ (form st2 !! "nap_id" = form st1 !! "nap_id"
                   \/ form st2 !! "nap_id" = Some (VStr ""))).
  { destruct H2 as [-> | ->]; [auto |].
    split; [congruence |].
    destruct Hf2 as [-> | ->]; [auto |].
    split; [by simplify_map_eq |]. split; [by simplify_map_eq |].
    right; by simplify_map_eq. }
  destruct K2 as (Kc2 & Kk2 & Kz2 & Kn2).
  assert (K3 : cells (run_effects old st) = cells st
               /\ form (run_effects old st) !! "cell_id" = form st !! "cell_id"
               /\ form (run_effects old st) !! "olt_zone_id" = form st2 !! "olt_zone_id"
               /\ form (run_effects old st) !! "nap_id" = form st2 !! "nap_id").
  { destruct H3 as [-> | ->]; [auto |].
    split; [congruence |].
    destruct Hf3 as [-> | ->]; [auto |].
    split; [by simplify_map_eq |]. split; by simplify_map_eq. }
  destruct K3 as (Kc3 & Kk3 & Kz3 & Kn3).
  split; [done |]. split; [done |]. split.
  - rewrite Kz3, Kz2. exact Kz1.
  - rewrite Kn3. destruct Kn2 as [-> | ->]; [exact Kn1 | by right].
Qed.

(** After the two commits of [settle] a third one finds every
    dependency as the second left it: the renders have come to rest. *)
Lemma settle_stable (old : deps) (st : modal) :
  deps_of (settle old st) = deps_of (run_effects old st).
Proof.
  unfold settle.
  destruct (run_effects_keys old st) as (Hk & Hc & Hz & Hn).
  set (st1 := run_effects old st) in *.
  assert (Hz1 : form st1 !! "olt_zone_id" = form st !! "olt_zone_id"
                \/ truthy (form st1 !! "olt_zone_id") = false).
  { destruct Hz as [Hz | Hz]; [by left | right; by rewrite Hz]. }
  assert (Hn1 : form st1 !! "nap_id" = form st !! "nap_id"
                \/ truthy (form st1 !! "nap_id") = false).
  { destruct Hn as [Hn | Hn]; [by left | right; by rewrite Hn]. }
  clear Hz Hn.
  unfold run_effects.
  destruct (decide (dep_cell (deps_of st) = dep_cell (deps_of st1)
                    /\ dep_cells (deps_of st) = dep_cells (deps_of st1)))
    as [_ | Hbad]; [| exfalso; apply Hbad; cbn; split; congruence].
  set (st2 := if decide (dep_zone (deps_of st) = dep_zone (deps_of st1))
              then st1 else zone_effect (deps_of st1) st1).
  assert (H2 : form st2 = form st1 /\ cells st2 = cells st1).
  { subst st2. case_decide as Hd; [done |]. apply zone_effect_falsy.
    destruct Hz1 as [Hz1 | Hz1]; [| done]. cbn in Hd. congruence. }
  set (st3 := if decide (dep_nap (deps_of st) = dep_nap (deps_of st1))
              then st2 else nap_effect (deps_of st1) st2).
  assert (H3 : form st3 = form st2 /\ cells st3 = cells st2).
  { subst st3. case_decide as Hd; [done |]. apply nap_effect_falsy.
    destruct Hn1 as [Hn1 | Hn1]; [| done]. cbn in Hd. congruence. }
  destruct H2 as [H2f H2c]. destruct H3 as [H3f H3c].
  unfold deps_of. by rewrite H3f, H3c, H2f, H2c.
Qed.

(** Checking a required field and submitting leave the form and the
    list of cells alone. *)
Lemma handleSubmit_keeps (st : modal) :
  form (handleSubmit st) = form st /\ cells (handleSubmit st) = cells st.
Proof. unfold handleSubmit. repeat case_match; done. Qed.

Lemma step_submit (st : modal) :
  step B preClientId Submit st = Some (handleSubmit st).
Proof.
  unfold step. cbn. f_equal. apply settle_same.
  destruct (handleSubmit_keeps st) as [Hf Hc].
  unfold deps_of. by rewrite Hf, Hc.
Qed.

(** A request in flight can be answered. *)
Lemma answer_in (r : request) (l : list request) :
  r ∈ l -> is_Some (answer r l).
Proof.
  induction l as [| r' l IH]; [by intros ?%elem_of_nil |].
  intros Hin. cbn. case_decide; [by eexists |].
  apply elem_of_cons in Hin as [-> | Hin]; [done |].
  destruct (IH Hin) as [l' ->]. by eexists.
Qed.

Lemma step_naps_arrived (st : modal) (z : string) (ok : bool) (l : list request) :
  answer (ReqNaps z) (pending st) = Some l ->
  step B preClientId (NapsArrived z ok) st
  = Some (naps_arrived B z ok (set_pending l st)).
Proof.
  intros H. unfold step, handle, answered. rewrite H. cbn. f_equal.
  apply settle_same. unfold naps_arrived. by destruct ok.
Qed.


(** The effects of a commit in which only the zone, or only the NAP,
    differs from the previous render. *)
Lemma run_effects_only_zone (old : deps) (st : modal) :
  dep_cell old = dep_cell (deps_of st) ->
  dep_cells old = dep_cells (deps_of st) ->
  dep_zone old <> dep_zone (deps_of st) ->
  dep_nap old = dep_nap (deps_of st) ->
  run_effects old st = zone_effect (deps_of st) st.
Proof.
  intros Hc Hcs Hz Hn. unfold run_effects.
  destruct (decide (dep_cell old = dep_cell (deps_of st)
                    /\ dep_cells old = dep_cells (deps_of st))) as [_ | Hbad];
    [| by destruct Hbad].
  destruct (decide (dep_zone old = dep_zone (deps_of st))); [done |].
  by destruct (decide (dep_nap old = dep_nap (deps_of st))).
Qed.



(** Selecting a zone other than the current one: the NAP and port
    choices are cleared and the NAPs of that zone are requested; the
    list of NAPs on offer is not touched until the answer arrives. *)
Lemma step_select_zone (st st1 : modal) (z : string) :
  step B preClientId (Change "olt_zone_id" (VStr z)) st = Some st1 ->
  JS.truthy_string z = true ->
  form st !! "olt_zone_id" <> Some (VStr z) ->
  form st1 = <[ "nap_port_id" := VStr "" ]>
               (<[ "nap_id" := VStr "" ]> (<[ "olt_zone_id" := VStr z ]> (form st)))
  /\ pending st1 = pending st ++ [ReqNaps z]
  /\ naps st1 = naps st
  /\ selectedCell st1 = selectedCell st
  /\ isFibra st = true.
Proof.
  intros Hstep Hz Hne. unfold step, handle in Hstep.
  destruct (can_change preClientId st "olt_zone_id" (VStr z)) eqn:Hcan; [| done].
  cbn in Hstep. injection Hstep as <-.
  assert (Hfib : isFibra st = true).
  { unfold can_change, control_of in Hcan. cbn in Hcan. by destruct (isFibra st). }
  set (st0 := update_form "olt_zone_id" (VStr z) st).
  assert (H1 : run_effects (deps_of st) st0 = zone_effect (deps_of st0) st0).
  { apply run_effects_only_zone; subst st0; cbn; by simplify_map_eq. }
  unfold settle. rewrite H1.
  assert (Hzone : zone_effect (deps_of st0) st0
                  = issue (ReqNaps z)
                      (set_form (<[ "nap_port_id" := VStr "" ]>
                                   (<[ "nap_id" := VStr "" ]> (form st0))) st0)).
  { unfold zone_effect. subst st0. cbn. simplify_map_eq. cbn. by rewrite Hz. }
  rewrite Hzone. clear H1 Hzone.
  set (st' := issue _ _).
  assert (Hform : form st' = <[ "nap_port_id" := VStr "" ]>
                    (<[ "nap_id" := VStr "" ]> (<[ "olt_zone_id" := VStr z ]> (form st))))
    by done.
  unfold run_effects.
  destruct (decide (dep_cell (deps_of st0) = dep_cell (deps_of st')
                    /\ dep_cells (deps_of st0) = dep_cells (deps_of st'))) as [_ | Hbad];
    [| exfalso; apply Hbad; unfold deps_of; rewrite Hform; subst st0; cbn;
       by simplify_map_eq].
  destruct (decide (dep_zone (deps_of st0) = dep_zone (deps_of st'))) as [_ | Hbad];
    [| exfalso; apply Hbad; unfold deps_of; rewrite Hform; subst st0; cbn;
       by simplify_map_eq].
  destruct (decide (dep_nap (deps_of st0) = dep_nap (deps_of st'))) as [_ | _].
  - done.
  - unfold nap_effect, deps_of. rewrite Hform. cbn. by simplify_map_eq.
Qed.

(** Selecting a cell other than the current one: the plan, zone, NAP,
    port, ONU and CPE choices are cleared, and so are the lists on offer
    for zones, NAPs, ports and addresses. *)
Lemma step_select_cell (st st1 : modal) (c : string) :
  step B preClientId (Change "cell_id" (VStr c)) st = Some st1 ->
  JS.truthy_string c = true ->
  form st !! "cell_id" <> Some (VStr c) ->
  form st1 = reset_cascade (<[ "cell_id" := VStr c ]> (form st))
  /\ zones st1 = [] /\ naps st1 = [] /\ ports st1 = [] /\ ipPool st1 = []
  /\ selectedCell st1 = find_cell (Some (VStr c)) (cells st).
Proof.
  intros Hstep Hc Hne. unfold step, handle in Hstep.
  destruct (can_change preClientId st "cell_id" (VStr c)) eqn:Hcan; [| done].
  cbn in Hstep. injection Hstep as <-.
  set (st0 := update_form "cell_id" (VStr c) st).
  unfold settle.
  assert (H1 : run_effects (deps_of st) st0
               = issue (ReqCellData c (find_cell (Some (VStr c)) (cells st)))
                   (set_ipPool [] (set_ports [] (set_naps [] (set_zones []
                      (set_form (reset_cascade (form st0))
                         (set_selectedCell (find_cell (Some (VStr c)) (cells st)) st0))))))).
  { unfold run_effects.
    destruct (decide (dep_cell (deps_of st) = dep_cell (deps_of st0)
                      /\ dep_cells (deps_of st) = dep_cells (deps_of st0))) as [[Hbad _] | _].
    { exfalso. apply Hne. subst st0. cbn in Hbad. by simplify_map_eq. }
    destruct (decide (dep_zone (deps_of st) = dep_zone (deps_of st0))) as [_ | Hbad];
      [| exfalso; apply Hbad; subst st0; cbn; by simplify_map_eq].
    destruct (decide (dep_nap (deps_of st) = dep_nap (deps_of st0))) as [_ | Hbad];
      [| exfalso; apply Hbad; subst st0; cbn; by simplify_map_eq].
    unfold cell_effect. subst st0. cbn. simplify_map_eq. cbn. by rewrite Hc. }
  rewrite H1. clear H1.
  set (st' := issue _ _).
  assert (Hform : form st' = reset_cascade (<[ "cell_id" := VStr c ]> (form st))) by done.
  unfold run_effects.
  destruct (decide (dep_cell (deps_of st0) = dep_cell (deps_of st')
                    /\ dep_cells (deps_of st0) = dep_cells (deps_of st'))) as [_ | Hbad];
    [| exfalso; apply Hbad; unfold deps_of; rewrite Hform; subst st0;
       unfold reset_cascade; cbn; by simplify_map_eq].
  assert (Hz : truthy (dep_zone (deps_of st')) = false).
  { unfold deps_of. rewrite Hform. unfold reset_cascade. cbn. by simplify_map_eq. }
  assert (Hn : truthy (dep_nap (deps_of st')) = false).
  { unfold deps_of. rewrite Hform. unfold reset_cascade. cbn. by simplify_map_eq. }
  unfold zone_effect, nap_effect. rewrite Hz, Hn.
  destruct (decide (dep_zone (deps_of st0) = dep_zone (deps_of st')));
    destruct (decide (dep_nap (deps_of st0) = dep_nap (deps_of st')));
    repeat split; reflexivity.
Qed.

(** A select of the cascade is shown and enabled only once the
    selection before it is made. *)
Lemma controls_follow_order (st : modal) :
  (truthy (form st !! "cell_id") = false -> control_of preClientId st "plan_id" = Absent)
  /\ (isFibra st = false -> control_of preClientId st "olt_zone_id" = Absent)
  /\ (truthy (form st !! "olt_zone_id") = false ->
      control_of preClientId st "nap_id" = Absent)
  /\ (truthy (form st !! "nap_id") = false ->
      control_of preClientId st "nap_port_id" = Absent).
Proof.
  unfold control_of. cbn.
  split_and!; intros ->; [done | done | by destruct (isFibra st) ..].
Qed.

(** The lists on offer change only by being emptied by an effect or
    replaced by an answer. *)
Lemma effects_shrink_lists (d : deps) (st : modal) :
  let shrinks (st' : modal) :=
    (ports st' = ports st \/ ports st' = [])
    /\ (naps st' = naps st \/ naps st' = []) in
  shrinks (cell_effect d st) /\ shrinks (zone_effect d st) /\ shrinks (nap_effect d st).
Proof.
  unfold cell_effect, zone_effect, nap_effect.
  split_and!; case_match; cbn; auto.
Qed.

Lemma run_effects_lists (old : deps) (st : modal) :
  (ports (run_effects old st) = ports st \/ ports (run_effects old st) = [])
  /\ (naps (run_effects old st) = naps st \/ naps (run_effects old st) = []).
Proof.
  destruct (run_effects_stages old st) as (s1 & s2 & H1 & H2 & H3).
  destruct (effects_shrink_lists (deps_of st) st) as ([P1 N1] & _ & _).
  destruct (effects_shrink_lists (deps_of st) s1) as (_ & [P2 N2] & _).
  destruct (effects_shrink_lists (deps_of st) s2) as (_ & _ & [P3 N3]).
  assert (K1 : (ports s1 = ports st \/ ports s1 = [])
               /\ (naps s1 = naps st \/ naps s1 = [])).
  { destruct H1 as [-> | ->]; auto. }
  assert (K2 : (ports s2 = ports st \/ ports s2 = [])
               /\ (naps s2 = naps st \/ naps s2 = [])).
  { destruct K1 as [K1p K1n].
    destruct H2 as [-> | ->]; [auto |]. split.
    - destruct P2 as [-> | ->]; auto.
    - destruct N2 as [-> | ->]; auto. }
  destruct K2 as [K2p K2n].
  destruct H3 as [-> | ->]; [auto |]. split.
  - destruct P3 as [-> | ->]; auto.
  - destruct N3 as [-> | ->]; auto.
Qed.

Lemma settle_lists (old : deps) (st : modal) :
  (ports (settle old st) = ports st \/ ports (settle old st) = [])
  /\ (naps (settle old st) = naps st \/ naps (settle old st) = []).
Proof.
  unfold settle.
  destruct (run_effects_lists old st) as [P1 N1].
  destruct (run_effects_lists (deps_of st) (run_effects old st)) as [P2 N2].
  split.
  - destruct P2 as [-> | ->]; auto.
  - destruct N2 as [-> | ->]; auto.
Qed.

(** Where the lists on offer of a state come from. *)
Lemma handle_lists (ev : event) (st st' : modal) :
  handle B preClientId ev st = Some st' ->
  (ports st' = ports st
   \/ exists n, ports st' = List.filter (fun p => negb (is_occupied p)) (cascade_ports B n))
  /\ (naps st' = naps st \/ exists z, naps st' = cascade_naps B z).
Proof.
  unfold handle, answered.
  destruct ev as [ok | key v | cid found o | z ok | n ok | | err]; cbn.
  - destruct (answer ReqInitial (pending st)); [| done]. cbn. intros [= <-].
    unfold initial_arrived. destruct ok; auto.
  - case_match; [| done]. intros [= <-]. auto.
  - destruct (answer (ReqCellData cid found) (pending st)); [| done]. cbn. intros [= <-].
    unfold cell_data_arrived. repeat case_match; auto.
  - destruct (answer (ReqNaps z) (pending st)); [| done]. cbn. intros [= <-].
    unfold naps_arrived. destruct ok; cbn; eauto.
  - destruct (answer (ReqPorts n) (pending st)); [| done]. cbn. intros [= <-].
    unfold ports_arrived. destruct ok; cbn; eauto.
  - intros [= <-]. unfold handleSubmit. repeat case_match; auto.
  - case_match; [| done]. intros [= <-]. unfold write_settled. repeat case_match; auto.
Qed.

(** In every state of every session, the ports on offer are free ports
    of some answer, and the NAPs on offer are NAPs of some answer. *)
Lemma run_lists (today : string) (evs : list event) (st : modal) :
  run B preClientId evs (initial preClientId today) = Some st ->
  (forall p, p ∈ ports st -> is_occupied p = false /\ exists n, p ∈ cascade_ports B n)
  /\ (forall n, n ∈ naps st -> exists z, n ∈ cascade_naps B z).
Proof.
  set (good := fun s : modal =>
    (forall p, p ∈ ports s -> is_occupied p = false /\ exists n, p ∈ cascade_ports B n)
    /\ (forall n, n ∈ naps s -> exists z, n ∈ cascade_naps B z)).
  assert (Hinit : good (initial preClientId today)).
  { split; intros x Hx; by apply elem_of_nil in Hx. }
  revert Hinit. generalize (initial preClientId today).
  induction evs as [| ev evs IH]; intros s0 Hgood Hrun; cbn in Hrun.
  - by injection Hrun as <-.
  - destruct (step B preClientId ev s0) as [s1 |] eqn:Hstep; [| done].
    apply (IH s1); [| done].
    unfold step in Hstep.
    destruct (handle B preClientId ev s0) as [s |] eqn:Hh; [| done].
    cbn in Hstep. injection Hstep as <-.
    destruct (handle_lists ev s0 s Hh) as [Hp Hn].
    destruct (settle_lists (deps_of s0) s) as [Sp Sn].
    destruct Hgood as [Gp Gn]. split.
    + intros p Hin. destruct Sp as [Sp | Sp]; rewrite Sp in Hin;
        [| by apply elem_of_nil in Hin].
      destruct Hp as [Hp | [n Hp]]; rewrite Hp in Hin; [by apply Gp |].
      apply list_elem_of_In, filter_In in Hin as [Hin Hfree].
      split; [by apply negb_true_iff |]. exists n. by apply list_elem_of_In.
    + intros n Hin. destruct Sn as [Sn | Sn]; rewrite Sn in Hin;
        [| by apply elem_of_nil in Hin].
      destruct Hn as [Hn | [z Hn]]; rewrite Hn in Hin; [by apply Gn |].
      by exists z.
Qed.



(** The NAP select right after the NAPs of the selected zone arrive,
    when the listing is the one of the specification. *)
Lemma naps_offered_after_answer (rows : list nap_row) (st st1 : modal) (z : string) :
  (forall zone_id, cascade_naps B zone_id = spec_cascade_naps rows zone_id) ->
  step B preClientId (Change "olt_zone_id" (VStr z)) st = Some st1 ->
  JS.truthy_string z = true ->
  form st !! "olt_zone_id" <> Some (VStr z) ->
  exists st2,
    step B preClientId (NapsArrived z true) st1 = Some st2
    /\ naps st2 = cascade_naps B z
    /\ control_of preClientId st2 "nap_id" = Select (option_values n_id (naps st2))
    /\ form st2 !! "nap_id" = Some (VStr "")
    /\ (forall n, n ∈ naps st2 ->
          exists r, r ∈ rows /\ n = nap_of_row r
                    /\ JS.parseInt z = Some (nr_zone r)
                    /\ free_ports n = (total_ports r - occupied_count r)%Z
                    /\ (0 < free_ports n)%Z)
    /\ (forall n, n ∈ naps st2 -> free_ports n <> 0%Z).
Proof.
  intros HB Hstep Hz Hne.
  destruct (step_select_zone st st1 z Hstep Hz Hne) as (Hf & Hp & Hnaps & Hsel & Hfib).
  destruct (answer_in (ReqNaps z) (pending st1)) as [l Hl].
  { rewrite Hp. apply elem_of_app. right. by apply list_elem_of_singleton. }
  exists (naps_arrived B z true (set_pending l st1)).
  split; [by apply step_naps_arrived |].
  split; [done |].
  split.
  { unfold control_of. cbn. unfold isFibra in *. cbn. rewrite Hsel, Hfib, Hf.
    simplify_map_eq. cbn. by rewrite Hz. }
  split; [cbn; rewrite Hf; by simplify_map_eq |].
  assert (Hall : forall n, n ∈ cascade_naps B z ->
            exists r, r ∈ rows /\ n = nap_of_row r
                      /\ JS.parseInt z = Some (nr_zone r)
                      /\ free_ports n = (total_ports r - occupied_count r)%Z
                      /\ (0 < free_ports n)%Z).
  { intros n. rewrite HB. unfold spec_cascade_naps.
    destruct (JS.parseInt z) as [zid |]; [| by intros ?%elem_of_nil].
    intros (r & -> & Hin)%list_elem_of_fmap.
    apply list_elem_of_In, filter_In in Hin as [Hin Hkeep].
    apply andb_true_iff in Hkeep as [Hzone Hfree].
    exists r. split; [by apply list_elem_of_In |]. split; [done |].
    split; [f_equal; symmetry; by apply Z.eqb_eq |].
    split; [done |]. cbn. by apply Z.ltb_lt. }
  split; [exact Hall |].
  intros n Hin. destruct (Hall n Hin) as (r & _ & _ & _ & _ & Hpos). lia.
Qed.

(** X23, against the NAP listing of the specification.  When the answer
    to the request for the NAPs of a newly selected zone is the next
    event after the selection, the NAP select then offers the
    placeholder followed by exactly the returned NAPs; each of them is a
    NAP of that zone with [free_ports = total_ports - occupied_count > 0].
    At every moment of every session, a NAP on offer is one the listing
    returned, so a NAP without a free port is never on offer.  The form
    itself applies no filter: it offers what the listing returns. *)
Theorem nap_selection_narrowing (rows : list nap_row) :
  (forall zone_id, cascade_naps B zone_id = spec_cascade_naps rows zone_id) ->
  (forall (st st1 : modal) (z : string),
     step B preClientId (Change "olt_zone_id" (VStr z)) st = Some st1 ->
     JS.truthy_string z = true ->
     form st !! "olt_zone_id" <> Some (VStr z) ->
     exists st2,
       step B preClientId (NapsArrived z true) st1 = Some st2
       /\ naps st2 = cascade_naps B z
       /\ control_of preClientId st2 "nap_id" = Select (option_values n_id (naps st2))
       /\ form st2 !! "nap_id" = Some (VStr "")
       /\ (forall n, n ∈ naps st2 ->
             exists r, r ∈ rows /\ n = nap_of_row r
                       /\ JS.parseInt z = Some (nr_zone r)
                       /\ free_ports n = (total_ports r - occupied_count r)%Z
                       /\ (0 < free_ports n)%Z)
       /\ (forall n, n ∈ naps st2 -> free_ports n <> 0%Z))
  /\ (forall (today : string) (evs : list event) (st : modal),
        run B preClientId evs (initial preClientId today) = Some st ->
        forall n, n ∈ naps st ->
          (0 < free_ports n)%Z
          /\ exists r, r ∈ rows /\ n = nap_of_row r
                        /\ free_ports n = (total_ports r - occupied_count r)%Z).
Proof.
  intros HB. split; [intros st st1 z; by apply naps_offered_after_answer |].
  intros today evs st Hrun n Hin.
  destruct (run_lists today evs st Hrun) as [_ Hn].
  destruct (Hn n Hin) as [z Hz]. rewrite HB in Hz. unfold spec_cascade_naps in Hz.
  destruct (JS.parseInt z) as [zid |]; [| by apply elem_of_nil in Hz].
  apply list_elem_of_fmap in Hz as (r & -> & Hr).
  apply list_elem_of_In, filter_In in Hr as [Hr Hkeep].
  apply andb_true_iff in Hkeep as [_ Hfree].
  split; [cbn; by apply Z.ltb_lt |].
  exists r. split; [by apply list_elem_of_In |]. done.
Qed.

(** C8.  On a fibre cell, submitting a draft that lacks any of the ten
    required fields issues no write and reports one error message;
    submitting a draft that carries them all issues the fibre write;
    hence a write is issued only for a complete draft. *)
Theorem validation_gates_commit (st : modal) :
  isFibra st = true ->
  let st' := handleSubmit st in
  step B preClientId Submit st = Some st'
  /\ ((exists k, k ∈ fiber_required /\ truthy (form st !! k) = false) ->
      sent st' = sent st
      /\ exists msg, toasts st' = toasts st ++ [Toast_error msg])
  /\ ((forall k, k ∈ fiber_required -> truthy (form st !! k) = true) ->
      sent st' = sent st ++ [PostFiber (fiber_body (form st))]
      /\ toasts st' = toasts st)
  /\ (sent st' <> sent st ->
      forall k, k ∈ fiber_required -> truthy (form st !! k) = true).
Proof.
  intros Hfib st'. split; [apply step_submit |].
  assert (Hcases :
    (Forall (fun k => truthy (form st !! k) = true) fiber_required
     /\ sent st' = sent st ++ [PostFiber (fiber_body (form st))]
     /\ toasts st' = toasts st)
    \/ (Exists (fun k => truthy (form st !! k) = false) fiber_required
        /\ sent st' = sent st
        /\ exists msg, toasts st' = toasts st ++ [Toast_error msg])).
  { subst st'. unfold handleSubmit, fiber_required. rewrite Hfib.
    destruct (truthy (form st !! "client_id")) eqn:H1; cbn [negb];
      [| right; split; [| by eauto]; repeat first [by left | right]].
    destruct (truthy (form st !! "cell_id")) eqn:H2; cbn [negb];
      [| right; split; [| by eauto]; repeat first [by left | right]].
    destruct (truthy (form st !! "plan_id")) eqn:H3; cbn [negb];
      [| right; split; [| by eauto]; repeat first [by left | right]].
    destruct (truthy (form st !! "olt_zone_id")) eqn:H4; cbn [negb orb];
      [| right; split; [| by eauto]; repeat first [by left | right]].
    destruct (truthy (form st !! "nap_id")) eqn:H5; cbn [negb orb];
      [| right; split; [| by eauto]; repeat first [by left | right]].
    destruct (truthy (form st !! "nap_port_id")) eqn:H6; cbn [negb orb];
      [| right; split; [| by eauto]; repeat first [by left | right]].
    destruct (truthy (form st !! "ip_address")) eqn:H7; cbn [negb orb];
      [| right; split; [| by eauto]; repeat first [by left | right]].
    destruct (truthy (form st !! "pppoe_username")) eqn:H8; cbn [negb orb];
      [| right; split; [| by eauto]; repeat first [by left | right]].
    destruct (truthy (form st !! "pppoe_password_encrypted")) eqn:H9; cbn [negb orb];
      [| right; split; [| by eauto]; repeat first [by left | right]].
    destruct (truthy (form st !! "onu_id")) eqn:H10; cbn [negb orb];
      [| right; split; [| by eauto]; repeat first [by left | right]].
    left. split; [| done]. repeat constructor; done. }
  destruct Hcases as [(Hall & Hs & Ht) | (Hex & Hs & Ht)].
  - rewrite Forall_forall in Hall.
    split; [| split; [done |]].
    + intros (k & Hk & Hfalse). rewrite (Hall k Hk) in Hfalse. discriminate.
    + intros _. exact Hall.
  - apply Exists_exists in Hex as (k & Hk & Hfalse).
    split; [done |]. split.
    + intros Hall. rewrite (Hall k Hk) in Hfalse. discriminate.
    + intros Hne. by destruct Hne.
Qed.

End CascadeFacts.

Section ScenarioFacts.

Import Cascade Scenario.


(** An instance of X23: zone 1 returns NAP 11, which has one free port. *)
Lemma nap_selection_narrowing_witness :
  exists st2,
    step directory "" (NapsArrived "1" true) zone1_requested = Some st2
    /\ naps st2 = [ {| n_id := 11; n_name := "N1"; free_ports := 1 |} ]
    /\ control_of "" st2 "nap_id" = Select [""; "11"].
Proof.
  destruct (proj1 (nap_selection_narrowing directory "" rows (fun _ => eq_refl))
              cell_chosen zone1_requested "1")
    as (st2 & Hstep & Hnaps & Hctl & _).
  - vm_compute. reflexivity.
  - reflexivity.
  - vm_compute. discriminate.
  - exists st2. split; [exact Hstep |]. split; [exact Hnaps |].
    rewrite Hctl, Hnaps. reflexivity.
Defined.

(** An instance of C8: the complete draft is written, the draft with no
    ONU is not. *)
Lemma validation_gates_commit_witness :
  length (sent (handleSubmit complete_draft)) = 1%nat
  /\ sent (handleSubmit draft_without_onu) = []
  /\ toasts (handleSubmit draft_without_onu) = [Toast_error "Selecciona una ONU"].
Proof.
  destruct (validation_gates_commit directory "" complete_draft) as (_ & _ & Hok & _);
    [vm_compute; reflexivity |].
  destruct (validation_gates_commit directory "" draft_without_onu) as (_ & Hbad & _ & _);
    [vm_compute; reflexivity |].
  split.
  - destruct Hok as [-> _].
    + intros k Hk. unfold fiber_required in Hk.
      repeat (apply elem_of_cons in Hk as [-> | Hk]; [vm_compute; reflexivity |]).
      by apply elem_of_nil in Hk.
    + reflexivity.
  - destruct Hbad as [Hsent [msg Hmsg]].
    + exists "onu_id". split; [| vm_compute; reflexivity].
      unfold fiber_required. repeat first [by left | right].
    + split; [rewrite Hsent; reflexivity |]. vm_compute. reflexivity.
Defined.

(** C5, where the page departs from it.  In the session
    [stale_after_failure] every selection is one the controls offer; yet
    the draft that is written names zone 2 together with NAP 11 and its
    port 111, and NAP 11 is a NAP of zone 1, not of zone 2: when the
    request for the NAPs of the newly selected zone fails, the NAPs of
    the zone selected before stay on offer. *)
Theorem stale_nap_survives_failure :
  exists st body,
    run directory "" stale_after_failure (initial "" today) = Some st
    /\ sent st = [PostFiber body]
    /\ fp_olt_zone_id body = Some 2%Z
    /\ fp_nap_id body = Some 11%Z
    /\ fp_nap_port_id body = Some 111%Z
    /\ n_id <$> cascade_naps directory "2" = [21%Z]
    /\ n_id <$> cascade_naps directory "1" = [11%Z]
    /\ toasts st = [Toast_error "Error al cargar NAPs"].
Proof.
  eexists _, _. split; [vm_compute; reflexivity |].
  repeat split; vm_compute; reflexivity.
Qed.

(** The same draft is reached with no failure at all, by selecting the
    NAP while the request for the new zone is still in flight. *)
Lemma stale_nap_survives_loading :
  exists st body,
    run directory "" stale_while_loading (initial "" today) = Some st
    /\ sent st = [PostFiber body]
    /\ fp_olt_zone_id body = Some 2%Z
    /\ fp_nap_id body = Some 11%Z
    /\ naps st = cascade_naps directory "2"
    /\ toasts st = [].
Proof.
  eexists _, _. split; [vm_compute; reflexivity |].
  repeat split; vm_compute; reflexivity.
Qed.

End ScenarioFacts.

(** *** Lists that outlive the selection they were loaded for *)

Section StaleLists.

Import Cascade Scenario.
Local Open Scope Z_scope.

(** C3, where the page departs from it.  In the session
    [nap12_while_loading] nothing fails: NAP 12 is selected, and until
    the answer for its ports arrives the port select still offers port
    111, the free port of NAP 11 selected before, and accepts it; none
    of the five free ports of NAP 12 (eight ports, three occupied) is on
    offer. *)
Theorem stale_ports_stay_on_offer :
  exists st,
    run directory12 "" nap12_while_loading (initial "" today) = Some st
    /\ form st !! "nap_id" = Some (VStr "12")
    /\ form st !! "nap_port_id" = Some (VStr "")
    /\ p_id <$> ports st = [111]
    /\ control_of "" st "nap_port_id" = Select [""; "111"]
    /\ can_change "" st "nap_port_id" (VStr "111") = true
    /\ p_id <$> List.filter (fun p => negb (is_occupied p)) (cascade_ports directory12 "12")
       = [122; 124; 125; 127; 128]
    /\ p_id <$> List.filter (fun p => negb (is_occupied p)) (cascade_ports directory12 "11")
       = [111]
    /\ pending st = [ReqPorts "12"]
    /\ toasts st = [].
Proof.
  eexists. split; [vm_compute; reflexivity |].
  repeat split; vm_compute; reflexivity.
Qed.

(** C4, where the page departs from it.  In the session
    [zone2_while_loading] nothing fails: zone 2 is selected, and until
    the answer for its NAPs arrives the NAP select still offers NAP 11,
    a NAP of zone 1 selected before, and accepts it; NAP 21, the NAP of
    zone 2, is not on offer. *)
Theorem stale_naps_stay_on_offer :
  exists st,
    run directory "" zone2_while_loading (initial "" today) = Some st
    /\ form st !! "olt_zone_id" = Some (VStr "2")
    /\ form st !! "nap_id" = Some (VStr "")
    /\ n_id <$> naps st = [11]
    /\ control_of "" st "nap_id" = Select [""; "11"]
    /\ can_change "" st "nap_id" (VStr "11") = true
    /\ n_id <$> cascade_naps directory "2" = [21]
    /\ n_id <$> cascade_naps directory "1" = [11]
    /\ (nr_zone <$> List.filter (fun r => (nr_id r =? 11)%Z) rows) = [1]
    /\ pending st = [ReqNaps "2"]
    /\ toasts st = [].
Proof.
  eexists. split; [vm_compute; reflexivity |].
  repeat split; vm_compute; reflexivity.
Qed.

End StaleLists.

(** ** The cell creation wizard *)

Section CellWizardFacts.

Import CellWizard.

(** The three selectable cell types. *)
Lemma cell_type_cases (t : string) :
  t ∈ value_of <$> cell_type_options ->
  t = "fibra" \/ t = "antenas" \/ t = "hifiber_ipoe".
Proof.
  cbn. rewrite !elem_of_cons, elem_of_nil. tauto.
Qed.

(** Every option on offer for a type obeys the rule. *)
Lemma options_compatible (t a : string) :
  a ∈ value_of <$> getAssignmentOptions t -> compatible t a.
Proof.
  unfold getAssignmentOptions, compatible.
  destruct (String.eqb t "fibra") eqn:E1.
  { apply String.eqb_eq in E1 as ->. cbn.
    rewrite !elem_of_cons, elem_of_nil. intros [-> | [-> | []]].
    all: split_and!; first [done | by auto 6]. }
  destruct (String.eqb t "antenas") eqn:E2.
  { apply String.eqb_eq in E2 as ->. cbn.
    rewrite !elem_of_cons, elem_of_nil. intros [-> | [-> | []]].
    all: split_and!; first [done | by auto 6]. }
  destruct (String.eqb t "hifiber_ipoe") eqn:E3.
  { apply String.eqb_eq in E3 as ->. cbn.
    rewrite !elem_of_cons, elem_of_nil. intros [-> | []].
    all: split_and!; first [done | by auto 6]. }
  cbn. by intros ?%elem_of_nil.
Qed.

(** The suggestion made for a selectable type is on offer for it. *)
Lemma suggestion_offered (t : string) :
  t ∈ value_of <$> cell_type_options ->
  getSuggestedAssignment t ∈ value_of <$> getAssignmentOptions t.
Proof.
  intros [-> | [-> | ->]]%cell_type_cases; cbn; rewrite !elem_of_cons; auto.
Qed.

Lemma well_typed_mount : well_typed EMPTY.
Proof.
  exists "fibra", "pppoe_distributed".
  split; [vm_compute; reflexivity |]. split; [vm_compute; reflexivity |].
  cbn. rewrite !elem_of_cons. auto.
Qed.

(** Opening the modal puts the initial type and assignment back. *)
Lemma open_effect_keys (h : option string) :
  open_effect h !! "cell_type" = Some (VStr "fibra")
  /\ open_effect h !! "assignment" = Some (VStr "pppoe_distributed").
Proof.
  unfold open_effect.
  destruct h as [h |]; [destruct (JS.truthy_string h) |];
    split; vm_compute; reflexivity.
Qed.

(** An update that leaves both keys alone keeps the invariant and
    schedules no effect. *)
Lemma well_typed_frame (f f' : gmap string value) :
  well_typed f ->
  f' !! "cell_type" = f !! "cell_type" ->
  f' !! "assignment" = f !! "assignment" ->
  well_typed (if decide (f' !! "cell_type" = f !! "cell_type") then f' else type_effect f').
Proof.
  intros (t & a & Ht & Ha & Hin & Hopt) Hc Hasg.
  rewrite decide_True by done.
  exists t, a. unfold payload_type, payload_assignment in *. by rewrite Hc, Hasg.
Qed.

(** A change event, unfolded. *)
Lemma step_change (f : gmap string value) (name : string) (v : value) :
  step (Change name v) f
  = if offers f name v
    then Some (if decide (handleChange name v f !! "cell_type" = f !! "cell_type")
               then handleChange name v f
               else type_effect (handleChange name v f))
    else None.
Proof. unfold step. by destruct (offers f name v). Qed.

Lemma step_well_typed (ev : event) (f f' : gmap string value) :
  well_typed f -> step ev f = Some f' -> well_typed f'.
Proof.
  intros Hwt Hstep. unfold step in Hstep.
  destruct ev as [h | name v | i p]; cbn in Hstep.
  - (* the modal opens *)
    injection Hstep as <-.
    destruct (open_effect_keys h) as [Ht Ha].
    generalize dependent (open_effect h). intros g Ht Ha.
    exists "fibra", "pppoe_distributed".
    unfold payload_type, payload_assignment.
    assert (Hin : "pppoe_distributed" ∈ value_of <$> getAssignmentOptions "fibra")
      by (cbn; rewrite !elem_of_cons; auto).
    assert (Hty : "fibra" ∈ value_of <$> cell_type_options)
      by (cbn; rewrite !elem_of_cons; auto).
    case_decide; [done |].
    unfold type_effect. rewrite Ht. cbn.
    rewrite lookup_insert_ne by done. rewrite lookup_insert_eq. done.
  - (* a control changes *)
    destruct (offers f name v) eqn:Hoff; [| done].
    cbn in Hstep. injection Hstep as <-.
    destruct (decide (name = "cell_type")) as [-> | E1].
    { destruct Hwt as (t & a & Ht & Ha & Hin & Hopt).
      unfold payload_type, payload_assignment in *.
      destruct v as [s | b]; [| done].
      apply bool_decide_eq_true in Hoff.
      change (handleChange "cell_type" (VStr s) f) with (<[ "cell_type" := VStr s ]> f).
      rewrite lookup_insert_eq.
      case_decide as Hsame.
      - exists t, a. unfold payload_type, payload_assignment.
        rewrite lookup_insert_eq, lookup_insert_ne by done.
        rewrite Hsame. done.
      - exists s, (getSuggestedAssignment s).
        unfold type_effect, payload_type, payload_assignment.
        rewrite lookup_insert_eq. cbn [to_string].
        rewrite lookup_insert_eq, lookup_insert_ne by done.
        rewrite lookup_insert_eq.
        split; [done |]. split; [done |]. split; [done |].
        by apply suggestion_offered. }
    destruct (decide (name = "assignment")) as [-> | E2].
    { destruct Hwt as (t & a & Ht & Ha & Hin & Hopt).
      unfold payload_type, payload_assignment in *.
      destruct v as [s | b]; [| done].
      cbn in Hoff. apply bool_decide_eq_true in Hoff.
      rewrite Ht in Hoff. cbn [to_string] in Hoff.
      change (handleChange "assignment" (VStr s) f) with (<[ "assignment" := VStr s ]> f).
      rewrite lookup_insert_ne by done.
      rewrite decide_True by done.
      exists t, s. unfold payload_type, payload_assignment.
      by rewrite lookup_insert_eq, lookup_insert_ne. }
    clear Hoff.
    apply well_typed_frame; [done | |]; unfold handleChange; case_match;
      rewrite ?lookup_insert_ne by done; done.
  - (* an interface is picked *)
    injection Hstep as <-.
    apply well_typed_frame; [done | |];
      unfold handleInterfaceChange; case_match;
      rewrite ?lookup_insert_ne by done; done.
Qed.

Lemma reachable_well_typed (f : gmap string value) : reachable f -> well_typed f.
Proof.
  induction 1 as [| f ev f' _ IH Hstep]; [apply well_typed_mount |].
  by apply (step_well_typed ev f f').
Qed.

(** C6.  For every cell type the assignment options on offer obey the
    rule: PPPoE is offered only for the fibre PPPoE type, static
    addressing only for the wireless type, and DHCP is offered for the
    IPoE and the wireless types.  Whenever the type select changes the
    type, the assignment becomes the suggestion for the new type, which
    is on offer for it.  Hence in every form the wizard can reach, the
    type and the assignment that go into the creation payload obey the
    rule. *)
Theorem assignment_compatible_with_type :
  (forall t a, a ∈ value_of <$> getAssignmentOptions t -> compatible t a)
  /\ "dhcp_pool" ∈ value_of <$> getAssignmentOptions "hifiber_ipoe"
  /\ "dhcp_pool" ∈ value_of <$> getAssignmentOptions "antenas"
  /\ (forall f t f',
        step (Change "cell_type" (VStr t)) f = Some f' ->
        payload_type f <> Some (VStr t) ->
        payload_type f' = Some (VStr t)
        /\ payload_assignment f' = Some (VStr (getSuggestedAssignment t))
        /\ getSuggestedAssignment t ∈ value_of <$> getAssignmentOptions t
        /\ compatible t (getSuggestedAssignment t))
  /\ (forall f, reachable f ->
        exists t a,
          payload_type f = Some (VStr t) /\ payload_assignment f = Some (VStr a)
          /\ a ∈ value_of <$> getAssignmentOptions t
          /\ compatible t a).
Proof.
  split; [exact options_compatible |].
  split; [cbn; rewrite !elem_of_cons; auto |].
  split; [cbn; rewrite !elem_of_cons; auto |].
  split.
  - intros f t f' Hstep Hne. rewrite step_change in Hstep.
    destruct (offers f "cell_type" (VStr t)) eqn:Hoff; [| done].
    cbn in Hoff. apply bool_decide_eq_true in Hoff.
    injection Hstep as <-.
    unfold payload_type, payload_assignment in *.
    change (handleChange "cell_type" (VStr t) f) with (<[ "cell_type" := VStr t ]> f).
    rewrite lookup_insert_eq.
    rewrite decide_False by congruence.
    unfold type_effect. rewrite lookup_insert_eq. cbn [to_string].
    rewrite lookup_insert_eq, lookup_insert_ne by done. rewrite lookup_insert_eq.
    split; [done |]. split; [done |].
    split; [by apply suggestion_offered |].
    by apply options_compatible, suggestion_offered.
  - intros f Hr. destruct (reachable_well_typed f Hr) as (t & a & Ht & Ha & _ & Hopt).
    exists t, a. split; [done |]. split; [done |]. split; [done |].
    by apply options_compatible.
Qed.

(** The rule as worded does not keep DHCP from the fibre PPPoE type, and
    the wizard offers it there too. *)
Lemma fibra_offers_dhcp :
  value_of <$> getAssignmentOptions "fibra" = ["pppoe_distributed"; "dhcp_pool"].
Proof. reflexivity. Qed.

End CellWizardFacts.

(** ** Strings and numbers *)

Section StringFacts.

Local Open Scope Z_scope.

(** A character below U+0080 that is no white space starts no white
    space. *)
Lemma skip_spaces_ascii (c : ascii) (s : string) :
  JS.is_space c = false -> (nat_of_ascii c <? 194)%nat = true ->
  JS.skip_spaces (String c s) = String c s.
Proof.
  intros Hc Hlt. apply Nat.ltb_lt in Hlt. cbn [JS.skip_spaces]. rewrite Hc.
  destruct s as [| c2 s2]; [done |].
  assert (H2 : JS.is_space2 c c2 = false).
  { unfold JS.is_space2. destruct (Nat.eqb_spec (nat_of_ascii c) 194); [lia | done]. }
  rewrite H2. destruct s2 as [| c3 s3]; [done |].
  assert (H3 : JS.is_space3 c c2 c3 = false).
  { unfold JS.is_space3.
    destruct (Nat.eqb_spec (nat_of_ascii c) 225); [lia |].
    destruct (Nat.eqb_spec (nat_of_ascii c) 226); [lia |].
    destruct (Nat.eqb_spec (nat_of_ascii c) 227); [lia |].
    destruct (Nat.eqb_spec (nat_of_ascii c) 239); [lia |]. done. }
  by rewrite H3.
Qed.

(** The ten digit characters, as the printer of integers writes them. *)
Lemma digit_value_char (y : N) :
  (y < 10)%N -> JS.digit_value 10 (pretty_N_char y) = Some (Z.of_N y).
Proof.
  intros Hy.
  assert (y = 0 \/ y = 1 \/ y = 2 \/ y = 3 \/ y = 4 \/ y = 5 \/ y = 6
          \/ y = 7 \/ y = 8 \/ y = 9)%N as H by lia.
  repeat (destruct H as [-> | H]; [reflexivity |]). by subst.
Qed.

Lemma read_digits_go (x : N) (s : string) :
  (0 < x)%N ->
  JS.read_digits 10 (pretty_N_go x s) None = JS.read_digits 10 s (Some (Z.of_N x)).
Proof.
  revert s. induction (N.lt_wf_0 x) as [x _ IH]; intros s Hx.
  rewrite pretty_N_go_step by done.
  assert (Hd : JS.digit_value 10 (pretty_N_char (x `mod` 10)) = Some (Z.of_N (x `mod` 10))).
  { apply digit_value_char. by apply N.mod_lt. }
  destruct (decide (x < 10)%N) as [Hlt | Hge].
  - rewrite N.div_small by done. rewrite pretty_N_go_0. cbn [JS.read_digits].
    rewrite Hd. cbn [default]. rewrite N.mod_small by done. f_equal.
  - rewrite IH; [| apply N.div_lt; lia | apply N.div_str_pos; lia].
    cbn [JS.read_digits]. rewrite Hd. cbn [default]. do 2 f_equal.
    unfold id. rewrite N2Z.inj_div, N2Z.inj_mod. change (Z.of_N 10) with 10.
    pose proof (Z.div_mod (Z.of_N x) 10). lia.
Qed.

Lemma pretty_go_digit_led (x : N) (s : string) :
  (0 < x)%N -> s = EmptyString \/ JS.digit_led s ->
  exists (y : N) (t : string),
    (y < 10)%N /\ pretty_N_go x s = String (pretty_N_char y) t
    /\ (t = EmptyString \/ JS.digit_led t).
Proof.
  revert s. induction (N.lt_wf_0 x) as [x _ IH]; intros s Hx Hs.
  rewrite pretty_N_go_step by done.
  destruct (decide (x < 10)%N) as [Hlt | Hge].
  - rewrite N.div_small by done. rewrite pretty_N_go_0.
    exists (x `mod` 10)%N, s. split; [by apply N.mod_lt |]. done.
  - apply IH; [apply N.div_lt; lia | apply N.div_str_pos; lia |].
    right. exists (x `mod` 10)%N, s. split; [by apply N.mod_lt | done].
Qed.

Lemma parseInt_digit_led (y : N) (t : string) :
  (y < 10)%N -> t = EmptyString \/ JS.digit_led t ->
  JS.parseInt (String (pretty_N_char y) t)
  = JS.read_digits 10 (String (pretty_N_char y) t) None
  /\ JS.parse_magnitude (String (pretty_N_char y) t)
     = JS.read_digits 10 (String (pretty_N_char y) t) None.
Proof.
  intros Hy Ht.
  assert (Hhex : JS.strip_hex_prefix (String (pretty_N_char y) t) = None).
  { destruct Ht as [-> | (y' & t' & Hy' & ->)].
    - assert (y = 0 \/ y = 1 \/ y = 2 \/ y = 3 \/ y = 4 \/ y = 5 \/ y = 6
              \/ y = 7 \/ y = 8 \/ y = 9)%N as H by lia.
      repeat (destruct H as [-> | H]; [reflexivity |]). by subst.
    - assert (y' = 0 \/ y' = 1 \/ y' = 2 \/ y' = 3 \/ y' = 4 \/ y' = 5 \/ y' = 6
              \/ y' = 7 \/ y' = 8 \/ y' = 9)%N as H' by lia.
      assert (y = 0 \/ y = 1 \/ y = 2 \/ y = 3 \/ y = 4 \/ y = 5 \/ y = 6
              \/ y = 7 \/ y = 8 \/ y = 9)%N as H by lia.
      repeat (destruct H as [-> | H]);
        try subst y; repeat (destruct H' as [-> | H']); try subst y'; reflexivity. }
  assert (Hmag : JS.parse_magnitude (String (pretty_N_char y) t)
                 = JS.read_digits 10 (String (pretty_N_char y) t) None).
  { unfold JS.parse_magnitude. by rewrite Hhex. }
  split; [| done]. rewrite <- Hmag.
  assert (y = 0 \/ y = 1 \/ y = 2 \/ y = 3 \/ y = 4 \/ y = 5 \/ y = 6
          \/ y = 7 \/ y = 8 \/ y = 9)%N as H by lia.
  unfold JS.parseInt.
  repeat (destruct H as [-> | H];
          [rewrite skip_spaces_ascii by reflexivity; reflexivity |]).
  subst. rewrite skip_spaces_ascii by reflexivity. reflexivity.
Qed.

Lemma parseInt_pretty_N (x : N) :
  (0 < x)%N ->
  JS.parseInt (pretty_N_go x "") = Some (Z.of_N x)
  /\ JS.parse_magnitude (pretty_N_go x "") = Some (Z.of_N x).
Proof.
  intros Hx.
  destruct (pretty_go_digit_led x "" Hx (or_introl eq_refl)) as (y & t & Hy & Heq & Ht).
  pose proof (read_digits_go x "" Hx) as Hr. cbn [JS.read_digits] in Hr.
  rewrite Heq in *.
  destruct (parseInt_digit_led y t Hy Ht) as [-> ->]. done.
Qed.

(** [parseInt(String(z)) = z]: the text of an integer parses back to it. *)
Lemma parseInt_pretty (z : Z) : JS.parseInt (pretty z) = Some z.
Proof.
  destruct z as [| p | p].
  - reflexivity.
  - change (pretty (Z.pos p)) with (pretty (N.pos p)).
    unfold pretty, pretty_N. destruct (decide (N.pos p = 0%N)) as [? | _]; [done |].
    by destruct (parseInt_pretty_N (N.pos p)) as [-> _].
  - change (pretty (Z.neg p)) with ("-" +:+ pretty (N.pos p)).
    unfold pretty, pretty_N. destruct (decide (N.pos p = 0%N)) as [? | _]; [done |].
    change ("-" +:+ pretty_N_go (N.pos p) "") with (String "-" (pretty_N_go (N.pos p) "")).
    unfold JS.parseInt. rewrite skip_spaces_ascii by reflexivity.
    destruct (parseInt_pretty_N (N.pos p)) as [_ ->]; done.
Qed.

Lemma pretty_Z_truthy (z : Z) : JS.truthy_string (pretty z) = true.
Proof.
  pose proof (parseInt_pretty z) as H.
  destruct (pretty z); [discriminate H | done].
Qed.

End StringFacts.

Section TrimFacts.

Lemma trim_end_empty (s : string) :
  JS.trim_end s = EmptyString <-> JS.all_spaces s = true.
Proof.
  destruct s as [| c s]; [done |]. cbn [JS.trim_end].
  destruct (JS.all_spaces (String c s)); [done |]. split; discriminate.
Qed.

(** Skipping the white space at the start leaves white space only when
    the whole string is white space. *)
Lemma all_spaces_skip (s : string) :
  JS.all_spaces (JS.skip_spaces s) = JS.all_spaces s.
Proof.
  remember (String.length s) as n eqn:Hn. revert s Hn.
  induction n as [n IH] using lt_wf_ind. intros s Hn.
  destruct s as [| c1 s1]; [done |]. cbn [JS.skip_spaces JS.all_spaces].
  cbn [String.length] in Hn.
  destruct (JS.is_space c1) eqn:H1.
  { apply (IH (String.length s1)); [lia | done]. }
  destruct s1 as [| c2 s2].
  { cbn [JS.all_spaces]. by rewrite H1. }
  cbn [String.length] in Hn.
  destruct (JS.is_space2 c1 c2) eqn:H2.
  { apply (IH (String.length s2)); [lia | done]. }
  destruct s2 as [| c3 s3].
  { cbn [JS.all_spaces]. by rewrite H1, H2. }
  cbn [String.length] in Hn.
  destruct (JS.is_space3 c1 c2 c3) eqn:H3.
  { cbn [andb]. apply (IH (String.length s3)); [lia | done]. }
  cbn [JS.all_spaces]. by rewrite H1, H2, H3.
Qed.

(** [!s.trim()] holds exactly of the strings made of white space. *)
Lemma blank_spec (s : string) : JS.blank s = JS.all_spaces s.
Proof.
  unfold JS.blank, JS.trim. rewrite <- (all_spaces_skip s).
  pose proof (trim_end_empty (JS.skip_spaces s)) as H.
  destruct (JS.trim_end (JS.skip_spaces s)) as [| c t] eqn:Ht.
  - cbn [negb JS.truthy_string]. symmetry. by apply H.
  - cbn [negb JS.truthy_string].
    destruct (JS.all_spaces (JS.skip_spaces s)) eqn:E; [| done].
    discriminate (proj2 H eq_refl).
Qed.

(** The white space of one byte is white space; U+00A0 (no-break
    space) and U+3000 (ideographic space) are white space too, and a
    letter with a diacritic is not. *)
Lemma white_space_examples :
  JS.blank (String (ascii_of_nat 9) (String (ascii_of_nat 32) EmptyString)) = true
  /\ JS.blank (String (ascii_of_nat 194) (String (ascii_of_nat 160) EmptyString)) = true
  /\ JS.blank (String (ascii_of_nat 227) (String (ascii_of_nat 128)
                  (String (ascii_of_nat 128) EmptyString))) = true
  /\ JS.blank (String (ascii_of_nat 195) (String (ascii_of_nat 169) EmptyString)) = false
  /\ JS.trim (String (ascii_of_nat 194) (String (ascii_of_nat 160) " 10.0.0.1  "))
     = "10.0.0.1"%string.
Proof. repeat split; reflexivity. Qed.

End TrimFacts.

(** ** Objects filled by [forEach] *)

Section FoldFacts.

(** An object filled by [l.forEach(a => { obj[key(a)] = val(a) })] holds,
    under a name, the value of the last element of [l] with that name. *)
Lemma fold_insert_last {A V : Type} (key : A -> string) (val : A -> V)
    (l : list A) (acc : gmap string V) (nm : string) :
  fold_left (fun acc a => <[ key a := val a ]> acc) l acc !! nm
  = match last (List.filter (fun a => String.eqb (key a) nm) l) with
    | Some a => Some (val a)
    | None => acc !! nm
    end.
Proof.
  revert acc. induction l as [| a l IH]; intros acc; [done |].
  cbn [fold_left List.filter]. rewrite IH.
  destruct (String.eqb_spec (key a) nm) as [Heq | Hne].
  - rewrite last_cons. destruct (last _); [done |].
    by rewrite Heq, lookup_insert_eq.
  - destruct (last _); [done |]. by rewrite lookup_insert_ne.
Qed.

End FoldFacts.

(** ** The traffic monitor, continued *)

Section TrafficCoverage.

Import Traffic.
Local Open Scope float_scope.

(** X1.  The snapshot object keeps, as own property under each interface
    name, the counters of the last element of the response that carries
    the name; a name no element carries has none.  The name [__proto__]
    is the exception: nothing is stored under it, and the last element
    that carries it becomes the prototype of the snapshot object. *)
Theorem snapshot_last_entry_wins (l : list iface) (nm : string) :
  own (newData_of l) !! nm
  = (if String.eqb nm "__proto__" then None
     else sample_of <$> last (List.filter (fun i => String.eqb (name i) nm) l))
  /\ proto (newData_of l)
     = sample_of <$> last (List.filter (fun i => String.eqb (name i) "__proto__") l)
  /\ (is_Some (own (newData_of l) !! nm)
      <-> nm <> "__proto__" /\ exists i, i ∈ l /\ name i = nm).
Proof.
  split; [apply own_newData_of |]. split; [apply proto_newData_of |].
  apply newData_of_present.
Qed.

(** X2.  Where a rate on display comes from: the interface is an own
    property of the new snapshot, the previous poll left a non-zero time
    stamp that lies in the past, and the read on the previous snapshot
    object found something truthy under its name.  When that object
    holds a sample of its own under the name, the rate is the formula
    over the two samples; otherwise the read found an inherited member
    and the rate is [NaN] in both directions. *)
Theorem shown_rate_origin (st : monitor) (l : list iface)
    (now : float) (nm : string) (r : rate) :
  rates (fetchTraffic (Some l) now st) !! nm = Some r ->
  exists (t0 : float) (n : sample) (p : found),
    prevTimeRef st = Some t0
    /\ JS.truthy_number t0 = true
    /\ JS.gt0 (now - t0) = true
    /\ nm <> "__proto__"
    /\ own (traffic (fetchTraffic (Some l) now st)) !! nm = Some n
    /\ get (prevRef st) nm = Some p
    /\ truthy_found (Some p) = true
    /\ r = rate_of ((now - t0) / 1000) p n
    /\ r_running r = s_running n
    /\ (forall s, own (prevRef st) !! nm = Some s ->
          txBps r = JS.Math_max 0 ((tx n - tx s) / ((now - t0) / 1000))
          /\ rxBps r = JS.Math_max 0 ((rx n - rx s) / ((now - t0) / 1000)))
    /\ (own (prevRef st) !! nm = None -> txBps r = nan /\ rxBps r = nan)
    /\ (nm, ShowRate (Some (txBps r)) (Some (rxBps r)))
       ∈ rows (fetchTraffic (Some l) now st).
Proof.
  intros Hr.
  assert (Hrow : forall n, own (traffic (fetchTraffic (Some l) now st)) !! nm = Some n ->
                 (nm, ShowRate (Some (txBps r)) (Some (rxBps r)))
                 ∈ rows (fetchTraffic (Some l) now st)).
  { intros n Hn. rewrite <- (view_of_rate _ _ _ Hr). by apply (rows_spec _ _ n). }
  assert (Hr' := Hr). cbn [fetchTraffic rates] in Hr'. unfold newRates_of in Hr'.
  destruct (prevTimeRef st) as [t0 |] eqn:Hpt; [| by rewrite lookup_empty in Hr'].
  destruct (JS.truthy_number t0) eqn:Ht, (JS.gt0 (now - t0)) eqn:Hg;
    cbn [andb] in Hr'; try by rewrite lookup_empty in Hr'.
  rewrite map_lookup_imap in Hr'.
  destruct (own (newData_of l) !! nm) as [n |] eqn:Hn; [| done].
  cbn [mbind option_bind] in Hr'.
  destruct (get (prevRef st) nm) as [p |] eqn:Hp; [| done].
  destruct (truthy_found (Some p)) eqn:Htp; [| done].
  injection Hr' as <-. exists t0, n, p.
  assert (Hnm : nm <> "__proto__").
  { assert (Hs : is_Some (own (newData_of l) !! nm)) by (by eexists).
    by apply newData_of_present in Hs as [? _]. }
  assert (Hn' : own (traffic (fetchTraffic (Some l) now st)) !! nm = Some n) by exact Hn.
  split; [done |]. split; [done |]. split; [done |]. split; [done |].
  split; [done |]. split; [done |]. split; [done |]. split; [done |].
  split; [done |]. split; [| split].
  - intros s Hs. rewrite (get_own _ _ _ Hs) in Hp. injection Hp as <-. done.
  - intros Hs. rewrite (rate_of_inherited _ p n); [done |].
    by apply (get_inherited_no_sample (prevRef st) nm).
  - by apply (Hrow n).
Qed.

Lemma shown_rate_origin_witness :
  exists (t0 : float) (n : sample),
    prevTimeRef
      (fetchTraffic
         (Some [ {| name := "ether1"; tx_byte := 1000; rx_byte := 90; running := true |} ])
         1700000000000 initial) = Some t0
    /\ JS.truthy_number t0 = true
    /\ JS.gt0 (1700000001000 - t0) = true
    /\ n = {| tx := 2000; rx := 70; s_running := false |}.
Proof.
  destruct (shown_rate_origin
              (fetchTraffic
                 (Some [ {| name := "ether1"; tx_byte := 1000; rx_byte := 90;
                            running := true |} ])
                 1700000000000 initial)
              [ {| name := "ether1"; tx_byte := 2000; rx_byte := 70; running := false |} ]
              1700000001000 "ether1"
              {| txBps := 1000; rxBps := 0; r_running := false |})
    as (t0 & n & p & H1 & H2 & H3 & _ & H5 & _).
  - vm_compute. reflexivity.
  - exists t0, n. split; [exact H1 |]. split; [exact H2 |]. split; [exact H3 |].
    vm_compute in H5. congruence.
Defined.

(** X20.  The rate formula, for every interface the snapshot objects can
    hold.  For every interface name other
    than [__proto__] that the previous and the current response both
    carry, when the elapsed time [dt = (now - t0) / 1000] seconds is
    greater than zero ([t0] being the time of the previous poll, any
    [Date.now()] other than the zero instant), the reported rates are
    [max(0, (curr_tx - prev_tx) / dt)] and [max(0, (curr_rx - prev_rx) / dt)]
    over the last element of that name in each response, each from its
    own counters; neither is ever below zero; the row shows them; and
    one second after a sample [tx = 1000], a sample [tx = 2000] reports
    [txBps = 1000] while a sample [tx = 500] (a counter reset) reports
    [txBps = 0]. *)
Theorem traffic_rate_formula (st0 : monitor) (l0 l1 : list iface) (t0 now : float)
    (nm : string) (i0 i1 : iface) :
  nm <> "__proto__" ->
  last (List.filter (fun i => String.eqb (name i) nm) l0) = Some i0 ->
  last (List.filter (fun i => String.eqb (name i) nm) l1) = Some i1 ->
  JS.truthy_number t0 = true ->
  JS.gt0 ((now - t0) / 1000) = true ->
  let st2 := fetchTraffic (Some l1) now (fetchTraffic (Some l0) t0 st0) in
  let dt := (now - t0) / 1000 in
  exists r : rate,
    rates st2 !! nm = Some r
    /\ txBps r = JS.Math_max 0 ((tx_byte i1 - tx_byte i0) / dt)
    /\ rxBps r = JS.Math_max 0 ((rx_byte i1 - rx_byte i0) / dt)
    /\ (txBps r <? 0) = false
    /\ (rxBps r <? 0) = false
    /\ (nm, ShowRate (Some (txBps r)) (Some (rxBps r))) ∈ rows st2
    /\ (now - t0 = 1000 -> tx_byte i0 = 1000 -> tx_byte i1 = 2000 -> txBps r = 1000)
    /\ (now - t0 = 1000 -> tx_byte i0 = 1000 -> tx_byte i1 = 500 -> txBps r = 0).
Proof.
  intros Hnm H0 H1 Ht Hdt st2 dt.
  apply String.eqb_neq in Hnm.
  assert (Hp : own (newData_of l0) !! nm = Some (sample_of i0)).
  { by rewrite own_newData_of, Hnm, H0. }
  assert (Hn : own (newData_of l1) !! nm = Some (sample_of i1)).
  { by rewrite own_newData_of, Hnm, H1. }
  assert (Hr : rates st2 !! nm = Some (rate_of dt (FSample (sample_of i0)) (sample_of i1))).
  { apply rates_of_second_poll; [done | done | done | by apply gt0_div_1000]. }
  assert (Hrow : (nm, view_of st2 nm) ∈ rows st2)
    by (by apply (rows_spec st2 nm (sample_of i1))).
  rewrite (view_of_rate st2 nm _ Hr) in Hrow.
  exists (rate_of dt (FSample (sample_of i0)) (sample_of i1)).
  split; [exact Hr |].
  split; [reflexivity |]. split; [reflexivity |].
  split; [apply Math_max_0_not_negative |].
  split; [apply Math_max_0_not_negative |].
  split; [exact Hrow |].
  cbn [rate_of txBps rxBps tx_of rx_of JS.to_number default sample_of tx rx].
  split.
  - intros He -> ->. subst dt. rewrite He. reflexivity.
  - intros He -> ->. subst dt. rewrite He. reflexivity.
Qed.

(** An instance of X20: [ether1] polled at [1700000000000] ms with
    [tx = 1000] and one second later with [tx = 2000]. *)
Lemma traffic_rate_formula_witness :
  exists r : rate,
    rates (fetchTraffic
             (Some [ {| name := "ether1"; tx_byte := 2000; rx_byte := 70; running := true |} ])
             1700000001000
             (fetchTraffic
                (Some [ {| name := "ether1"; tx_byte := 1000; rx_byte := 90; running := true |} ])
                1700000000000 initial)) !! "ether1" = Some r
    /\ txBps r = 1000 /\ rxBps r = 0.
Proof.
  destruct (traffic_rate_formula initial
              [ {| name := "ether1"; tx_byte := 1000; rx_byte := 90; running := true |} ]
              [ {| name := "ether1"; tx_byte := 2000; rx_byte := 70; running := true |} ]
              1700000000000 1700000001000 "ether1"
              {| name := "ether1"; tx_byte := 1000; rx_byte := 90; running := true |}
              {| name := "ether1"; tx_byte := 2000; rx_byte := 70; running := true |})
    as (r & Hr & Htx & Hrx & _).
  - discriminate.
  - reflexivity.
  - reflexivity.
  - reflexivity.
  - reflexivity.
  - exists r. split; [exact Hr |]. split; [rewrite Htx | rewrite Hrx]; reflexivity.
Defined.

(** X21.  An interface named like a method that every plain object
    inherits ([toString], [constructor], ...) has a row that never shows
    "Calculando...": the read [rates[name]] finds the inherited method
    when the interface has no rate of its own, and the row then shows
    rates taken from fields that method does not have; when the previous
    snapshot object holds no sample of that name and the guard of the
    page passes, the read [prevRef.current[name]] finds the method too
    and the rate stored is [NaN] in both directions. *)
Theorem inherited_name_skips_calculando (st : monitor) (l : list iface)
    (now : float) (nm : string) (n : sample) :
  nm ∈ JS.object_prototype_methods ->
  own (newData_of l) !! nm = Some n ->
  let st' := fetchTraffic (Some l) now st in
  (nm, view_of st' nm) ∈ rows st'
  /\ view_of st' nm <> Calculando
  /\ (rates st' !! nm = None -> view_of st' nm = ShowRate None None)
  /\ (own (prevRef st) !! nm = None ->
      forall t0, prevTimeRef st = Some t0 ->
        JS.truthy_number t0 = true -> JS.gt0 (now - t0) = true ->
        rates st' !! nm = Some {| txBps := nan; rxBps := nan; r_running := s_running n |}
        /\ view_of st' nm = ShowRate (Some nan) (Some nan)).
Proof.
  intros Hm Hn st'.
  assert (Hnm : nm <> "__proto__").
  { intros ->. unfold JS.object_prototype_methods in Hm.
    repeat (apply elem_of_cons in Hm as [Hm | Hm]; [discriminate |]).
    by apply elem_of_nil in Hm. }
  assert (Hinh : forall p, inherited_from_Object p nm = Some FFunction).
  { intros p. unfold inherited_from_Object, JS.is_object_prototype_method.
    apply String.eqb_neq in Hnm. rewrite Hnm. by rewrite bool_decide_eq_true_2. }
  split; [by apply (rows_spec st' nm n) |].
  split; [| split].
  - unfold view_of, get_rate. destruct (rates st' !! nm); [done |].
    by rewrite Hinh.
  - intros Hr. unfold view_of, get_rate. by rewrite Hr, Hinh.
  - intros Hown t0 Hpt Ht Hg.
    assert (Hget : exists p, get (prevRef st) nm = Some p /\ tx_of p = None
                             /\ truthy_found (Some p) = true).
    { unfold get. rewrite Hown.
      assert (Hne : forall k, k ∈ ["tx"; "rx"; "running"] -> String.eqb nm k = false).
      { intros k Hk. apply String.eqb_neq. intros ->.
        unfold JS.object_prototype_methods in Hm.
        repeat (apply elem_of_cons in Hk as [-> | Hk];
                [repeat (apply elem_of_cons in Hm as [Hm | Hm]; [discriminate |]);
                 by apply elem_of_nil in Hm |]).
        by apply elem_of_nil in Hk. }
      destruct (proto (prevRef st)) as [s |].
      - rewrite !Hne by (repeat first [by left | right]).
        rewrite Hinh. by exists FFunction.
      - rewrite Hinh. by exists FFunction. }
    destruct Hget as (p & Hget & Htx & Htruthy).
    assert (Hr : rates st' !! nm
                 = Some {| txBps := nan; rxBps := nan; r_running := s_running n |}).
    { subst st'. cbn [fetchTraffic rates]. rewrite Hpt.
      rewrite newRates_lookup by done. rewrite Hn, Hget, Htruthy.
      by rewrite rate_of_inherited. }
    split; [done |]. by rewrite (view_of_rate _ _ _ Hr).
Qed.

(** An instance of X21: an interface named [toString] on the first poll. *)
Lemma inherited_name_skips_calculando_witness :
  let i := {| name := "toString"; tx_byte := 1000; rx_byte := 10; running := true |} in
  let st' := fetchTraffic (Some [i]) 1700000000000 initial in
  rows st' = [("toString", ShowRate None None)]
  /\ rates st' = ∅.
Proof.
  intros i st'.
  destruct (inherited_name_skips_calculando initial [i] 1700000000000 "toString"
              (sample_of i)) as (_ & _ & Hv & _).
  - unfold JS.object_prototype_methods. repeat first [by left | right].
  - reflexivity.
  - split; [| reflexivity]. specialize (Hv eq_refl). fold st' in Hv.
    change (rows st') with [("toString", view_of st' "toString")].
    by rewrite Hv.
Defined.

End TrafficCoverage.

(** ** The pool lists, continued *)

Section PoolCoverage.

Import Pool.

(** X3.  The rows on display are the first rows of the filtered list, all of
    them slots of the pool that pass the filter; collapsed, at most 20
    are shown; the rows shown and the number the "Ver N IPs más" button
    announces add up to the filtered list, and without the button the
    whole filtered list is on display.  The same holds of the table of
    [InterfacePoolBlock] and its toggle. *)
Theorem collapsed_lists_window (showAll : bool) (f : string)
    (all : list address_slot) :
  let fl := filteredIps f all in
  let vis := visibleIps showAll f all in
  vis `prefix_of` fl
  /\ (forall s, s ∈ vis -> s ∈ all /\ keep f s = true)
  /\ (showAll = false -> length vis <= 20)
  /\ length vis + default 0 (more_button showAll fl) = length fl
  /\ (more_button showAll fl = None -> showAll = true \/ length fl <= 20)
  /\ (more_button showAll fl = None -> vis = fl)
  /\ (forall (A : Type) (ips : list A),
        displayIps showAll ips `prefix_of` ips
        /\ length (displayIps showAll ips) + announced (toggle_of showAll ips)
           = length ips
        /\ (is_Some (toggle_of showAll ips) <-> 20 < length ips)
        /\ (toggle_of showAll ips = None -> displayIps showAll ips = ips)).
Proof.
  intros fl vis. subst vis. unfold visibleIps, more_button. fold fl.
  assert (Hin : forall s, s ∈ fl -> s ∈ all /\ keep f s = true).
  { intros s Hs. apply list_elem_of_In, filter_In in Hs as [Hs Hk].
    by apply list_elem_of_In in Hs. }
  assert (Hgen : forall (A : Type) (ips : list A),
            displayIps showAll ips `prefix_of` ips
            /\ length (displayIps showAll ips) + announced (toggle_of showAll ips)
               = length ips
            /\ (is_Some (toggle_of showAll ips) <-> 20 < length ips)
            /\ (toggle_of showAll ips = None -> displayIps showAll ips = ips)).
  { intros A ips. unfold displayIps, toggle_of, announced.
    destruct (Nat.ltb_spec 20 (length ips)) as [Hlt | Hge].
    - split; [destruct showAll; [done | apply prefix_take] |].
      split; [destruct showAll; [lia | rewrite length_take; lia] |].
      split; [split; [done | intros _; by eexists] | done].
    - split; [destruct showAll; [done | apply prefix_take] |].
      split; [destruct showAll; [lia | rewrite length_take; lia] |].
      split; [split; [intros [? [=]] | lia] |].
      intros _. destruct showAll; [done | by rewrite take_ge]. }
  split; [destruct showAll; [done | apply prefix_take] |].
  split.
  { intros s Hs. apply Hin. destruct showAll; [done |]. by apply (subseteq_take 20). }
  split; [intros ->; rewrite length_take; lia |].
  split.
  { destruct showAll; cbn [negb andb default]; [lia |].
    rewrite length_take.
    destruct (Nat.ltb_spec 20 (length fl)); cbn [default from_option]; unfold id; lia. }
  split.
  { destruct showAll; [by left |]. cbn [negb andb].
    destruct (Nat.ltb_spec 20 (length fl)); [done | by right]. }
  split; [| exact Hgen].
  destruct showAll; [done |]. cbn [negb andb].
  destruct (Nat.ltb_spec 20 (length fl)); [done |]. intros _. by rewrite take_ge.
Qed.

End PoolCoverage.

(** ** Connecting to a router, continued *)

Section ConnectCoverage.

Import Connect.
Local Open Scope Z_scope.

(** X4.  The block of an interface is handed the last pool entry that
    carries its name, and lists the addresses of that entry's first
    CIDR when the entry has a pool; with no entry of that name, or an
    entry without pool or without CIDR, it lists nothing. *)
Theorem block_shows_last_entry (pd : option pool_data) (nm : string) :
  let entries := match pd with Some d => pool_interfaces d | None => [] end in
  let e := last (List.filter (fun p => String.eqb (Pool.pe_name p) nm) entries) in
  poolMap pd !! nm = e
  /\ Pool.allIps (poolMap pd !! nm)
     = match e with
       | Some p =>
           if Pool.has_pool p
           then match Pool.cidrs p with c :: _ => Pool.cp_ips c | [] => [] end
           else []
       | None => []
       end.
Proof.
  intros entries e.
  assert (H : poolMap pd !! nm = e).
  { unfold poolMap. fold entries.
    rewrite (fold_insert_last Pool.pe_name (fun p => p)). fold e.
    by destruct e. }
  split; [done |]. rewrite H.
  destruct e as [p |]; [| done].
  unfold Pool.allIps, Pool.firstPool, Pool.hasPool.
  destruct (Pool.has_pool p); [| done].
  by destruct (Pool.cidrs p).
Qed.

(** X5.  Disconnecting brings the connection form back, forgets the
    credentials and the stored interfaces, and leaves no block with a
    pool.  An answer of the pool request that arrives afterwards is
    stored all the same: the form stays on display, and the next
    connection shows the device with that older pool until its own pool
    request is answered. *)
Theorem disconnect_clears_session (st : page) :
  let st1 := handleDisconnect st in
  render st1 = ShowConnectForm (connecting st)
  /\ creds st1 = None
  /\ stored st1 = None
  /\ toasts st1 = toasts st
  /\ (forall i, block_has_pool st1 i = false)
  /\ (forall (late : option pool_data),
        let st2 := ip_pool_settled late st1 in
        render st2 = ShowConnectForm (connecting st)
        /\ poolData st2 = late
        /\ forall (c : credentials) (info : system_info),
             render (system_info_settled c (inr info) (handleConnect_begin st2))
             = ShowDevice info (Some c) (interfaces info) late true).
Proof.
  intros st1. split_and!; try done.
  intros late st2. split_and!; try done. by destruct late.
  intros c info. cbn. by destruct late.
Qed.

(** X6.  The connection form hands credentials on exactly when none of
    host, user and password is made of white space only, the white
    space being that of [String.prototype.trim] (a host of one no-break
    space is rejected like an empty one); the three are passed as
    typed.  The port is the integer the port field starts with when
    that integer is not zero and is below [2^53] in magnitude, so that
    [parseInt] returns it exactly, and 8728 when the field starts with
    no integer or with zero: never zero. *)
Theorem connect_form_gate (f : ConnectForm.form) :
  match ConnectForm.handleSubmit f with
  | inl msg =>
      (JS.all_spaces (ConnectForm.f_host f)
       || JS.all_spaces (ConnectForm.f_username f)
       || JS.all_spaces (ConnectForm.f_password f)) = true
      /\ JS.truthy_string msg = true
  | inr c =>
      JS.all_spaces (ConnectForm.f_host f) = false
      /\ JS.all_spaces (ConnectForm.f_username f) = false
      /\ JS.all_spaces (ConnectForm.f_password f) = false
      /\ host c = ConnectForm.f_host f
      /\ username c = ConnectForm.f_username f
      /\ password c = ConnectForm.f_password f
      /\ use_ssl c = ConnectForm.f_use_ssl f
      /\ port c <> 0
      /\ (forall z, JS.parseInt (ConnectForm.f_port f) = Some z ->
                    z <> 0 -> Z.abs z < 2 ^ 53 -> port c = z)
      /\ (JS.parseInt (ConnectForm.f_port f) = Some 0 -> port c = 8728)
      /\ (JS.parseInt (ConnectForm.f_port f) = None -> port c = 8728)
      /\ (forall z, ConnectForm.f_port f = pretty z ->
                    z <> 0 -> Z.abs z < 2 ^ 53 -> port c = z)
  end
  /\ ConnectForm.handleSubmit ConnectForm.initial = inl "Ingresa la IP del MikroTik"
  /\ (forall u p s,
        ConnectForm.handleSubmit
          {| ConnectForm.f_host := String (ascii_of_nat 194) (String (ascii_of_nat 160) "");
             ConnectForm.f_username := u; ConnectForm.f_password := p;
             ConnectForm.f_port := "8728"; ConnectForm.f_use_ssl := s |}
        = inl "Ingresa la IP del MikroTik").
Proof.
  split; [| split; [reflexivity | reflexivity]].
  unfold ConnectForm.handleSubmit. rewrite !blank_spec.
  destruct (JS.all_spaces (ConnectForm.f_host f)); [done |].
  destruct (JS.all_spaces (ConnectForm.f_username f)); [done |].
  destruct (JS.all_spaces (ConnectForm.f_password f)); [done |].
  cbn [host username password use_ssl port]. unfold JS.parseInt_or.
  split_and!; try done.
  - destruct (JS.parseInt _) as [z |]; [| done].
    destruct (Z.eqb_spec z 0); [done | done].
  - intros z -> Hz _. by destruct (Z.eqb_spec z 0).
  - by intros ->.
  - by intros ->.
  - intros z -> Hz _. rewrite parseInt_pretty. by destruct (Z.eqb_spec z 0).
Qed.

(** X7.  The panel sorts every interface into exactly one of its two groups,
    in the order of the response; the two counters add up to the number
    of interfaces in the header; a block (and so a pool) is rendered only
    for an interface with an address. *)
Theorem panel_groups_partition (st : page) (l : list router_iface) :
  (forall i, i ∈ l <-> i ∈ withIp l \/ i ∈ withoutIp l)
  /\ (forall i, i ∈ withIp l -> i ∈ withoutIp l -> False)
  /\ Permutation (withIp l ++ withoutIp l) l
  /\ (length (withIp l) + length (withoutIp l) = length l)%nat
  /\ (forall i, i ∈ withIp l <-> i ∈ l /\ ri_ips i <> [])
  /\ (forall i p, (i, p) ∈ blocks st l ->
        i ∈ l /\ ri_ips i <> [] /\ p = poolMap (poolData st) !! ri_name i).
Proof.
  assert (Hneg : forall i : router_iface,
            (length (ri_ips i) =? 0)%nat = negb (0 <? length (ri_ips i))%nat).
  { intros i. by destruct (ri_ips i). }
  assert (Hwo : withoutIp l
                = List.filter (fun i => negb (0 <? length (ri_ips i))%nat) l).
  { unfold withoutIp. apply filter_ext. exact Hneg. }
  assert (Hperm : Permutation (withIp l ++ withoutIp l) l).
  { rewrite Hwo. apply filter_split_perm. }
  assert (Hin : forall i, i ∈ withIp l <-> i ∈ l /\ ri_ips i <> []).
  { intros i. unfold withIp. rewrite list_elem_of_In, filter_In, <- list_elem_of_In.
    destruct (ri_ips i); cbn; split; intros [? ?]; split; done. }
  split_and!.
  - intros i. rewrite <- elem_of_app. by rewrite Hperm.
  - intros i [_ H1]%Hin. unfold withoutIp.
    rewrite list_elem_of_In, filter_In. intros [_ H2]. by destruct (ri_ips i).
  - done.
  - rewrite <- length_app. by rewrite Hperm.
  - done.
  - intros i p. unfold blocks. rewrite list_elem_of_fmap.
    intros (j & [= -> ->] & Hj). apply Hin in Hj as [? ?]. done.
Qed.

End ConnectCoverage.

Section CascadeCoverage.

Import Cascade.
Local Open Scope Z_scope.

Variable B : backend.
Variable preClientId : string.

(** X8.  The value of a listed option parses back to the id it was built
    from: the option of a listed row is on offer and is not the
    placeholder, and choosing the option of a listed cell makes
    [cells.find(c => c.id === parseInt(form.cell_id))] return a listed
    cell with that id, the cell itself when ids are not repeated. *)
Theorem option_value_round_trip :
  (forall z : Z, JS.parseInt (pretty z) = Some z)
  /\ (forall (A : Type) (id : A -> Z) (rows : list A) (r : A),
        r ∈ rows ->
        pretty (id r) ∈ option_values id rows
        /\ JS.truthy_string (pretty (id r)) = true)
  /\ (forall (cs : list cell) (c : cell),
        c ∈ cs ->
        exists c',
          find_cell (Some (VStr (pretty (c_id c)))) cs = Some c'
          /\ c' ∈ cs
          /\ c_id c' = c_id c
          /\ (NoDup (c_id <$> cs) -> c' = c)).
Proof.
  split; [exact parseInt_pretty |]. split.
  - intros A id rows r Hr. split; [| apply pretty_Z_truthy].
    unfold option_values. apply elem_of_cons. right.
    apply list_elem_of_fmap. by exists r.
  - intros cs c Hc. unfold find_cell. cbn [to_string]. rewrite parseInt_pretty.
    induction cs as [| d cs IH]; [by apply elem_of_nil in Hc |].
    cbn [List.find]. case_bool_decide as Hd.
    + exists d. injection Hd as Hd. split; [done |]. split; [by left |].
      split; [done |]. intros Hnd. apply elem_of_cons in Hc as [-> | Hc]; [done |].
      rewrite fmap_cons in Hnd. apply NoDup_cons in Hnd as [Hnin _].
      exfalso. apply Hnin. rewrite <- Hd. apply list_elem_of_fmap. by exists c.
    + apply elem_of_cons in Hc as [-> | Hc]; [done |].
      destruct (IH Hc) as (c' & Hf & Hin & Hid & Hnd).
      exists c'. split; [done |]. split; [by right |]. split; [done |].
      intros H. rewrite fmap_cons in H. apply NoDup_cons in H as [_ H]. auto.
Qed.

(** X9.  The renders that follow a state update come to rest: the effects of
    the third commit find every dependency as the second commit left
    it, and change nothing. *)
Theorem effects_come_to_rest (old : deps) (st : modal) :
  run_effects (deps_of (run_effects old st)) (settle old st) = settle old st
  /\ settle (deps_of (settle old st)) (settle old st) = settle old st.
Proof.
  split.
  - apply run_effects_same. symmetry. apply settle_stable.
  - by apply settle_same.
Qed.

(** X10.  Submitting on a cell that is not a fibre cell (an antenna cell, a
    cell of another type, no cell found): any falsy field among client,
    cell, plan, IP and CPE stops the submission with one error message
    and no write; with the five present exactly one
    [POST /connections/antenna] leaves, and never a fibre one. *)
Theorem antenna_validation_gates_commit (st : modal) :
  isFibra st = false ->
  let st' := handleSubmit st in
  step B preClientId Submit st = Some st'
  /\ ((exists k, k ∈ antenna_required /\ truthy (form st !! k) = false) ->
      sent st' = sent st
      /\ exists msg, toasts st' = toasts st ++ [Toast_error msg])
  /\ ((forall k, k ∈ antenna_required -> truthy (form st !! k) = true) ->
      sent st' = sent st ++ [PostAntenna (antenna_body (form st))]
      /\ toasts st' = toasts st
      /\ saving st' = true)
  /\ (sent st' <> sent st ->
      forall k, k ∈ antenna_required -> truthy (form st !! k) = true)
  /\ (forall body, PostFiber body ∈ sent st' -> PostFiber body ∈ sent st).
Proof.
  intros Hfib st'. split; [apply step_submit |].
  assert (Hcases :
    (Forall (fun k => truthy (form st !! k) = true) antenna_required
     /\ sent st' = sent st ++ [PostAntenna (antenna_body (form st))]
     /\ toasts st' = toasts st /\ saving st' = true)
    \/ (Exists (fun k => truthy (form st !! k) = false) antenna_required
        /\ sent st' = sent st
        /\ exists msg, toasts st' = toasts st ++ [Toast_error msg])).
  { subst st'. unfold handleSubmit, antenna_required. rewrite Hfib.
    destruct (truthy (form st !! "client_id")) eqn:H1; cbn [negb];
      [| right; split; [| by eauto]; repeat first [by left | right]].
    destruct (truthy (form st !! "cell_id")) eqn:H2; cbn [negb];
      [| right; split; [| by eauto]; repeat first [by left | right]].
    destruct (truthy (form st !! "plan_id")) eqn:H3; cbn [negb];
      [| right; split; [| by eauto]; repeat first [by left | right]].
    destruct (truthy (form st !! "ip_address")) eqn:H4; cbn [negb];
      [| right; split; [| by eauto]; repeat first [by left | right]].
    destruct (truthy (form st !! "cpe_id")) eqn:H5; cbn [negb];
      [| right; split; [| by eauto]; repeat first [by left | right]].
    left. split; [| done]. repeat constructor; done. }
  destruct Hcases as [(Hall & Hs & Ht & Hsv) | (Hex & Hs & Ht)].
  - rewrite Forall_forall in Hall.
    split; [| split; [done |]].
    + intros (k & Hk & Hfalse). rewrite (Hall k Hk) in Hfalse. discriminate.
    + split; [intros _; exact Hall |].
      intros body. rewrite Hs, elem_of_app, list_elem_of_singleton.
      by intros [? | ?].
  - apply Exists_exists in Hex as (k & Hk & Hfalse).
    split; [done |]. split.
    + intros Hall. rewrite (Hall k Hk) in Hfalse. discriminate.
    + split; [intros Hne; by destruct Hne |]. intros body. by rewrite Hs.
Qed.

End CascadeCoverage.

Section ScenarioCoverage.

Import Cascade Scenario.

Lemma antenna_validation_gates_commit_witness :
  isFibra antenna_draft = false
  /\ length (sent (handleSubmit antenna_draft)) = 1%nat
  /\ toasts (handleSubmit antenna_draft) = [].
Proof.
  split; [by vm_compute |].
  destruct (antenna_validation_gates_commit directory_antenna "" antenna_draft)
    as (_ & _ & Hok & _); [by vm_compute |].
  destruct Hok as (Hs & Ht & _).
  - intros k Hk. unfold antenna_required in Hk.
    repeat (apply elem_of_cons in Hk as [-> | Hk]; [by vm_compute |]).
    by apply elem_of_nil in Hk.
  - split; [rewrite Hs | rewrite Ht]; by vm_compute.
Defined.

End ScenarioCoverage.

Section SessionFacts.

Import Cascade.
Local Open Scope Z_scope.

Variable B : backend.
Variable preClientId : string.

(** What the zone and NAP effects leave alone. *)
Lemma zone_effect_frame (d : deps) (st : modal) :
  selectedCell (zone_effect d st) = selectedCell st
  /\ sent (zone_effect d st) = sent st
  /\ forall k, form (zone_effect d st) !! k = form st !! k
               \/ ((k = "nap_id" \/ k = "nap_port_id")
                   /\ form (zone_effect d st) !! k = Some (VStr "")).
Proof.
  unfold zone_effect. destruct (truthy (dep_zone d)); cbn; [| auto].
  split; [done |]. split; [done |]. intros k.
  destruct (decide (k = "nap_port_id")) as [-> | H1].
  { right. split; [by right |]. by rewrite lookup_insert_eq. }
  rewrite lookup_insert_ne by done.
  destruct (decide (k = "nap_id")) as [-> | H2].
  { right. split; [by left |]. by rewrite lookup_insert_eq. }
  left. by rewrite lookup_insert_ne.
Qed.

Lemma nap_effect_frame (d : deps) (st : modal) :
  selectedCell (nap_effect d st) = selectedCell st
  /\ sent (nap_effect d st) = sent st
  /\ forall k, form (nap_effect d st) !! k = form st !! k
               \/ ((k = "nap_id" \/ k = "nap_port_id")
                   /\ form (nap_effect d st) !! k = Some (VStr "")).
Proof.
  unfold nap_effect. destruct (truthy (dep_nap d)); cbn; [| auto].
  split; [done |]. split; [done |]. intros k.
  destruct (decide (k = "nap_port_id")) as [-> | H1].
  { right. split; [by right |]. by rewrite lookup_insert_eq. }
  left. by rewrite lookup_insert_ne.
Qed.

Lemma run_effects_frame (old : deps) (st : modal) :
  let st' := run_effects old st in
  let stc := after_cell old st in
  selectedCell st' = selectedCell stc
  /\ sent st' = sent stc
  /\ forall k, form st' !! k = form stc !! k
               \/ ((k = "nap_id" \/ k = "nap_port_id")
                   /\ form st' !! k = Some (VStr "")).
Proof.
  intros st' stc. subst st' stc. unfold run_effects, after_cell.
  set (stc := if decide (dep_cell old = dep_cell (deps_of st)
                         /\ dep_cells old = dep_cells (deps_of st))
              then st else cell_effect (deps_of st) st).
  set (st2 := if decide (dep_zone old = dep_zone (deps_of st))
              then stc else zone_effect (deps_of st) stc).
  assert (H2 : selectedCell st2 = selectedCell stc /\ sent st2 = sent stc
               /\ forall k, form st2 !! k = form stc !! k
                  \/ ((k = "nap_id" \/ k = "nap_port_id")
                      /\ form st2 !! k = Some (VStr ""))).
  { subst st2. case_decide; [auto |]. apply zone_effect_frame. }
  destruct H2 as (Hs2 & Hw2 & Hf2).
  case_decide; [done |].
  destruct (nap_effect_frame (deps_of st) st2) as (Hs3 & Hw3 & Hf3).
  split; [congruence |]. split; [congruence |]. intros k.
  destruct (Hf3 k) as [-> | [? ?]]; [apply Hf2 | by right].
Qed.

Lemma after_cell_spec (old : deps) (st : modal) :
  sent (after_cell old st) = sent st
  /\ ((dep_cell old = form st !! "cell_id" /\ dep_cells old = cells st
       /\ after_cell old st = st)
      \/ (~ (dep_cell old = form st !! "cell_id" /\ dep_cells old = cells st)
          /\ truthy (form st !! "cell_id") = true
          /\ selectedCell (after_cell old st)
             = find_cell (form st !! "cell_id") (cells st)
          /\ form (after_cell old st) = reset_cascade (form st))
      \/ (~ (dep_cell old = form st !! "cell_id" /\ dep_cells old = cells st)
          /\ truthy (form st !! "cell_id") = false
          /\ selectedCell (after_cell old st) = None
          /\ form (after_cell old st) = form st)).
Proof.
  unfold after_cell.
  destruct (decide (dep_cell old = dep_cell (deps_of st)
                    /\ dep_cells old = dep_cells (deps_of st))) as [[H1 H2] | Hn].
  { split; [done |]. left. done. }
  unfold cell_effect. cbn [deps_of dep_cell dep_cells].
  destruct (truthy (form st !! "cell_id")) eqn:Ht; cbn [negb].
  - split; [done |]. right. left. done.
  - split; [done |]. right. right. done.
Qed.

Lemma reset_cascade_lookup (f : gmap string value) (k : string) :
  reset_cascade f !! k = f !! k \/ reset_cascade f !! k = Some (VStr "").
Proof.
  unfold reset_cascade.
  repeat (destruct (decide (k = _)) as [-> | ?];
          [right; by rewrite lookup_insert_eq | rewrite lookup_insert_ne by done]);
  repeat match goal with
  | |- context [ <[ ?a := _ ]> _ !! k ] =>
      destruct (decide (k = a)) as [-> | ?];
      [right; by rewrite lookup_insert_eq | rewrite lookup_insert_ne by done]
  end.
  by left.
Qed.

(** The renders that follow an update: what they leave of the state
    the update produced. *)
Lemma settle_frame (old : deps) (h : modal) :
  let st' := settle old h in
  let stc := after_cell old h in
  selectedCell st' = selectedCell stc
  /\ sent st' = sent h
  /\ cells st' = cells h
  /\ form st' !! "cell_id" = form h !! "cell_id"
  /\ (forall k, form st' !! k = form stc !! k
                \/ ((k = "nap_id" \/ k = "nap_port_id")
                    /\ form st' !! k = Some (VStr "")))
  /\ (forall k, form st' !! k = form h !! k \/ form st' !! k = Some (VStr "")).
Proof.
  intros st' stc. subst st' stc. unfold settle.
  set (s1 := run_effects old h).
  destruct (run_effects_frame old h) as (Hs1 & Hw1 & Hf1). fold s1 in Hs1, Hw1, Hf1.
  destruct (run_effects_keys old h) as (Hk1 & Hc1 & _ & _). fold s1 in Hk1, Hc1.
  destruct (run_effects_frame (deps_of h) s1) as (Hs2 & Hw2 & Hf2).
  destruct (run_effects_keys (deps_of h) s1) as (Hk2 & Hc2 & _ & _).
  assert (Hsame : after_cell (deps_of h) s1 = s1).
  { unfold after_cell. case_decide as Hd; [done |]. exfalso. apply Hd.
    cbn. split; congruence. }
  rewrite Hsame in Hs2, Hw2, Hf2.
  destruct (after_cell_spec old h) as [Hw0 _].
  assert (Hstc : forall k, form (run_effects (deps_of h) s1) !! k
                           = form (after_cell old h) !! k
                 \/ ((k = "nap_id" \/ k = "nap_port_id")
                     /\ form (run_effects (deps_of h) s1) !! k = Some (VStr ""))).
  { intros k. destruct (Hf2 k) as [-> | [? ?]]; [apply Hf1 | by right]. }
  split; [congruence |]. split; [congruence |]. split; [congruence |].
  split; [congruence |]. split; [exact Hstc |].
  intros k. destruct (Hstc k) as [-> | [_ ?]]; [| by right].
  destruct (after_cell_spec old h) as [_ [(_ & _ & ->) | [(_ & _ & _ & ->) | (_ & _ & _ & ->)]]];
    [by left | apply reset_cascade_lookup | by left].
Qed.

(** What a handler leaves alone. *)
Lemma handle_frame (ev : event) (st h : modal) :
  handle B preClientId ev st = Some h ->
  selectedCell h = selectedCell st
  /\ (cells h = cells st \/ cells h = get_cells B)
  /\ ((form h = form st /\ cells h = cells st /\ sent h = sent st)
      \/ (form h = form st /\ sent h = sent st /\ exists ok, ev = InitialArrived ok)
      \/ (ev = Submit /\ h = handleSubmit st)
      \/ (exists key v, ev = Change key v
                        /\ can_change preClientId st key v = true
                        /\ h = update_form key v st)).
Proof.
  unfold handle, answered.
  destruct ev as [ok | key v | cid found o | z ok | n ok | | err]; cbn.
  - destruct (answer ReqInitial (pending st)); [| done]. cbn. intros [= <-].
    unfold initial_arrived.
    destruct ok; cbn; (split; [done |]); (split; [auto |]);
      right; left; (split; [done |]); (split; [done |]); by eexists.
  - case_match eqn:Hc; [| done]. intros [= <-]. cbn. split; [done |].
    split; [by left |]. do 3 right. by exists key, v.
  - destruct (answer (ReqCellData cid found) (pending st)); [| done]. cbn. intros [= <-].
    unfold cell_data_arrived. repeat case_match; cbn; auto 6.
  - destruct (answer (ReqNaps z) (pending st)); [| done]. cbn. intros [= <-].
    unfold naps_arrived. destruct ok; cbn; auto 6.
  - destruct (answer (ReqPorts n) (pending st)); [| done]. cbn. intros [= <-].
    unfold ports_arrived. destruct ok; cbn; auto 6.
  - intros [= <-]. destruct (handleSubmit_keeps st) as [Hf Hc].
    split; [| split; [by left | auto]].
    unfold handleSubmit. repeat case_match; done.
  - case_match; [| done]. intros [= <-]. unfold write_settled.
    repeat case_match; cbn; auto 6.
Qed.

End SessionFacts.

Section SessionInvariant.

Import Cascade.
Local Open Scope Z_scope.

Variable B : backend.
Variable preClientId : string.

(** The three ways [handleSubmit] ends. *)
Lemma handleSubmit_cases (st : modal) :
  (sent (handleSubmit st) = sent st
   /\ (exists msg, toasts (handleSubmit st) = toasts st ++ [Toast_error msg])
   /\ Exists (fun k => truthy (form st !! k) = false)
        (if isFibra st then fiber_required else antenna_required))
  \/ (isFibra st = true
      /\ Forall (fun k => truthy (form st !! k) = true) fiber_required
      /\ sent (handleSubmit st) = sent st ++ [PostFiber (fiber_body (form st))]
      /\ toasts (handleSubmit st) = toasts st
      /\ saving (handleSubmit st) = true)
  \/ (isFibra st = false
      /\ Forall (fun k => truthy (form st !! k) = true) antenna_required
      /\ sent (handleSubmit st) = sent st ++ [PostAntenna (antenna_body (form st))]
      /\ toasts (handleSubmit st) = toasts st
      /\ saving (handleSubmit st) = true).
Proof.
  unfold handleSubmit, fiber_required, antenna_required.
  destruct (truthy (form st !! "client_id")) eqn:H1; cbn [negb];
    [| left; split; [done |]; split; [by eauto |];
       destruct (isFibra st); repeat first [by left | right]].
  destruct (truthy (form st !! "cell_id")) eqn:H2; cbn [negb];
    [| left; split; [done |]; split; [by eauto |];
       destruct (isFibra st); repeat first [by left | right]].
  destruct (truthy (form st !! "plan_id")) eqn:H3; cbn [negb];
    [| left; split; [done |]; split; [by eauto |];
       destruct (isFibra st); repeat first [by left | right]].
  destruct (isFibra st) eqn:Hfib.
  - destruct (truthy (form st !! "olt_zone_id")) eqn:H4; cbn [negb orb];
      [| left; split; [done |]; split; [by eauto |]; repeat first [by left | right]].
    destruct (truthy (form st !! "nap_id")) eqn:H5; cbn [negb orb];
      [| left; split; [done |]; split; [by eauto |]; repeat first [by left | right]].
    destruct (truthy (form st !! "nap_port_id")) eqn:H6; cbn [negb orb];
      [| left; split; [done |]; split; [by eauto |]; repeat first [by left | right]].
    destruct (truthy (form st !! "ip_address")) eqn:H7; cbn [negb orb];
      [| left; split; [done |]; split; [by eauto |]; repeat first [by left | right]].
    destruct (truthy (form st !! "pppoe_username")) eqn:H8; cbn [negb orb];
      [| left; split; [done |]; split; [by eauto |]; repeat first [by left | right]].
    destruct (truthy (form st !! "pppoe_password_encrypted")) eqn:H9; cbn [negb orb];
      [| left; split; [done |]; split; [by eauto |]; repeat first [by left | right]].
    destruct (truthy (form st !! "onu_id")) eqn:H10; cbn [negb orb];
      [| left; split; [done |]; split; [by eauto |]; repeat first [by left | right]].
    right. left. split; [done |]. split; [| done]. repeat constructor; done.
  - destruct (truthy (form st !! "ip_address")) eqn:H4; cbn [negb];
      [| left; split; [done |]; split; [by eauto |]; repeat first [by left | right]].
    destruct (truthy (form st !! "cpe_id")) eqn:H5; cbn [negb];
      [| left; split; [done |]; split; [by eauto |]; repeat first [by left | right]].
    right. right. split; [done |]. split; [| done]. repeat constructor; done.
Qed.

Lemma isAntena_selected (st st' : modal) :
  selectedCell st' = selectedCell st -> isAntena st' = isAntena st.
Proof. unfold isAntena. by intros ->. Qed.

Lemma can_change_cpe (st : modal) (v : value) :
  can_change preClientId st "cpe_id" v = true -> isAntena st = true.
Proof.
  unfold can_change.
  change (control_of preClientId st "cpe_id")
    with (if isAntena st then Select (option_values d_id (cpes st)) else Absent).
  destruct v; [| done]. by destruct (isAntena st).
Qed.

Lemma can_change_port (st : modal) (v : value) :
  can_change preClientId st "nap_port_id" v = true ->
  exists s, v = VStr s /\ s ∈ option_values p_id (ports st).
Proof.
  unfold can_change.
  change (control_of preClientId st "nap_port_id")
    with (if isFibra st && truthy (form st !! "nap_id")
          then Select (option_values p_id (ports st)) else Absent).
  destruct v as [s | b]; [| done].
  destruct (isFibra st && truthy (form st !! "nap_id")); [| done].
  intros H%bool_decide_eq_true. by exists s.
Qed.

Lemma can_change_nap (st : modal) (v : value) :
  can_change preClientId st "nap_id" v = true ->
  exists s, v = VStr s /\ s ∈ option_values n_id (naps st).
Proof.
  unfold can_change.
  change (control_of preClientId st "nap_id")
    with (if isFibra st && truthy (form st !! "olt_zone_id")
          then Select (option_values n_id (naps st)) else Absent).
  destruct v as [s | b]; [| done].
  destruct (isFibra st && truthy (form st !! "olt_zone_id")); [| done].
  intros H%bool_decide_eq_true. by exists s.
Qed.

Lemma option_values_elem {A : Type} (id : A -> Z) (rows : list A) (s : string) :
  s ∈ option_values id rows -> s = "" \/ exists r, r ∈ rows /\ s = pretty (id r).
Proof.
  unfold option_values. intros [-> | H]%elem_of_cons; [by left |].
  apply list_elem_of_fmap in H as (r & -> & Hr). right. by exists r.
Qed.

Lemma find_cell_some (v : option value) (cs : list cell) (c : cell) :
  find_cell v cs = Some c ->
  c ∈ cs /\ JS.parseInt (to_string v) = Some (c_id c).
Proof.
  unfold find_cell. intros [Hin Hd]%find_some. split; [by apply list_elem_of_In |].
  by apply bool_decide_eq_true in Hd.
Qed.

Lemma session_inv_initial (today : string) :
  session_inv B (initial preClientId today).
Proof.
  split.
  - reflexivity.
  - by left.
  - intros H. exfalso. revert H. by vm_compute.
  - intros p Hp. by apply elem_of_nil in Hp.
  - intros n Hn. by apply elem_of_nil in Hn.
  - exists "". split; [reflexivity | by left].
  - exists "". split; [reflexivity | by left].
  - intros w Hw. by apply elem_of_nil in Hw.
Qed.

(** The writes of a submission are good when the state is. *)
Lemma submit_good (st : modal) :
  session_inv B st -> forall w, w ∈ sent (handleSubmit st) -> good_write B w.
Proof.
  intros [Icell Icells Icpe Iports Inaps Iport Inap Isent] w Hw.
  assert (Hnames : forall c, selectedCell st = Some c ->
            c ∈ get_cells B
            /\ JS.parseInt (to_string (form st !! "cell_id")) = Some (c_id c)).
  { intros c Hc. unfold cell_in_step in Icell. rewrite Hc in Icell.
    destruct (truthy (form st !! "cell_id")); [| done].
    symmetry in Icell. apply find_cell_some in Icell as [Hin Hp].
    split; [| done]. destruct Icells as [He | <-]; [| done].
    rewrite He in Hin. by apply elem_of_nil in Hin. }
  destruct (handleSubmit_cases st)
    as [(Hs & _) | [(Hfib & Hall & Hs & _) | (Hfib & Hall & Hs & _)]];
    rewrite Hs in Hw.
  - by apply Isent.
  - apply elem_of_app in Hw as [Hw | Hw]; [by apply Isent |].
    apply list_elem_of_singleton in Hw as ->.
    rewrite Forall_forall in Hall. cbn [good_write]. split_and!.
    + unfold isFibra in Hfib. destruct (selectedCell st) as [c |] eqn:Hc; [| done].
      destruct (Hnames c eq_refl) as [Hin Hp].
      exists c. split; [done |]. split; [exact Hp |].
      apply orb_true_iff in Hfib as [H | H]; apply String.eqb_eq in H; rewrite H;
        [by left | right; by left].
    + destruct Iport as (s & Hk & Hopt).
      assert (Ht : truthy (form st !! "nap_port_id") = true).
      { apply Hall. unfold fiber_required. do 5 right. by left. }
      rewrite Hk in Ht. cbn in Ht.
      destruct Hopt as [-> | (p & n & -> & Hin & Hfree)]; [done |].
      exists p, n. split; [| done].
      cbn [fiber_body fp_nap_port_id]. unfold parse_field. rewrite Hk.
      cbn [to_string]. apply parseInt_pretty.
    + destruct Inap as (s & Hk & Hopt).
      assert (Ht : truthy (form st !! "nap_id") = true).
      { apply Hall. unfold fiber_required. do 4 right. by left. }
      rewrite Hk in Ht. cbn in Ht.
      destruct Hopt as [-> | (np & z & -> & Hin)]; [done |].
      exists np, z. split; [| done].
      cbn [fiber_body fp_nap_id]. unfold parse_field. rewrite Hk.
      cbn [to_string]. apply parseInt_pretty.
  - apply elem_of_app in Hw as [Hw | Hw]; [by apply Isent |].
    apply list_elem_of_singleton in Hw as ->.
    rewrite Forall_forall in Hall. cbn [good_write].
    assert (Hant : isAntena st = true).
    { apply Icpe; apply Hall; unfold antenna_required.
      - do 4 right. by left.
      - right. by left. }
    unfold isAntena in Hant. destruct (selectedCell st) as [c |] eqn:Hc; [| done].
    destruct (Hnames c eq_refl) as [Hin Hp].
    exists c. split; [done |]. split; [exact Hp |].
    apply String.eqb_eq in Hant. rewrite Hant. by left.
Qed.

(** One event and the renders that follow keep the invariant. *)
Lemma step_inv (ev : event) (st st' : modal) :
  session_inv B st -> step B preClientId ev st = Some st' -> session_inv B st'.
Proof.
  intros Inv Hstep. unfold step in Hstep.
  destruct (handle B preClientId ev st) as [h |] eqn:Hh; [| done].
  cbn in Hstep. injection Hstep as <-.
  destruct (handle_frame B preClientId ev st h Hh) as (Hsel & Hcells & Hcases).
  destruct (handle_lists B preClientId ev st h Hh) as [Hp Hn].
  destruct (settle_lists (deps_of st) h) as [Sp Sn].
  destruct (settle_frame (deps_of st) h) as (Fsel & Fsent & Fcells & Fcid & Fstc & Fh).
  destruct (after_cell_spec (deps_of st) h) as [_ Hac].
  cbn [deps_of dep_cell dep_cells] in Hac.
  assert (Hform : forall k,
            form h !! k = form st !! k
            \/ exists v, ev = Change k v /\ can_change preClientId st k v = true
                         /\ form h !! k = Some v).
  { intros k.
    destruct Hcases as [(-> & _) | [(-> & _) | [(_ & ->) | (key & v & -> & Hcan & ->)]]];
      [by left | by left | left; by destruct (handleSubmit_keeps st) as [-> _] |].
    cbn. destruct (decide (k = key)) as [-> | Hne].
    - right. exists v. by rewrite lookup_insert_eq.
    - left. by rewrite lookup_insert_ne. }
  destruct Inv as [Icell Icells Icpe Iports Inaps Iport Inap Isent].
  split.
  - (* the selected cell *)
    unfold cell_in_step in *. rewrite Fsel, Fcid, Fcells.
    destruct Hac as [(Hk & Hc & ->) | [(_ & Ht & -> & _) | (_ & Ht & -> & _)]].
    + rewrite Hsel, Icell. by rewrite Hk, Hc.
    + by rewrite Ht.
    + by rewrite Ht.
  - rewrite Fcells. destruct Hcells as [-> | ->]; [done | by right].
  - (* the CPE key *)
    intros Hcpe Hcid. rewrite Fcid in Hcid.
    assert (Hk : form (settle (deps_of st) h) !! "cpe_id"
                 = form (after_cell (deps_of st) h) !! "cpe_id").
    { destruct (Fstc "cpe_id") as [? | [[? | ?] _]]; done. }
    rewrite Hk in Hcpe.
    destruct Hac as [(Hk1 & Hc1 & Heq) | [(_ & Ht & _ & Hf) | (_ & Ht & _ & _)]].
    + rewrite Heq in Hcpe, Fsel.
      rewrite (isAntena_selected st); [| congruence].
      destruct (Hform "cpe_id") as [He | (v & -> & Hcan & _)].
      * apply Icpe; [by rewrite <- He | by rewrite Hk1].
      * by apply can_change_cpe in Hcan.
    + rewrite Hf in Hcpe. unfold reset_cascade in Hcpe.
      rewrite lookup_insert_eq in Hcpe. done.
    + congruence.
  - intros p Hin. destruct Sp as [Sp | Sp]; rewrite Sp in Hin;
      [| by apply elem_of_nil in Hin].
    destruct Hp as [Hp | [n Hp]]; rewrite Hp in Hin; [by apply Iports |].
    apply list_elem_of_In, filter_In in Hin as [Hin Hfree].
    split; [by apply negb_true_iff |]. exists n. by apply list_elem_of_In.
  - intros n Hin. destruct Sn as [Sn | Sn]; rewrite Sn in Hin;
      [| by apply elem_of_nil in Hin].
    destruct Hn as [Hn | [z Hn]]; rewrite Hn in Hin; [by apply Inaps |].
    by exists z.
  - (* the port key *)
    destruct (Fh "nap_port_id") as [-> | ->]; [| exists ""; split; [done | by left]].
    destruct (Hform "nap_port_id") as [-> | (v & -> & Hcan & ->)]; [done |].
    apply can_change_port in Hcan as (s & -> & Hs).
    exists s. split; [done |].
    apply option_values_elem in Hs as [-> | (p & Hin & ->)]; [by left |].
    right. destruct (Iports p Hin) as [Hfree [n Hlisted]]. by exists p, n.
  - (* the NAP key *)
    destruct (Fh "nap_id") as [-> | ->]; [| exists ""; split; [done | by left]].
    destruct (Hform "nap_id") as [-> | (v & -> & Hcan & ->)]; [done |].
    apply can_change_nap in Hcan as (s & -> & Hs).
    exists s. split; [done |].
    apply option_values_elem in Hs as [-> | (np & Hin & ->)]; [by left |].
    right. destruct (Inaps np Hin) as [z Hz]. by exists np, z.
  - (* the writes *)
    rewrite Fsent.
    assert (Inv : session_inv B st) by (by split).
    destruct Hcases as [(_ & _ & ->) | [(_ & -> & _) | [(_ & ->) | (key & v & _ & _ & ->)]]];
      [done | done | by apply submit_good | done].
Qed.

Lemma run_inv (evs : list event) (st0 st : modal) :
  session_inv B st0 -> run B preClientId evs st0 = Some st -> session_inv B st.
Proof.
  revert st0. induction evs as [| ev evs IH]; intros st0 Inv Hrun; cbn in Hrun.
  - by injection Hrun as <-.
  - destruct (step B preClientId ev st0) as [s1 |] eqn:Hstep; [| done].
    apply (IH s1); [| done]. by eapply step_inv.
Qed.

End SessionInvariant.

Section SessionCoverage.

Import Cascade.
Local Open Scope Z_scope.

Variable B : backend.
Variable preClientId : string.

(** X11.  Throughout a session the selected cell is the one the form's cell
    id designates: the first cell of the loaded list whose id is
    [parseInt(form.cell_id)], a cell of the Directory, and none while no
    cell is chosen; so the fibre and antenna sections follow the type of
    the chosen cell. *)
Theorem selected_cell_tracks_form (today : string) (evs : list event) (st : modal) :
  run B preClientId evs (initial preClientId today) = Some st ->
  selectedCell st
  = (if truthy (form st !! "cell_id")
     then find_cell (form st !! "cell_id") (cells st) else None)
  /\ (forall c, selectedCell st = Some c ->
        c ∈ get_cells B
        /\ JS.parseInt (to_string (form st !! "cell_id")) = Some (c_id c))
  /\ (truthy (form st !! "cell_id") = false ->
        isFibra st = false /\ isAntena st = false)
  /\ (truthy (form st !! "cpe_id") = true ->
      truthy (form st !! "cell_id") = true -> isAntena st = true).
Proof.
  intros Hrun.
  destruct (run_inv B preClientId evs _ st (session_inv_initial B preClientId today) Hrun)
    as [Icell Icells Icpe _ _ _ _ _].
  split; [exact Icell |]. split; [| split; [| exact Icpe]].
  - intros c Hc. unfold cell_in_step in Icell. rewrite Hc in Icell.
    destruct (truthy (form st !! "cell_id")); [| done].
    symmetry in Icell. apply find_cell_some in Icell as [Hin Hp].
    split; [| done]. destruct Icells as [He | <-]; [| done].
    rewrite He in Hin. by apply elem_of_nil in Hin.
  - intros Ht. unfold cell_in_step in Icell. rewrite Ht in Icell.
    unfold isFibra, isAntena. by rewrite Icell.
Qed.

(** X12.  The kind of every write of a session matches the cell it names: a
    fibre connection is posted for a cell of the Directory of type
    fibra or hifiber_ipoe, an antenna connection for a cell of the
    Directory of type antenas. *)
Theorem writes_match_cell_type (today : string) (evs : list event) (st : modal)
    (w : write) :
  run B preClientId evs (initial preClientId today) = Some st ->
  w ∈ sent st ->
  match w with
  | PostFiber b => names_cell B (fp_cell_id b) ["fibra"; "hifiber_ipoe"]
  | PostAntenna b => names_cell B (ap_cell_id b) ["antenas"]
  end.
Proof.
  intros Hrun Hw.
  destruct (run_inv B preClientId evs _ st (session_inv_initial B preClientId today) Hrun)
    as [_ _ _ _ _ _ _ Isent].
  specialize (Isent w Hw). destruct w; [by destruct Isent | done].
Qed.

(** X13.  The port and the NAP of every fibre write of a session were on
    offer: the port id is the id of a port that a port listing returned
    as not occupied, the NAP id the id of a NAP that a NAP listing
    returned. *)
Theorem posted_port_was_listed_free (today : string) (evs : list event)
    (st : modal) (body : fiber_payload) :
  run B preClientId evs (initial preClientId today) = Some st ->
  PostFiber body ∈ sent st ->
  (exists p n, fp_nap_port_id body = Some (p_id p)
               /\ p ∈ cascade_ports B n /\ is_occupied p = false)
  /\ (exists np z, fp_nap_id body = Some (n_id np) /\ np ∈ cascade_naps B z).
Proof.
  intros Hrun Hw.
  destruct (run_inv B preClientId evs _ st (session_inv_initial B preClientId today) Hrun)
    as [_ _ _ _ _ _ _ Isent].
  by destruct (Isent _ Hw) as (_ & ? & ?).
Qed.

End SessionCoverage.

Section SessionWitnesses.

Import Cascade Scenario.
Local Open Scope Z_scope.

Lemma selected_cell_tracks_form_witness :
  selectedCell (outcome directory_antenna antenna_session) = Some cellB
  /\ cellB ∈ get_cells directory_antenna
  /\ JS.parseInt (to_string (form (outcome directory_antenna antenna_session) !! "cell_id"))
     = Some 20.
Proof.
  destruct (selected_cell_tracks_form directory_antenna "" today antenna_session
              (outcome directory_antenna antenna_session))
    as (H1 & H2 & _); [by vm_compute |].
  assert (Hc : selectedCell (outcome directory_antenna antenna_session) = Some cellB)
    by (by vm_compute).
  split; [exact Hc |]. exact (H2 cellB Hc).
Defined.

Lemma writes_match_cell_type_witness :
  names_cell directory_antenna
    (ap_cell_id (antenna_body (form (outcome directory_antenna antenna_session))))
    ["antenas"].
Proof.
  apply (writes_match_cell_type directory_antenna "" today antenna_session
           (outcome directory_antenna antenna_session)
           (PostAntenna (antenna_body (form (outcome directory_antenna antenna_session))))).
  - by vm_compute.
  - apply list_elem_of_In. vm_compute. by left.
Defined.

Lemma posted_port_was_listed_free_witness :
  (exists p n,
     fp_nap_port_id (fiber_body (form (outcome directory stale_after_failure)))
     = Some (p_id p)
     /\ p ∈ cascade_ports directory n /\ is_occupied p = false)
  /\ (exists np z,
        fp_nap_id (fiber_body (form (outcome directory stale_after_failure)))
        = Some (n_id np)
        /\ np ∈ cascade_naps directory z).
Proof.
  apply (posted_port_was_listed_free directory "" today stale_after_failure
           (outcome directory stale_after_failure)).
  - by vm_compute.
  - apply list_elem_of_In. vm_compute. by left.
Defined.

End SessionWitnesses.

Section WizardSteps.

Import CellCreateModal.

Lemma getSteps_ext (f f' : gmap string value) :
  f' !! "cell_type" = f !! "cell_type" ->
  f' !! "assignment" = f !! "assignment" ->
  getSteps f' = getSteps f /\ isFibra f' = isFibra f.
Proof.
  intros H1 H2. unfold getSteps, isFibra, isDHCP, is_str. by rewrite H1, H2.
Qed.

Local Ltac pick_case :=
  first [ solve [repeat split; (done || lia)] | left; pick_case | right; pick_case ].

(** Which step sits at which index. *)
Lemma step_names (f : gmap string value) (n : nat) (sn : string) :
  getSteps f !! n = Some sn ->
  (n = 0 /\ sn = "General")
  \/ (n = 1 /\ sn = "MikroTik")
  \/ (n = 2 /\ isFibra f = true /\ sn = "OLT")
  \/ (2 <= n /\ sn = "DHCP")
  \/ (2 <= n /\ sn = "Resumen").
Proof.
  unfold getSteps.
  destruct (isFibra f), (isDHCP f); cbn;
    do 6 (destruct n as [| n]; [cbn; intros [= <-]; pick_case |]);
    cbn; by intros.
Qed.

Lemma getSteps_length (f : gmap string value) : 3 <= length (getSteps f).
Proof. unfold getSteps. destruct (isFibra f), (isDHCP f); cbn; lia. Qed.

Lemma getSteps_head (f : gmap string value) :
  getSteps f !! 0 = Some "General" /\ getSteps f !! 1 = Some "MikroTik"
  /\ (isFibra f = true -> getSteps f !! 2 = Some "OLT").
Proof. unfold getSteps. by destruct (isFibra f), (isDHCP f). Qed.

Lemma handleChange_other (name : string) (v : value) (f : gmap string value)
    (k : string) :
  k <> name -> k <> "olt_brand" -> k <> "olt_total_ports" ->
  CellWizard.handleChange name v f !! k = f !! k.
Proof.
  intros H1 H2 H3. unfold CellWizard.handleChange.
  destruct (String.eqb_spec name "olt_model") as [-> | _].
  - by rewrite !lookup_insert_ne.
  - by rewrite lookup_insert_ne.
Qed.

Lemma type_effect_other (f : gmap string value) (k : string) :
  k <> "assignment" -> CellWizard.type_effect f !! k = f !! k.
Proof. intros H. unfold CellWizard.type_effect. by rewrite lookup_insert_ne. Qed.

Lemma interface_change_other (i : string) (p : option CellWizard.parsed_cidr)
    (f : gmap string value) (k : string) :
  k ∉ [ "mikrotik_interface"; "ipv4_range"; "ipv4_mask"; "ipv4_host_min";
        "ipv4_host_max" ] ->
  CellWizard.handleInterfaceChange i p f !! k = f !! k.
Proof.
  intros H. rewrite !not_elem_of_cons in H. destruct H as (? & ? & ? & ? & ? & _).
  unfold CellWizard.handleInterfaceChange. destruct p; by rewrite !lookup_insert_ne.
Qed.

Lemma open_effect_form (mk : option string) :
  CellWizard.open_effect mk !! "pppoe_service_ip" = Some (VStr "")
  /\ CellWizard.open_effect mk !! "cell_type" = Some (VStr "fibra")
  /\ CellWizard.open_effect mk !! "mikrotik_interface" = Some (VStr "").
Proof.
  unfold CellWizard.open_effect. destruct mk as [h |]; [| by vm_compute].
  destruct (JS.truthy_string h); [| by vm_compute].
  rewrite !lookup_insert_ne by done. by vm_compute.
Qed.

Local Ltac not_in_list :=
  rewrite !not_elem_of_cons; split_and!; first [done | apply not_elem_of_nil].

Local Ltac not_listed H :=
  first
    [ done
    | let Heq := fresh in
      intros Heq; rewrite <- Heq in H; clear -H;
      repeat (destruct H as [H | H]; [discriminate H |]); done ].

(** A change the step on display can produce leaves alone what the
    steps before it have checked. *)
Lemma change_keeps (w : wizard) (name : string) (v : value) :
  can_change w name v = true ->
  let f' := CellWizard.handleChange name v (w_form w) in
  let f'' := if decide (f' !! "cell_type" = w_form w !! "cell_type") then f'
             else CellWizard.type_effect f' in
  f'' !! "pppoe_service_ip" = w_form w !! "pppoe_service_ip"
  /\ f'' !! "mikrotik_interface" = w_form w !! "mikrotik_interface"
  /\ (1 <= w_step w ->
      f'' !! "cell_type" = w_form w !! "cell_type"
      /\ f'' !! "assignment" = w_form w !! "assignment"
      /\ f'' !! "name" = w_form w !! "name")
  /\ (2 <= w_step w -> f'' !! "mikrotik_host" = w_form w !! "mikrotik_host")
  /\ (3 <= w_step w -> isFibra (w_form w) = true ->
      f'' !! "olt_ip" = w_form w !! "olt_ip").
Proof.
  unfold can_change, currentStepName.
  destruct (getSteps (w_form w) !! w_step w) as [sn |] eqn:Hsn; [| done].
  intros [[Hmem _]%andb_prop _]%andb_prop. apply bool_decide_eq_true in Hmem.
  set (f' := CellWizard.handleChange name v (w_form w)).
  set (f'' := if decide (f' !! "cell_type" = w_form w !! "cell_type") then f'
              else CellWizard.type_effect f').
  assert (Hother : forall k, k <> name -> k <> "olt_brand" -> k <> "olt_total_ports" ->
            k <> "assignment" -> f'' !! k = w_form w !! k).
  { intros k H1 H2 H3 H4. subst f'' f'. case_decide.
    - by apply handleChange_other.
    - rewrite type_effect_other by done. by apply handleChange_other. }
  apply step_names in Hsn
    as [[Hn ->] | [[Hn ->] | [(Hn & Hfib & ->) | [[Hn ->] | [Hn ->]]]]];
    cbn in Hmem; rewrite ?elem_of_cons, ?elem_of_nil in Hmem.
  - (* General: no step has been passed *)
    split; [apply Hother; not_listed Hmem |].
    split; [apply Hother; not_listed Hmem |].
    split; [lia |]. split; lia.
  - (* MikroTik *)
    assert (Hct : f' !! "cell_type" = w_form w !! "cell_type").
    { subst f'. apply handleChange_other; not_listed Hmem. }
    assert (Hf : f'' = f') by (subst f''; by rewrite decide_True).
    rewrite Hf. subst f'.
    split; [apply handleChange_other; not_listed Hmem |].
    split; [apply handleChange_other; not_listed Hmem |].
    split; [intros _; split_and!; apply handleChange_other; not_listed Hmem |].
    split; lia.
  - (* OLT *)
    assert (Hct : f' !! "cell_type" = w_form w !! "cell_type").
    { subst f'. apply handleChange_other; not_listed Hmem. }
    assert (Hf : f'' = f') by (subst f''; by rewrite decide_True).
    rewrite Hf. subst f'.
    split; [apply handleChange_other; not_listed Hmem |].
    split; [apply handleChange_other; not_listed Hmem |].
    split; [intros _; split_and!; apply handleChange_other; not_listed Hmem |].
    split; [intros _; apply handleChange_other; not_listed Hmem | lia].
  - (* DHCP *)
    assert (Hct : f' !! "cell_type" = w_form w !! "cell_type").
    { subst f'. apply handleChange_other; not_listed Hmem. }
    assert (Hf : f'' = f') by (subst f''; by rewrite decide_True).
    rewrite Hf. subst f'.
    split; [apply handleChange_other; not_listed Hmem |].
    split; [apply handleChange_other; not_listed Hmem |].
    split; [intros _; split_and!; apply handleChange_other; not_listed Hmem |].
    split; intros; apply handleChange_other; not_listed Hmem.
  - (* Resumen: no control *)
    done.
Qed.

Lemma blank_ext (f f' : gmap string value) (k : string) :
  f' !! k = f !! k -> JS.blank (text f' k) = JS.blank (text f k).
Proof. unfold text. by intros ->. Qed.

Lemma validated_mount : validated mount.
Proof. split; cbn; try lia; [by vm_compute | by exists ""]. Qed.

Lemma step_validated (ev : event) (w w' : wizard) :
  validated w -> step ev w = Some w' ->
  validated w' /\ (w_sent w' = w_sent w
                   \/ exists cell_res olt_ok,
                        shows_next w = false
                        /\ w_sent w' = w_sent w
                             ++ writes (handleSubmit (w_form w) cell_res olt_ok)).
Proof.
  intros [Vstep Vname Vhost Viface Volt Vsvc Vtxt] Hstep.
  destruct ev as [mk | | name v | i p | | | cell_res olt_ok]; cbn [step] in Hstep.
  - (* Open *)
    injection Hstep as <-. split; [| by left].
    destruct (open_effect_form mk) as (Hs & Ht & Hi).
    split; cbn [w_step w_form]; try lia.
    + pose proof (getSteps_length
        (if decide (CellWizard.open_effect mk !! "cell_type" = w_form w !! "cell_type")
         then CellWizard.open_effect mk
         else CellWizard.type_effect (CellWizard.open_effect mk))). lia.
    + case_decide; [done |]. by rewrite type_effect_other.
    + exists "". case_decide; [done |]. by rewrite type_effect_other.
  - (* ClearStorage *)
    case_match; [| done]. injection Hstep as <-. split; [by split | by left].
  - (* Change *)
    destruct (can_change w name v) eqn:Hcan; [| done]. injection Hstep as <-.
    split; [| by left].
    destruct (change_keeps w name v Hcan) as (Ks & Ki & K1 & K2 & K3).
    cbn zeta in Ks, Ki, K1, K2, K3.
    set (f'' := if decide _ then _ else _) in *.
    split; cbn [w_step w_form set_form].
    + destruct (w_step w) as [| n] eqn:Hn.
      * pose proof (getSteps_length f''). lia.
      * destruct K1 as (Kt & Ka & _); [lia |].
        destruct (getSteps_ext (w_form w) f'' Kt Ka) as [-> _]. lia.
    + intros H. destruct (K1 H) as (_ & _ & Kn). rewrite (blank_ext _ _ _ Kn). auto.
    + intros H. rewrite (blank_ext _ _ _ (K2 H)). auto.
    + intros H. rewrite (blank_ext _ _ _ Ki). auto.
    + intros H Hfib. destruct K1 as (Kt & Ka & _); [lia |].
      destruct (getSteps_ext (w_form w) f'' Kt Ka) as [_ Hf]. rewrite Hf in Hfib.
      rewrite (blank_ext _ _ _ (K3 H Hfib)). auto.
    + by rewrite Ks.
    + by rewrite Ki.
  - (* InterfaceChange *)
    destruct (at_step (currentStepName w) "MikroTik") eqn:Hat; [| done].
    injection Hstep as <-. split; [| by left].
    unfold at_step, currentStepName in Hat.
    destruct (getSteps (w_form w) !! w_step w) as [sn |] eqn:Hsn; [| done].
    apply String.eqb_eq in Hat as ->.
    apply step_names in Hsn
      as [[_ [=]] | [[Hn _] | [(_ & _ & [=]) | [[_ [=]] | [_ [=]]]]]].
    set (p' := match w_storedMk w with Some _ => p | None => None end).
    assert (Hk : forall k,
              k ∉ [ "mikrotik_interface"; "ipv4_range"; "ipv4_mask"; "ipv4_host_min";
                    "ipv4_host_max" ] ->
              (if decide (CellWizard.handleInterfaceChange i p' (w_form w) !! "cell_type"
                          = w_form w !! "cell_type")
               then CellWizard.handleInterfaceChange i p' (w_form w)
               else CellWizard.type_effect
                      (CellWizard.handleInterfaceChange i p' (w_form w))) !! k
              = w_form w !! k).
    { intros k Hnin.
      destruct (decide (CellWizard.handleInterfaceChange i p' (w_form w) !! "cell_type"
                        = w_form w !! "cell_type")) as [_ | Hbad].
      - by apply interface_change_other.
      - exfalso. apply Hbad. apply interface_change_other. not_in_list. }
    set (f'' := if decide _ then _ else _) in *.
    split; cbn [w_step w_form set_form].
    + pose proof (getSteps_length f''). lia.
    + intros _. rewrite (blank_ext (w_form w) f'' "name"); [apply Vname; lia |].
      apply Hk. not_in_list.
    + lia.
    + lia.
    + lia.
    + rewrite Hk; [done | not_in_list].
    + exists i. subst f''.
      destruct (decide (CellWizard.handleInterfaceChange i p' (w_form w) !! "cell_type"
                        = w_form w !! "cell_type")) as [_ | _];
        rewrite ?type_effect_other by done;
        unfold CellWizard.handleInterfaceChange; destruct p';
        rewrite ?lookup_insert_ne by done; by rewrite lookup_insert_eq.
  - (* Next *)
    destruct (shows_next w) eqn:Hnext; [| done]. injection Hstep as <-.
    split; [| left; unfold nextStep; by destruct (validateStep _ _)].
    unfold shows_next in Hnext. apply Nat.ltb_lt in Hnext.
    unfold nextStep.
    destruct (validateStep (w_form w) (currentStepName w)) as [msg |] eqn:Hval.
    { by split. }
    destruct (getSteps_head (w_form w)) as (H0 & H1 & H2).
    unfold validateStep, currentStepName in Hval.
    split; cbn [w_step w_form]; try done; try lia.
    + intros _. destruct (w_step w) as [| n]; [| apply Vname; lia].
      rewrite H0 in Hval. cbn in Hval.
      by destruct (JS.blank (text (w_form w) "name")).
    + intros H. destruct (decide (w_step w = 1)) as [He | Hne]; [| apply Vhost; lia].
      rewrite He, H1 in Hval. cbn in Hval.
      by destruct (JS.blank (text (w_form w) "mikrotik_host")).
    + intros H. destruct (decide (w_step w = 1)) as [He | Hne]; [| apply Viface; lia].
      rewrite He, H1 in Hval. cbn in Hval.
      destruct (JS.blank (text (w_form w) "mikrotik_host")); [done |].
      by destruct (JS.blank (text (w_form w) "mikrotik_interface")).
    + intros H Hfib. destruct (decide (w_step w = 2)) as [He | Hne]; [| apply Volt; [lia | done]].
      rewrite He, (H2 Hfib) in Hval. cbn in Hval.
      by destruct (JS.blank (text (w_form w) "olt_ip")).
  - (* Prev *)
    case_match; [| done]. injection Hstep as <-. split; [| by left].
    split; cbn [prevStep w_step w_form]; try done; try lia;
      intros; first [apply Vname | apply Vhost | apply Viface | apply Volt]; try done; lia.
  - (* Submit *)
    destruct (shows_next w) eqn:Hnext; [done |]. injection Hstep as <-.
    split; [by split |]. right. by exists cell_res, olt_ok.
Qed.

End WizardSteps.

Section WizardCoverage.

Import CellCreateModal.

Lemma or_null_text (f : gmap string value) (k s : string) :
  f !! k = Some (VStr s) ->
  JS.blank (text f k) = false ->
  or_null f k = Some (VStr s) /\ JS.all_spaces s = false.
Proof.
  unfold text, or_null. rewrite blank_spec. intros ->. cbn.
  destruct s; [done |]. done.
Qed.

(** On the last step the form has passed every check. *)
Lemma last_step_checked (w : wizard) :
  validated w -> shows_next w = false ->
  currentStepName w = Some "Resumen"
  /\ JS.blank (text (w_form w) "name") = false
  /\ JS.blank (text (w_form w) "mikrotik_host") = false
  /\ JS.blank (text (w_form w) "mikrotik_interface") = false
  /\ (isFibra (w_form w) = true -> JS.blank (text (w_form w) "olt_ip") = false)
  /\ checked_cell (payload_of (w_form w)).
Proof.
  intros [Vstep Vname Vhost Viface Volt Vsvc [s Vtxt]] Hlast.
  unfold shows_next in Hlast. apply Nat.ltb_ge in Hlast.
  pose proof (getSteps_length (w_form w)) as Hlen.
  assert (Hidx : w_step w = length (getSteps (w_form w)) - 1) by lia.
  assert (Hfib : isFibra (w_form w) = true -> 3 <= w_step w).
  { intros Hf. rewrite Hidx. unfold getSteps. rewrite Hf.
    destruct (isDHCP (w_form w)); cbn; lia. }
  assert (Hname : JS.blank (text (w_form w) "name") = false) by (apply Vname; lia).
  assert (Hhost : JS.blank (text (w_form w) "mikrotik_host") = false)
    by (apply Vhost; lia).
  assert (Hif : JS.blank (text (w_form w) "mikrotik_interface") = false)
    by (apply Viface; lia).
  split.
  { unfold currentStepName. rewrite Hidx. unfold getSteps.
    destruct (isFibra (w_form w)), (isDHCP (w_form w)); reflexivity. }
  split; [done |]. split; [done |]. split; [done |].
  split; [intros Hf; apply Volt; auto |].
  unfold checked_cell, payload_of.
  cbn [cw_name cw_mikrotik_host cw_mikrotik_interface cw_pppoe_service_ip
       cw_mikrotik_api_port].
  rewrite <- !blank_spec. split; [exact Hname |]. split; [exact Hhost |].
  split.
  { destruct (or_null_text _ _ s Vtxt Hif) as [Hv Hs]. exists (VStr s). by rewrite Hv. }
  split.
  { unfold when, or_null. rewrite Vsvc. by destruct (isPPPoE (w_form w)). }
  unfold JS.parseInt_or. destruct (JS.parseInt _) as [z |]; [| done].
  by destruct (Z.eqb_spec z 0).
Qed.

Lemma handleSubmit_writes (f : gmap string value) (cell_res : option string + Z)
    (olt_ok : bool) (w : write) :
  w ∈ writes (handleSubmit f cell_res olt_ok) ->
  w = PostCell (payload_of f) \/ exists id, w = PostOlt id (olt_payload_of f).
Proof.
  unfold handleSubmit. destruct cell_res as [d | id]; cbn.
  - intros ->%list_elem_of_singleton. by left.
  - destruct (isFibra f && negb (JS.blank (text f "olt_ip"))); cbn.
    + rewrite !elem_of_cons, elem_of_nil. intros [-> | [-> | []]]; eauto.
    + intros ->%list_elem_of_singleton. by left.
Qed.

Lemma run_wizard_inv (evs : list event) (w0 w : wizard) :
  wizard_inv w0 -> run evs w0 = Some w -> wizard_inv w.
Proof.
  revert w0. induction evs as [| ev evs IH]; intros w0 Inv Hrun; cbn in Hrun.
  - by injection Hrun as <-.
  - destruct (step ev w0) as [w1 |] eqn:Hstep; [| done].
    apply (IH w1); [| done]. destruct Inv as [Hv Hs].
    destruct (step_validated ev w0 w1 Hv Hstep) as [Hv1 Hsent].
    split; [done |]. intros body Hb.
    destruct Hsent as [He | (cell_res & olt_ok & Hlast & He)]; rewrite He in Hb;
      [by apply Hs |].
    apply elem_of_app in Hb as [Hb | Hb]; [by apply Hs |].
    apply handleSubmit_writes in Hb as [[= ->] | [id [=]]].
    by destruct (last_step_checked w0 Hv Hlast) as (_ & _ & _ & _ & _ & ?).
Qed.

Lemma wizard_inv_mount : wizard_inv mount.
Proof.
  split; [apply validated_mount |]. intros body Hb. by apply elem_of_nil in Hb.
Qed.

(** X14.  A step is always on display, and the "Crear Célula" button is
    reached only through the checks of the steps before it: where it is
    on offer the step is the summary, and name, router host and
    interface are not blank, nor is the OLT address of a fibre cell; so
    the cell request is followed by the OLT request whenever a fibre
    cell has been created.  Every cell the wizard has posted carried a
    name, a host and an interface that are not blank, no PPPoE service
    address and a non-zero API port. *)
Theorem create_button_behind_validation (evs : list event) (w : wizard) :
  run evs mount = Some w ->
  is_Some (currentStepName w)
  /\ (shows_next w = false ->
      currentStepName w = Some "Resumen"
      /\ JS.all_spaces (text (w_form w) "name") = false
      /\ JS.all_spaces (text (w_form w) "mikrotik_host") = false
      /\ JS.all_spaces (text (w_form w) "mikrotik_interface") = false
      /\ (isFibra (w_form w) = true ->
          JS.all_spaces (text (w_form w) "olt_ip") = false)
      /\ forall (id : Z) (olt_ok : bool),
           writes (handleSubmit (w_form w) (inr id) olt_ok)
           = PostCell (payload_of (w_form w))
             :: (if isFibra (w_form w)
                 then [ PostOlt id (olt_payload_of (w_form w)) ] else []))
  /\ (forall body, PostCell body ∈ w_sent w -> checked_cell body).
Proof.
  intros Hrun.
  destruct (run_wizard_inv evs mount w wizard_inv_mount Hrun) as [Hv Hs].
  split.
  { apply lookup_lt_is_Some. by destruct Hv. }
  split; [| exact Hs].
  intros Hlast.
  destruct (last_step_checked w Hv Hlast) as (Hc & Hn & Hh & Hi & Ho & _).
  rewrite <- !blank_spec. split_and!; try done.
  intros id olt_ok. unfold handleSubmit.
  destruct (isFibra (w_form w)) eqn:Hf; [| done].
  by rewrite (Ho eq_refl).
Qed.

Lemma create_button_behind_validation_witness :
  run fibre_session mount = Some (outcome fibre_session)
  /\ length (w_sent (outcome fibre_session)) = 2
  /\ forall body, PostCell body ∈ w_sent (outcome fibre_session) -> checked_cell body.
Proof.
  assert (Hrun : run fibre_session mount = Some (outcome fibre_session))
    by (by vm_compute).
  split; [exact Hrun |]. split; [by vm_compute |].
  by apply (create_button_behind_validation fibre_session (outcome fibre_session) Hrun).
Defined.

(** X15.  Choosing a model of the table fills the brand and the port count
    of that model and touches nothing else; the port count is one the
    port select offers, and the form the wizard opens with agrees with
    the table. *)
Theorem olt_model_fills_brand_and_ports (f : gmap string value)
    (m : CellWizard.olt_model) :
  m ∈ CellWizard.OLT_MODELS ->
  let f' := CellWizard.handleChange "olt_model" (VStr (CellWizard.om_value m)) f in
  f' !! "olt_model" = Some (VStr (CellWizard.om_value m))
  /\ f' !! "olt_brand" = Some (VStr (CellWizard.om_brand m))
  /\ f' !! "olt_total_ports" = Some (VStr (pretty (CellWizard.om_ports m)))
  /\ JS.parseInt (text f' "olt_total_ports") = Some (CellWizard.om_ports m)
  /\ CellWizard.offers f' "olt_total_ports" (VStr (pretty (CellWizard.om_ports m))) = true
  /\ (forall k, k ∉ [ "olt_model"; "olt_brand"; "olt_total_ports" ] ->
        f' !! k = f !! k)
  /\ (exists m0, m0 ∈ CellWizard.OLT_MODELS
        /\ CellWizard.EMPTY !! "olt_model" = Some (VStr (CellWizard.om_value m0))
        /\ CellWizard.EMPTY !! "olt_brand" = Some (VStr (CellWizard.om_brand m0))
        /\ CellWizard.EMPTY !! "olt_total_ports"
           = Some (VStr (pretty (CellWizard.om_ports m0)))).
Proof.
  intros Hm f'.
  assert (Hk : forall k, k ∉ [ "olt_model"; "olt_brand"; "olt_total_ports" ] ->
            f' !! k = f !! k).
  { intros k Hnin. rewrite !not_elem_of_cons in Hnin.
    destruct Hnin as (? & ? & ? & _). by apply handleChange_other. }
  assert (H0 : exists m0, m0 ∈ CellWizard.OLT_MODELS
        /\ CellWizard.EMPTY !! "olt_model" = Some (VStr (CellWizard.om_value m0))
        /\ CellWizard.EMPTY !! "olt_brand" = Some (VStr (CellWizard.om_brand m0))
        /\ CellWizard.EMPTY !! "olt_total_ports"
           = Some (VStr (pretty (CellWizard.om_ports m0)))).
  { eexists. split; [by left |]. by vm_compute. }
  unfold CellWizard.OLT_MODELS in Hm.
  repeat (apply elem_of_cons in Hm as [-> | Hm];
          [subst f'; unfold CellWizard.handleChange, text; cbn;
           split_and!;
           repeat first [rewrite lookup_insert_eq | rewrite lookup_insert_ne by done];
           done |]).
  by apply elem_of_nil in Hm.
Qed.

Lemma olt_model_fills_brand_and_ports_witness :
  let f' := CellWizard.handleChange "olt_model" (VStr "VSOL V2800") CellWizard.EMPTY in
  f' !! "olt_brand" = Some (VStr "vsol")
  /\ f' !! "olt_total_ports" = Some (VStr "32").
Proof.
  destruct (olt_model_fills_brand_and_ports CellWizard.EMPTY
              {| CellWizard.om_value := "VSOL V2800";
                 CellWizard.om_label := "VSOL V2800 (VSOL)";
                 CellWizard.om_brand := "vsol"; CellWizard.om_ports := 32 |})
    as (_ & Hb & Hp & _).
  - unfold CellWizard.OLT_MODELS. rewrite !elem_of_cons. do 4 right. by left.
  - split; [exact Hb | exact Hp].
Defined.

End WizardCoverage.

Section CellDataCoverage.

Import Cascade.
Local Open Scope Z_scope.

Variable B : backend.
Variable preClientId : string.

Lemma set_ports_same (st : modal) : ports st = [] -> set_ports [] st = st.
Proof. destruct st. cbn. by intros ->. Qed.

Lemma set_naps_same (st : modal) : naps st = [] -> set_naps [] st = st.
Proof. destruct st. cbn. by intros ->. Qed.

(** The state after a new cell has been chosen and the renders have
    settled. *)
Lemma step_select_cell_request (st st1 : modal) (c : string) :
  step B preClientId (Change "cell_id" (VStr c)) st = Some st1 ->
  JS.truthy_string c = true ->
  form st !! "cell_id" <> Some (VStr c) ->
  st1 = issue (ReqCellData c (find_cell (Some (VStr c)) (cells st)))
          (set_ipPool [] (set_ports [] (set_naps [] (set_zones []
             (set_form (reset_cascade (<[ "cell_id" := VStr c ]> (form st)))
                (set_selectedCell (find_cell (Some (VStr c)) (cells st)) st)))))).
Proof.
  intros Hstep Hc Hne. unfold step, handle in Hstep.
  destruct (can_change preClientId st "cell_id" (VStr c)) eqn:Hcan; [| done].
  cbn in Hstep. injection Hstep as <-.
  set (st0 := update_form "cell_id" (VStr c) st).
  unfold settle.
  assert (H1 : run_effects (deps_of st) st0
               = issue (ReqCellData c (find_cell (Some (VStr c)) (cells st)))
                   (set_ipPool [] (set_ports [] (set_naps [] (set_zones []
                      (set_form (reset_cascade (form st0))
                         (set_selectedCell (find_cell (Some (VStr c)) (cells st)) st0))))))).
  { unfold run_effects.
    destruct (decide (dep_cell (deps_of st) = dep_cell (deps_of st0)
                      /\ dep_cells (deps_of st) = dep_cells (deps_of st0))) as [[Hbad _] | _].
    { exfalso. apply Hne. subst st0. cbn in Hbad. by simplify_map_eq. }
    destruct (decide (dep_zone (deps_of st) = dep_zone (deps_of st0))) as [_ | Hbad];
      [| exfalso; apply Hbad; subst st0; cbn; by simplify_map_eq].
    destruct (decide (dep_nap (deps_of st) = dep_nap (deps_of st0))) as [_ | Hbad];
      [| exfalso; apply Hbad; subst st0; cbn; by simplify_map_eq].
    unfold cell_effect. subst st0. cbn. simplify_map_eq. cbn. by rewrite Hc. }
  rewrite H1. clear H1.
  set (st' := issue _ _).
  assert (Hform : form st' = reset_cascade (<[ "cell_id" := VStr c ]> (form st))) by done.
  unfold run_effects.
  destruct (decide (dep_cell (deps_of st0) = dep_cell (deps_of st')
                    /\ dep_cells (deps_of st0) = dep_cells (deps_of st'))) as [_ | Hbad];
    [| exfalso; apply Hbad; unfold deps_of; rewrite Hform; subst st0;
       unfold reset_cascade; cbn; by simplify_map_eq].
  assert (Hz : truthy (dep_zone (deps_of st')) = false).
  { unfold deps_of. rewrite Hform. unfold reset_cascade. cbn. by simplify_map_eq. }
  assert (Hn : truthy (dep_nap (deps_of st')) = false).
  { unfold deps_of. rewrite Hform. unfold reset_cascade. cbn. by simplify_map_eq. }
  unfold zone_effect, nap_effect. rewrite Hz, Hn. cbn [negb].
  destruct (decide (dep_zone (deps_of st0) = dep_zone (deps_of st')));
    destruct (decide (dep_nap (deps_of st0) = dep_nap (deps_of st')));
    rewrite ?(set_ports_same (set_naps [] st')) by reflexivity;
    rewrite ?(set_naps_same st') by reflexivity;
    rewrite ?(set_ports_same st') by reflexivity;
    reflexivity.
Qed.

Lemma step_cell_data_arrived (st : modal) (c : string) (found : option cell)
    (o : cell_data_outcome) (l : list request) :
  answer (ReqCellData c found) (pending st) = Some l ->
  step B preClientId (CellDataArrived c found o) st
  = Some (cell_data_arrived B c found o (set_pending l st)).
Proof.
  intros Hl. unfold step, handle, answered. rewrite Hl. cbn. f_equal.
  apply settle_same. unfold cell_data_arrived. repeat case_match; reflexivity.
Qed.

(** The keys the reset of the cascade empties, and those it leaves. *)
Lemma reset_cascade_cleared (f : gmap string value) (k : string) :
  k ∈ ["plan_id"; "olt_zone_id"; "nap_id"; "nap_port_id"; "onu_id"; "cpe_id"] ->
  reset_cascade f !! k = Some (VStr "").
Proof.
  intros Hk. unfold reset_cascade.
  repeat (apply elem_of_cons in Hk as [-> | Hk]; [by simplify_map_eq |]).
  by apply elem_of_nil in Hk.
Qed.

Lemma reset_cascade_kept (f : gmap string value) (c : value) (k : string) :
  k ∉ ["cell_id"; "plan_id"; "olt_zone_id"; "nap_id"; "nap_port_id";
       "onu_id"; "cpe_id"] ->
  reset_cascade (<[ "cell_id" := c ]> f) !! k = f !! k.
Proof.
  intros Hk. unfold reset_cascade.
  rewrite !lookup_insert_ne; [done | ..]; intros <-; apply Hk; set_solver.
Qed.

(** X16.  When the answer to the request for the data of a newly chosen
    cell is the next event after the choice, the form then offers the
    plans and free addresses of that cell and opens the section of its
    type: for a fibre cell the zones of the cell and the free ONUs,
    with no CPE select; for an antenna cell the free CPEs, with no
    zone, NAP, port or ONU select; for a cell of another type, or one
    that is not in the list, neither.  The plan, zone, NAP, port, ONU
    and CPE keys of the form are empty; every other key but the cell is
    as it was, the address among them, which the reset does not clear.
    The NAP and port lists are empty.  When the plans or the pool cannot
    be loaded, one error message is raised and no ONU, CPE or zone is
    loaded.  Nothing is said here of an answer that arrives later, after
    other events. *)
Theorem cell_data_opens_section (st st1 : modal) (c : string) :
  step B preClientId (Change "cell_id" (VStr c)) st = Some st1 ->
  JS.truthy_string c = true ->
  form st !! "cell_id" <> Some (VStr c) ->
  let found := find_cell (Some (VStr c)) (cells st) in
  (exists st2,
     step B preClientId (CellDataArrived c found AllOk) st1 = Some st2
     /\ form st2 = reset_cascade (<[ "cell_id" := VStr c ]> (form st))
     /\ (forall k, k ∈ ["plan_id"; "olt_zone_id"; "nap_id"; "nap_port_id"; "onu_id"; "cpe_id"] ->
           form st2 !! k = Some (VStr ""))
     /\ (forall k, k ∉ ["cell_id"; "plan_id"; "olt_zone_id"; "nap_id"; "nap_port_id";
                        "onu_id"; "cpe_id"] ->
           form st2 !! k = form st !! k)
     /\ form st2 !! "ip_address" = form st !! "ip_address"
     /\ selectedCell st2 = found
     /\ plans st2 = get_plans B c
     /\ ipPool st2 = get_free_ips B c
     /\ naps st2 = [] /\ ports st2 = []
     /\ toasts st2 = toasts st
     /\ control_of preClientId st2 "plan_id" = Select (option_values pl_id (get_plans B c))
     /\ (isFibra st2 = true ->
         zones st2 = get_zones B c /\ onus st2 = get_onus B
         /\ control_of preClientId st2 "olt_zone_id"
            = Select (option_values z_id (get_zones B c))
         /\ control_of preClientId st2 "onu_id" = Select (option_values d_id (get_onus B))
         /\ control_of preClientId st2 "cpe_id" = Absent)
     /\ (isAntena st2 = true ->
         cpes st2 = get_cpes B /\ zones st2 = []
         /\ control_of preClientId st2 "cpe_id" = Select (option_values d_id (get_cpes B))
         /\ control_of preClientId st2 "olt_zone_id" = Absent
         /\ control_of preClientId st2 "onu_id" = Absent)
     /\ (isFibra st2 = false -> isAntena st2 = false ->
         zones st2 = [] /\ onus st2 = onus st /\ cpes st2 = cpes st
         /\ control_of preClientId st2 "ip_address" = Absent
         /\ control_of preClientId st2 "cpe_id" = Absent
         /\ control_of preClientId st2 "olt_zone_id" = Absent))
  /\ (forall o, o = PlansFailed \/ o = PoolFailed ->
      exists st2,
        step B preClientId (CellDataArrived c found o) st1 = Some st2
        /\ toasts st2 = toasts st ++ [Toast_error "Error al cargar datos de célula"]
        /\ zones st2 = [] /\ ipPool st2 = []
        /\ onus st2 = onus st /\ cpes st2 = cpes st).
Proof.
  intros Hstep Hc Hne found.
  pose proof (step_select_cell_request st st1 c Hstep Hc Hne) as ->.
  fold found. set (st1 := issue _ _).
  destruct (answer_in (ReqCellData c found) (pending st1)) as [l Hl].
  { subst st1. cbn. apply elem_of_app. right. by apply list_elem_of_singleton. }
  assert (Hcid : reset_cascade (<[ "cell_id" := VStr c ]> (form st)) !! "cell_id"
                 = Some (VStr c)).
  { unfold reset_cascade. rewrite !lookup_insert_ne by done. by rewrite lookup_insert_eq. }
  split.
  - exists (cell_data_arrived B c found AllOk (set_pending l st1)).
    split; [by apply step_cell_data_arrived |].
    assert (Hform : form (cell_data_arrived B c found AllOk (set_pending l st1))
                    = reset_cascade (<[ "cell_id" := VStr c ]> (form st))).
    { unfold cell_data_arrived. cbv zeta.
      destruct (cell_is found "fibra" || cell_is found "hifiber_ipoe"); [reflexivity |].
      destruct (cell_is found "antenas"); reflexivity. }
    split; [exact Hform |].
    split; [intros k Hk; rewrite Hform; by apply reset_cascade_cleared |].
    split; [intros k Hk; rewrite Hform; by apply reset_cascade_kept |].
    split.
    { rewrite Hform. apply reset_cascade_kept. intros Hin.
      repeat (apply elem_of_cons in Hin as [Hin | Hin]; [discriminate |]).
      by apply elem_of_nil in Hin. }
    unfold cell_data_arrived, cell_is, isFibra, isAntena, control_of.
    destruct found as [cell |] eqn:Hfound; cbn.
    + destruct (String.eqb (cell_type cell) "fibra") eqn:E1.
      { assert (String.eqb (cell_type cell) "antenas" = false) as E3.
        { apply String.eqb_eq in E1. by rewrite E1. }
        rewrite ?E1, ?E3. cbn. rewrite ?E1, ?E3, Hcid. cbn. rewrite Hc.
        split_and!; try done; intros; split_and!; done. }
      destruct (String.eqb (cell_type cell) "hifiber_ipoe") eqn:E2.
      { assert (String.eqb (cell_type cell) "antenas" = false) as E3.
        { apply String.eqb_eq in E2. by rewrite E2. }
        rewrite ?E1, ?E2, ?E3. cbn. rewrite ?E1, ?E2, ?E3, Hcid. cbn. rewrite Hc.
        split_and!; try done; intros; split_and!; done. }
      destruct (String.eqb (cell_type cell) "antenas") eqn:E3;
        rewrite ?E1, ?E2, ?E3; cbn; rewrite ?E1, ?E2, ?E3, Hcid; cbn; rewrite Hc;
        split_and!; try done; intros; split_and!; done.
    + rewrite Hcid. cbn. rewrite Hc. split_and!; try done; intros; split_and!; done.
  - intros o [-> | ->].
    + exists (cell_data_arrived B c found PlansFailed (set_pending l st1)).
      split; [by apply step_cell_data_arrived |]. done.
    + exists (cell_data_arrived B c found PoolFailed (set_pending l st1)).
      split; [by apply step_cell_data_arrived |]. done.
Qed.

End CellDataCoverage.

Section CellDataWitness.

Import Cascade Scenario.
Local Open Scope Z_scope.

Lemma cell_data_opens_section_witness :
  let st := outcome directory_antenna
              [ InitialArrived true; Change "client_id" (VStr "1") ] in
  let st1 := outcome directory_antenna
               [ InitialArrived true; Change "client_id" (VStr "1");
                 Change "cell_id" (VStr "20") ] in
  exists st2,
    step directory_antenna "" (CellDataArrived "20" (Some cellB) AllOk) st1 = Some st2
    /\ control_of "" st2 "cpe_id" = Select [""; "5"]
    /\ control_of "" st2 "olt_zone_id" = Absent.
Proof.
  intros st st1.
  destruct (cell_data_opens_section directory_antenna "" st st1 "20")
    as [(st2 & Hs & _ & _ & _ & _ & Hsel & _ & _ & _ & _ & _ & _ & _ & Hant & _) _].
  - by vm_compute.
  - reflexivity.
  - by vm_compute.
  - exists st2. split; [exact Hs |].
    destruct Hant as (_ & _ & H1 & H2 & _).
    { unfold isAntena. rewrite Hsel. by vm_compute. }
    split; [exact H1 | exact H2].
Defined.

End CellDataWitness.

Section LoadFailure.

Import Cascade.
Local Open Scope Z_scope.

Variable B : backend.
Variable preClientId : string.

Lemma answer_some (r : request) (l l' : list request) :
  answer r l = Some l' -> r ∈ l /\ forall x, x ∈ l' -> x ∈ l.
Proof.
  revert l'. induction l as [| r' l IH]; intros l'; cbn; [done |].
  destruct (decide (r = r')) as [<- | Hne].
  - intros [= <-]. split; [by left |]. intros x Hx. by right.
  - destruct (answer r l) as [l0 |]; [| done]. cbn. intros [= <-].
    destruct (IH l0 eq_refl) as [Hin Hsub]. split; [by right |].
    intros x [-> | Hx]%elem_of_cons; [by left | right; auto].
Qed.

(** The effects send no initial load and raise no message. *)
Lemma effects_pending (d : deps) (st : modal) :
  let keeps (st' : modal) :=
    toasts st' = toasts st
    /\ (ReqInitial ∈ pending st' -> ReqInitial ∈ pending st) in
  keeps (cell_effect d st) /\ keeps (zone_effect d st) /\ keeps (nap_effect d st).
Proof.
  unfold cell_effect, zone_effect, nap_effect.
  split_and!; case_match; cbn; try done;
    by intros [? | [=]%list_elem_of_singleton]%elem_of_app.
Qed.

Lemma run_effects_pending (old : deps) (st : modal) :
  toasts (run_effects old st) = toasts st
  /\ (ReqInitial ∈ pending (run_effects old st) -> ReqInitial ∈ pending st).
Proof.
  destruct (run_effects_stages old st) as (st1 & st2 & H1 & H2 & H3).
  destruct (effects_pending (deps_of st) st) as [[T1 P1] _].
  destruct (effects_pending (deps_of st) st1) as (_ & [T2 P2] & _).
  destruct (effects_pending (deps_of st) st2) as (_ & _ & [T3 P3]).
  assert (K1 : toasts st1 = toasts st
               /\ (ReqInitial ∈ pending st1 -> ReqInitial ∈ pending st)).
  { destruct H1 as [-> | ->]; auto. }
  assert (K2 : toasts st2 = toasts st
               /\ (ReqInitial ∈ pending st2 -> ReqInitial ∈ pending st)).
  { destruct K1 as [K1t K1p]. destruct H2 as [-> | ->]; [auto |].
    split; [congruence | auto]. }
  destruct K2 as [K2t K2p]. destruct H3 as [-> | ->]; [auto |].
  split; [congruence | auto].
Qed.

Lemma settle_pending (old : deps) (st : modal) :
  toasts (settle old st) = toasts st
  /\ (ReqInitial ∈ pending (settle old st) -> ReqInitial ∈ pending st).
Proof.
  unfold settle.
  destruct (run_effects_pending old st) as [T1 P1].
  destruct (run_effects_pending (deps_of st) (run_effects old st)) as [T2 P2].
  split; [congruence | auto].
Qed.

(** The handlers send no initial load and only add messages. *)
Lemma handle_pending (ev : event) (st h : modal) :
  handle B preClientId ev st = Some h ->
  (forall t, t ∈ toasts st -> t ∈ toasts h)
  /\ (forall r, r ∈ pending h -> r ∈ pending st)
  /\ (forall ok, ev = InitialArrived ok -> ReqInitial ∈ pending st).
Proof.
  assert (Happ : forall (l : list toast) t x, t ∈ l -> t ∈ l ++ [x]).
  { intros l t x Ht. apply elem_of_app. by left. }
  unfold handle, answered.
  destruct ev as [ok | key v | cid found o | z ok | n ok | | err]; cbn.
  - destruct (answer ReqInitial (pending st)) as [l |] eqn:Hl; [| done].
    cbn. intros [= <-]. destruct (answer_some _ _ _ Hl) as [Hin Hsub].
    unfold initial_arrived. destruct ok; cbn; auto.
  - case_match; [| done]. intros [= <-]. cbn. split_and!; auto. intros ? [=].
  - destruct (answer (ReqCellData cid found) (pending st)) as [l |] eqn:Hl; [| done].
    cbn. intros [= <-]. destruct (answer_some _ _ _ Hl) as [Hin Hsub].
    unfold cell_data_arrived.
    repeat case_match; cbn; (split_and!; [auto | auto | intros ? [=]]).
  - destruct (answer (ReqNaps z) (pending st)) as [l |] eqn:Hl; [| done].
    cbn. intros [= <-]. destruct (answer_some _ _ _ Hl) as [Hin Hsub].
    unfold naps_arrived. destruct ok; cbn; (split_and!; [auto | auto | intros ? [=]]).
  - destruct (answer (ReqPorts n) (pending st)) as [l |] eqn:Hl; [| done].
    cbn. intros [= <-]. destruct (answer_some _ _ _ Hl) as [Hin Hsub].
    unfold ports_arrived. destruct ok; cbn; (split_and!; [auto | auto | intros ? [=]]).
  - intros [= <-]. unfold handleSubmit.
    repeat case_match; cbn; (split_and!; [auto | auto | intros ? [=]]).
  - case_match; [| done]. intros [= <-]. unfold write_settled.
    repeat case_match; cbn; (split_and!; [auto | auto | intros ? [=]]).
Qed.

Lemma can_change_cell (st : modal) (v : value) :
  can_change preClientId st "cell_id" v = true ->
  exists s, v = VStr s /\ s ∈ option_values c_id (cells st).
Proof.
  unfold can_change.
  change (control_of preClientId st "cell_id")
    with (Select (option_values c_id (cells st))).
  destruct v as [s | b]; [| done].
  intros H%bool_decide_eq_true. by exists s.
Qed.

Lemma step_initial_failed (st : modal) (l : list request) :
  answer ReqInitial (pending st) = Some l ->
  step B preClientId (InitialArrived false) st
  = Some (toast_error "Error al cargar datos" (set_pending l st)).
Proof.
  intros Hl. unfold step, handle, answered. rewrite Hl. cbn. f_equal.
  by apply settle_same.
Qed.

Lemma step_load_failed (ev : event) (st st' : modal) :
  load_failed st -> step B preClientId ev st = Some st' -> load_failed st'.
Proof.
  intros [Kcells Kcid Kpend Ksent Ktoast] Hstep. unfold step in Hstep.
  destruct (handle B preClientId ev st) as [h |] eqn:Hh; [| done].
  cbn in Hstep. injection Hstep as <-.
  destruct (handle_frame B preClientId ev st h Hh) as (_ & _ & Hcases).
  destruct (handle_pending ev st h Hh) as (Ht & Hp & Hinit).
  destruct (settle_frame (deps_of st) h) as (_ & Fsent & Fcells & Fcid & _ & _).
  destruct (settle_pending (deps_of st) h) as [St Sp].
  assert (Hh3 : cells h = [] /\ form h !! "cell_id" = Some (VStr "") /\ sent h = []).
  { destruct Hcases as [(Hf & Hc & Hs) | [(_ & _ & ok & ->) | [(_ & ->) | (key & v & -> & Hcan & ->)]]].
    - by rewrite Hf, Hc, Hs.
    - exfalso. apply Kpend. by apply (Hinit ok).
    - destruct (handleSubmit_keeps st) as [-> ->]. split; [done |]. split; [done |].
      destruct (handleSubmit_cases st)
        as [(Hs & _) | [(_ & Hall & _) | (_ & Hall & _)]]; [congruence | |];
        rewrite Forall_forall in Hall; exfalso;
        (assert (Hc : truthy (form st !! "cell_id") = true);
         [apply Hall; right; by left | by rewrite Kcid in Hc]).
    - cbn. split; [done |]. split; [| done].
      destruct (decide (key = "cell_id")) as [-> | Hne];
        [| by rewrite lookup_insert_ne].
      rewrite lookup_insert_eq.
      apply can_change_cell in Hcan as (s & -> & Hs).
      rewrite Kcells in Hs. by apply list_elem_of_singleton in Hs as ->. }
  destruct Hh3 as (Hc & Hk & Hs).
  split.
  - congruence.
  - congruence.
  - intros Hin. apply Kpend. auto.
  - congruence.
  - rewrite St. auto.
Qed.

Lemma run_load_failed (evs : list event) (st0 st : modal) :
  load_failed st0 -> run B preClientId evs st0 = Some st -> load_failed st.
Proof.
  revert st0. induction evs as [| ev evs IH]; intros st0 Inv Hrun; cbn in Hrun.
  - by injection Hrun as <-.
  - destruct (step B preClientId ev st0) as [s1 |] eqn:Hstep; [| done].
    apply (IH s1); [| done]. by eapply step_load_failed.
Qed.

(** X18.  When the initial load of clients and cells fails, the form
    raises "Error al cargar datos" and from then on can send nothing:
    whatever the operator does, the cell list stays empty, the cell
    select offers only its placeholder, no cell is ever chosen and no
    connection request leaves. *)
Theorem failed_initial_load_blocks_session (today : string) (evs : list event)
    (st : modal) :
  run B preClientId (InitialArrived false :: evs) (initial preClientId today) = Some st ->
  sent st = []
  /\ cells st = []
  /\ control_of preClientId st "cell_id" = Select [""]
  /\ form st !! "cell_id" = Some (VStr "")
  /\ isFibra st = false /\ isAntena st = false
  /\ Toast_error "Error al cargar datos" ∈ toasts st
  /\ sent (handleSubmit st) = [].
Proof.
  intros Hrun. cbn [run] in Hrun.
  destruct (step B preClientId (InitialArrived false) (initial preClientId today))
    as [st0 |] eqn:Hstep; [| done].
  assert (H0 : load_failed st0).
  { rewrite (step_initial_failed _ []) in Hstep by reflexivity.
    injection Hstep as <-.
    split; [reflexivity | reflexivity | apply not_elem_of_nil | reflexivity |].
    by apply list_elem_of_singleton. }
  assert (Hinv : session_inv B st).
  { apply (run_inv B preClientId (InitialArrived false :: evs)
             (initial preClientId today)); [apply session_inv_initial |].
    cbn [run]. by rewrite Hstep. }
  destruct (run_load_failed evs st0 st H0 Hrun) as [Kcells Kcid Kpend Ksent Ktoast].
  destruct Hinv as [Icell _ _ _ _ _ _ _]. unfold cell_in_step in Icell.
  rewrite Kcid in Icell. cbn in Icell.
  split; [done |]. split; [done |].
  split; [unfold control_of; cbn; by rewrite Kcells |].
  split; [done |].
  split; [unfold isFibra; by rewrite Icell |].
  split; [unfold isAntena; by rewrite Icell |].
  split; [done |].
  destruct (handleSubmit_cases st)
    as [(Hs & _) | [(_ & Hall & _) | (_ & Hall & _)]]; [congruence | |];
    rewrite Forall_forall in Hall; exfalso;
    (assert (Hc : truthy (form st !! "cell_id") = true);
     [apply Hall; right; by left | by rewrite Kcid in Hc]).
Qed.

End LoadFailure.

Section LoadFailureWitness.

Import Cascade Scenario.

Lemma failed_initial_load_blocks_session_witness :
  let st := outcome directory
              [ InitialArrived false;
                Change "contract_date" (VStr "2026-02-01");
                Change "cell_id" (VStr "");
                Submit ] in
  sent st = []
  /\ toasts st = [ Toast_error "Error al cargar datos";
                   Toast_error "Selecciona un cliente" ].
Proof.
  intros st.
  destruct (failed_initial_load_blocks_session directory "" today
              [ Change "contract_date" (VStr "2026-02-01");
                Change "cell_id" (VStr "");
                Submit ] st) as (Hs & _); [by vm_compute |].
  split; [exact Hs | by vm_compute].
Defined.

End LoadFailureWitness.

Section OltCoverage.

Import Olt.

Lemma olt_form_checked (f : OltConnectForm.form) (c : olt_creds) :
  OltConnectForm.handleSubmit f = inr c -> checked c.
Proof.
  unfold OltConnectForm.handleSubmit. rewrite !blank_spec.
  destruct (JS.all_spaces (OltConnectForm.f_host f)) eqn:H1; [done |].
  destruct (JS.all_spaces (OltConnectForm.f_ssh_username f)) eqn:H2; [done |].
  destruct (JS.all_spaces (OltConnectForm.f_ssh_password f)) eqn:H3; [done |].
  destruct (JS.truthy_string (OltConnectForm.f_brand f)) eqn:H4; [| done].
  cbn. intros [= <-]. unfold checked. cbn. split_and!; try done.
  unfold JS.parseInt_or. destruct (JS.parseInt _) as [z |]; [| done].
  by destruct (Z.eqb_spec z 0).
Qed.

Lemma answer_of_subset (r : request) (l l' : list request) :
  answer_of r l = Some l' -> r ∈ l /\ forall x, x ∈ l' -> x ∈ l.
Proof.
  revert l'. induction l as [| r' l IH]; intros l'; cbn; [done |].
  destruct (decide (r = r')) as [<- | Hne].
  - intros [= <-]. split; [by left |]. intros x Hx. by right.
  - destruct (answer_of r l) as [l0 |]; [| done]. cbn. intros [= <-].
    destruct (IH l0 eq_refl) as [Hin Hsub]. split; [by right |].
    intros x [-> | Hx]%elem_of_cons; [by left | right; auto].
Qed.

Lemma connects_app (l l' : list request) :
  connects (l ++ l') = connects l + connects l'.
Proof. induction l as [| [c | c] l IH]; cbn; lia. Qed.

Lemma connects_answer (r : request) (l l' : list request) :
  answer_of r l = Some l' ->
  connects l = match r with
               | ReqConnect _ => S (connects l')
               | ReqRefresh _ => connects l'
               end.
Proof.
  revert l'. induction l as [| r' l IH]; intros l'; cbn; [done |].
  destruct (decide (r = r')) as [<- | Hne].
  - intros [= <-]. by destruct r.
  - destruct (answer_of r l) as [l0 |]; [| done]. cbn. intros [= <-].
    specialize (IH l0 eq_refl). destruct r, r'; cbn; lia.
Qed.

Lemma connects_pos (l : list request) :
  0 < connects l <-> exists c, ReqConnect c ∈ l.
Proof.
  induction l as [| [c | c] l IH]; cbn.
  - split; [lia | intros [c Hc]; by apply elem_of_nil in Hc].
  - split; [intros _; exists c; by left | lia].
  - rewrite IH. split; intros [c' Hc'].
    + exists c'. by right.
    + exists c'. by apply elem_of_cons in Hc' as [? | ?].
Qed.

Lemma tab_inv_initial : tab_inv initial.
Proof.
  split; cbn.
  - split; intros [? ?]; done.
  - done.
  - done.
  - intros r Hr. by apply elem_of_nil in Hr.
  - done.
Qed.

Lemma step_tab_inv (ev : event) (st st' : tab) :
  tab_inv st -> step ev st = Some st' -> tab_inv st'.
Proof.
  intros [Ipair Iconn Icreds Ipend Ibusy] Hstep.
  destruct ev as [f | c res | | | c res | m]; cbn [step] in Hstep.
  - (* Submit *)
    destruct (oltInfo st) eqn:Hinfo; [done |].
    destruct (connecting st) eqn:Hbusy; [done |]. injection Hstep as <-.
    destruct (OltConnectForm.handleSubmit f) as [msg | c] eqn:Hf.
    + split; cbn; rewrite ?Hinfo, ?Hbusy; assumption.
    + apply olt_form_checked in Hf. split; cbn; rewrite ?Hinfo.
      * assumption.
      * assumption.
      * assumption.
      * intros r [Hr | ->%list_elem_of_singleton]%elem_of_app; [by apply Ipend | done].
      * rewrite connects_app, Ibusy. cbn. lia.
  - (* ConnectSettled *)
    destruct (answer_of (ReqConnect c) (pending st)) as [l |] eqn:Hl; [| done].
    cbn in Hstep. injection Hstep as <-.
    destruct (answer_of_subset _ _ _ Hl) as [Hin Hsub].
    pose proof (connects_answer _ _ _ Hl) as Hcount. cbn in Hcount.
    assert (Hzero : connects l = 0).
    { rewrite Hcount in Ibusy. destruct (connecting st); lia. }
    assert (Hpend : forall r, r ∈ l -> checked (creds_of r)) by auto.
    unfold connect_settled. destruct res as [detail | a].
    + split; cbn; assumption.
    + destruct (connected a) eqn:Ha.
      * split; cbn.
        -- split; intros _; by eexists.
        -- by intros ? [= <-].
        -- intros ? [= <-]. apply (Ipend (ReqConnect c) Hin).
        -- assumption.
        -- assumption.
      * split; cbn; assumption.
  - (* Disconnect *)
    destruct (oltInfo st); [| done]. injection Hstep as <-.
    split; cbn.
    + split; intros [? ?]; done.
    + done.
    + done.
    + assumption.
    + assumption.
  - (* Refresh *)
    destruct (oltInfo st) eqn:Hinfo; [| done].
    destruct (loadingOnus st); [done |]. injection Hstep as <-.
    unfold handleRefreshOnus_begin.
    destruct (creds st) as [c |] eqn:Hc.
    + split; cbn; rewrite ?Hinfo, ?Hc.
      * assumption.
      * assumption.
      * assumption.
      * intros r [Hr | ->%list_elem_of_singleton]%elem_of_app; [by apply Ipend |].
        by apply Icreds.
      * rewrite connects_app. cbn. lia.
    + split; rewrite ?Hinfo, ?Hc; assumption.
  - (* RefreshSettled *)
    destruct (answer_of (ReqRefresh c) (pending st)) as [l |] eqn:Hl; [| done].
    cbn in Hstep. injection Hstep as <-.
    destruct (answer_of_subset _ _ _ Hl) as [Hin Hsub].
    pose proof (connects_answer _ _ _ Hl) as Hcount. cbn in Hcount.
    assert (Hpend : forall r, r ∈ l -> checked (creds_of r)) by auto.
    assert (Hbusy : connects l = if connecting st then 1 else 0) by congruence.
    unfold refresh_settled.
    destruct res as [a |]; split; cbn; assumption.
  - (* SetAuthMode *)
    destruct (oltInfo st) eqn:Hinfo; [| done].
    case_bool_decide; [| done]. injection Hstep as <-.
    split; cbn; rewrite ?Hinfo; assumption.
Qed.

Lemma run_tab_inv (evs : list event) (st0 st : tab) :
  tab_inv st0 -> run evs st0 = Some st -> tab_inv st.
Proof.
  revert st0. induction evs as [| ev evs IH]; intros st0 Inv Hrun; cbn in Hrun.
  - by injection Hrun as <-.
  - destruct (step ev st0) as [s1 |] eqn:Hstep; [| done].
    apply (IH s1); [| done]. by eapply step_tab_inv.
Qed.

(** X17.  In every session of the OLT tab the OLT is on display exactly
    while credentials are kept, and only after an answer that reports
    [connected]; the credentials kept, and those of every request in
    flight, passed the checks of the form (host, user and password not
    blank, a brand, a non-zero port); the form's button is busy exactly
    while one connection attempt is in flight, and there is never more
    than one; and the refresh button, which only the OLT view shows,
    always sends its request.  An attempt that is rejected, or answered
    without [connected], changes neither view nor credentials and
    raises one error message, which is never empty. *)
Theorem olt_view_needs_connected_answer (evs : list event) (st : tab) :
  run evs initial = Some st ->
  (is_Some (oltInfo st) <-> is_Some (creds st))
  /\ (forall a, oltInfo st = Some a -> connected a = true)
  /\ (forall c, creds st = Some c -> checked c)
  /\ (forall r, r ∈ pending st -> checked (creds_of r))
  /\ connects (pending st) <= 1
  /\ (connecting st = true <-> exists c, ReqConnect c ∈ pending st)
  /\ (is_Some (oltInfo st) ->
      exists c, creds st = Some c
                /\ pending (handleRefreshOnus_begin st) = pending st ++ [ReqRefresh c])
  /\ (forall c res,
        (forall a, res = inr a -> connected a = false) ->
        let st' := connect_settled c res st in
        render st' = match oltInfo st with
                     | None => ShowConnectForm false
                     | Some _ => render st
                     end
        /\ creds st' = creds st
        /\ exists msg, toasts st' = toasts st ++ [Toast_error msg]
                       /\ JS.truthy_string msg = true).
Proof.
  intros Hrun.
  destruct (run_tab_inv evs initial st tab_inv_initial Hrun)
    as [Ipair Iconn Icreds Ipend Ibusy].
  split; [done |]. split; [done |]. split; [done |]. split; [done |].
  split; [rewrite Ibusy; destruct (connecting st); lia |].
  split.
  { rewrite <- connects_pos, Ibusy. destruct (connecting st); split; (done || lia). }
  split.
  { intros [c Hc]%Ipair. exists c. split; [done |].
    unfold handleRefreshOnus_begin. by rewrite Hc. }
  intros c res Hres st'. subst st'. unfold connect_settled, render.
  assert (Hmsg : forall a b, JS.truthy_string b = true ->
            JS.truthy_string (or_else a b) = true).
  { intros a b Hb. unfold or_else. by destruct (JS.truthy_string a) eqn:Ha. }
  destruct res as [detail | a].
  - cbn. split; [by destruct (oltInfo st) |]. split; [done |].
    eexists. split; [done |]. by apply Hmsg.
  - rewrite (Hres a eq_refl). cbn. split; [by destruct (oltInfo st) |].
    split; [done |]. eexists. split; [done |]. by apply Hmsg.
Qed.

Lemma olt_view_needs_connected_answer_witness :
  run sample_session initial = Some (outcome sample_session)
  /\ oltInfo (outcome sample_session) = Some accepted
  /\ creds (outcome sample_session) = Some sample_creds
  /\ checked sample_creds.
Proof.
  assert (Hrun : run sample_session initial = Some (outcome sample_session))
    by (by vm_compute).
  split; [exact Hrun |].
  destruct (olt_view_needs_connected_answer sample_session (outcome sample_session) Hrun)
    as (_ & _ & Hc & _).
  split; [by vm_compute |]. split; [by vm_compute |].
  apply Hc. by vm_compute.
Defined.

End OltCoverage.

Section StoredRouter.

Import CellCreateModal.

Lemma all_spaces_truthy (s : string) :
  JS.all_spaces s = false -> JS.truthy_string s = true.
Proof. by destruct s. Qed.

Lemma connect_form_host (f : Connect.ConnectForm.form) (c : Connect.credentials) :
  Connect.ConnectForm.handleSubmit f = inr c ->
  JS.all_spaces (Connect.host c) = false.
Proof.
  unfold Connect.ConnectForm.handleSubmit. rewrite !blank_spec.
  destruct (JS.all_spaces (Connect.ConnectForm.f_host f)) eqn:H1; [done |].
  destruct (JS.all_spaces (Connect.ConnectForm.f_username f)); [done |].
  destruct (JS.all_spaces (Connect.ConnectForm.f_password f)); [done |].
  by intros [= <-].
Qed.

(** X19.  A router connected through the connection form pre-fills the
    wizard: the host the form passed on is stored with the interfaces
    of the router, the wizard opens on its first step with that host,
    which passes the wizard's own check, and keeps the host field
    locked on every step; after a disconnection the wizard opens with
    an empty host that can be edited. *)
Theorem stored_router_prefills_wizard (f : Connect.ConnectForm.form)
    (c : Connect.credentials) (info : Connect.system_info) (pg : Connect.page)
    (w : wizard) :
  Connect.ConnectForm.handleSubmit f = inr c ->
  let pg' := Connect.system_info_settled c (inr info) (Connect.handleConnect_begin pg) in
  Connect.stored pg' = Some (Connect.host c, Connect.interfaces info)
  /\ (exists w',
        step (Open (storedMk_of (Connect.stored pg'))) w = Some w'
        /\ w_step w' = 0
        /\ w_form w' !! "mikrotik_host" = Some (VStr (Connect.host c))
        /\ JS.blank (text (w_form w') "mikrotik_host") = false
        /\ host_locked w' = true)
  /\ (forall w1 v, w_storedMk w1 = Some (Connect.host c) ->
        can_change w1 "mikrotik_host" v = false)
  /\ (exists w',
        step (Open (storedMk_of (Connect.stored (Connect.handleDisconnect pg')))) w
        = Some w'
        /\ w_form w' !! "mikrotik_host" = Some (VStr "")
        /\ host_locked w' = false).
Proof.
  intros Hf pg'.
  pose proof (connect_form_host f c Hf) as Hhost.
  pose proof (all_spaces_truthy _ Hhost) as Htruthy.
  split; [done |]. split; [| split].
  - eexists. split; [reflexivity |]. cbn [w_step w_form w_storedMk].
    split; [done |].
    assert (Hk : forall g : gmap string value,
              g !! "mikrotik_host" = Some (VStr (Connect.host c)) ->
              (if decide (g !! "cell_type" = w_form w !! "cell_type") then g
               else CellWizard.type_effect g) !! "mikrotik_host"
              = Some (VStr (Connect.host c))).
    { intros g Hg. case_decide; [done |]. by rewrite type_effect_other. }
    assert (Ho : CellWizard.open_effect (storedMk_of (Connect.stored pg'))
                 !! "mikrotik_host" = Some (VStr (Connect.host c))).
    { cbn. rewrite Htruthy. by rewrite lookup_insert_eq. }
    split; [by apply Hk |]. split.
    + unfold text. rewrite (Hk _ Ho). cbn. by rewrite blank_spec.
    + unfold host_locked. cbn. exact Htruthy.
  - intros w1 v Hst. unfold can_change, host_locked. rewrite Hst, Htruthy.
    destruct (currentStepName w1); [| done]. cbn.
    by rewrite andb_false_r.
  - exists {| w_step := 0;
              w_form := if decide (CellWizard.EMPTY !! "cell_type"
                                   = w_form w !! "cell_type")
                        then CellWizard.EMPTY
                        else CellWizard.type_effect CellWizard.EMPTY;
              w_storedMk := None;
              w_sent := w_sent w; w_rejections := w_rejections w |}.
    split; [reflexivity |]. cbn [w_form]. split; [| done].
    destruct (decide (CellWizard.EMPTY !! "cell_type" = w_form w !! "cell_type"));
      [by vm_compute |].
    rewrite type_effect_other by done. by vm_compute.
Qed.

Lemma stored_router_prefills_wizard_witness :
  let f := {| Connect.ConnectForm.f_host := "172.168.10.1";
              Connect.ConnectForm.f_username := "admin";
              Connect.ConnectForm.f_password := "secret";
              Connect.ConnectForm.f_port := "8728";
              Connect.ConnectForm.f_use_ssl := false |} in
  exists w',
    step (Open (Some "172.168.10.1")) mount = Some w'
    /\ w_form w' !! "mikrotik_host" = Some (VStr "172.168.10.1")
    /\ host_locked w' = true.
Proof.
  intros f.
  destruct (stored_router_prefills_wizard f
              {| Connect.host := "172.168.10.1"; Connect.username := "admin";
                 Connect.password := "secret"; Connect.port := 8728;
                 Connect.use_ssl := false |}
              {| Connect.identity := "Nodo"; Connect.board_name := "RB4011";
                 Connect.version := "7.11"; Connect.uptime := "1d";
                 Connect.interfaces := [] |}
              Connect.initial mount)
    as (_ & (w' & Hs & _ & Hh & _ & Hl) & _); [reflexivity |].
  exists w'. split; [exact Hs |]. split; [exact Hh | exact Hl].
Defined.

End StoredRouter.
